(** * secret-manager: authorization, write-through and audit trail

    A shallow embedding of the server side of the secret manager
    ([shared/schema.ts], [server/pg-storage.ts], [server/storage.ts] and
    [server/routes.ts]) together with the properties of its permission
    checks, of the two-store write discipline and of the activity log.

    Conventions of the embedding:
    - identifiers ([serial] columns, map keys) are [nat];
    - text is a [string] holding the UTF-8 bytes of a well-formed Unicode
      text; [===], concatenation and [replace(/ /g, "-")] act on the bytes
      as they act on the text, [.length] and [toLowerCase] do not and are
      modelled apart ([Js.length], the [toLowerCase] the handlers are given);
    - a nullable column is an [option];
    - a key that a request body may omit is an [option] (absent = [None]);
    - a table of the relational store is the list of its rows in insertion
      order, with its sequence next to it;
    - [new Date()] is a [nat] handed to the code that reads the clock;
    - the AWS SSM client is a function from the command sent to its outcome,
      the only thing the server observes of the parameter store;
    - a route handler is a computation over the relational store that also
      emits the storage calls and SSM commands it issues, in program order. *)

From Stdlib Require Import List String Ascii Arith Bool Lia PeanoNat DecimalString.
From Stdlib Require Import Permutation Sorted.
Import ListNotations.

Local Open Scope string_scope.
Local Open Scope list_scope.
Local Open Scope nat_scope.

(* ------------------------------------------------------------------ *)
(** ** JavaScript string helpers used by the routes *)

Module Js.

Fixpoint mapChars (f : ascii -> ascii) (s : string) : string :=
  match s with
  | EmptyString => EmptyString
  | String c rest => String (f c) (mapChars f rest)
  end.

(** [s.toLowerCase()] follows the Unicode case mapping, which this
    development does not redo: the code that calls it takes the built-in as
    a function [toLowerCase : string -> string] it is given. What the
    built-in does to a text of ASCII characters only is [asciiLower]: the
    letters [A] to [Z] become [a] to [z], every other character stays. *)
Definition asciiLowerChar (c : ascii) : ascii :=
  let n := nat_of_ascii c in
  if (65 <=? n) && (n <=? 90) then ascii_of_nat (n + 32) else c.

Definition asciiLower (s : string) : string := mapChars asciiLowerChar s.

(** Every character of the text is an ASCII character. *)
Fixpoint isAscii (s : string) : bool :=
  match s with
  | EmptyString => true
  | String c rest => (nat_of_ascii c <? 128) && isAscii rest
  end.

(** What the built-in does on ASCII text. *)
Definition lowersAscii (toLowerCase : string -> string) : Prop :=
  forall s, isAscii s = true -> toLowerCase s = asciiLower s.

(** The UTF-16 code units of the character that a byte of the UTF-8 form
    starts: one for a character of one, two or three bytes, two for a
    character of four bytes (a surrogate pair), none for a continuation
    byte. *)
Definition codeUnits (c : ascii) : nat :=
  let n := nat_of_ascii c in
  if n <? 128 then 1
  else if n <? 192 then 0
  else if n <? 240 then 1
  else 2.

(** [s.length]: the number of UTF-16 code units of the text. *)
Fixpoint length (s : string) : nat :=
  match s with
  | EmptyString => 0
  | String c rest => codeUnits c + length rest
  end.

(** What [replace(/ /g, "-")] does to one byte. *)
Definition hyphenate (c : ascii) : ascii :=
  if Ascii.eqb c " "%char then "-"%char else c.

(** [s.replace(/ /g, "-")] *)
Definition replaceSpaces (s : string) : string := mapChars hyphenate s.

(** What [toLowerCase] followed by [replace(/ /g, "-")] does to one ASCII
    character. *)
Definition formatAscii (c : ascii) : ascii := hyphenate (asciiLowerChar c).

(** [`${n}`] for a number *)
Definition showNat (n : nat) : string := NilZero.string_of_uint (Nat.to_uint n).

(** [`${x}`] for [string | undefined] *)
Definition showOpt (o : option string) : string :=
  match o with Some s => s | None => "undefined" end.

(** [list.includes(x)] on an array of strings *)
Definition includes (l : list string) (x : string) : bool :=
  existsb (String.eqb x) l.

(** Truthiness of a [string | undefined]: the empty string is falsy. *)
Definition truthyStr (o : option string) : bool :=
  match o with
  | Some s => negb (String.eqb s "")
  | None => false
  end.

(** Truthiness of a [boolean | null | undefined]. *)
Definition truthyBool (o : option (option bool)) : bool :=
  match o with
  | Some (Some true) => true
  | _ => false
  end.

End Js.

(* ------------------------------------------------------------------ *)
(** ** shared/schema.ts: row types and insert types *)

Module User.
Record t := mk {
  id : nat;
  username : string;
  password : string;
  email : string;
  fullName : string;
  role : string          (* admin, user *)
}.
End User.

Module InsertUser.
Record t := mk {
  username : string;
  password : string;
  email : string;
  fullName : string;
  role : option string   (* column default "user" *)
}.
End InsertUser.

Module Project.
Record t := mk {
  id : nat;
  name : string;
  description : option string
}.
End Project.

Module InsertProject.
Record t := mk {
  name : string;
  description : option string
}.
End InsertProject.

Module UserProject.
Record t := mk {
  id : nat;
  userId : nat;
  projectId : nat;
  role : string          (* admin, editor, viewer *)
}.
End UserProject.

Module InsertUserProject.
Record t := mk {
  userId : nat;
  projectId : nat;
  role : option string   (* column default "viewer" *)
}.
End InsertUserProject.

Module Secret.
Record t := mk {
  id : nat;
  name : string;
  value : string;
  description : option string;
  projectId : nat;
  ssmPath : string;
  isEncrypted : option bool
}.
End Secret.

Module InsertSecret.
Record t := mk {
  name : string;
  value : string;
  description : option string;
  projectId : nat;
  ssmPath : string;
  isEncrypted : option (option bool)  (* absent: column default false *)
}.
End InsertSecret.

(** [Partial<InsertSecret>]: every key may be absent. *)
Module PartialSecret.
Record t := mk {
  name : option string;
  value : option string;
  description : option (option string);
  projectId : option nat;
  ssmPath : option string;
  isEncrypted : option (option bool)
}.
Definition empty : t := mk None None None None None None.
End PartialSecret.

Module ActivityLog.
Record t := mk {
  id : nat;
  userId : nat;
  action : string;        (* created, updated, deleted, viewed *)
  resourceType : string;  (* secret, project, user *)
  resourceId : nat;
  details : option string;
  timestamp : nat
}.
End ActivityLog.

Module InsertActivityLog.
Record t := mk {
  userId : nat;
  action : string;
  resourceType : string;
  resourceId : nat;
  details : option string
}.
End InsertActivityLog.

(** [Partial<InsertProject>]: every key may be absent. *)
Module PartialProject.
Record t := mk {
  name : option string;
  description : option (option string)
}.
End PartialProject.

(** Value of an optional key, or the column default. *)
Definition withDefault {A : Type} (d : A) (o : option A) : A :=
  match o with Some a => a | None => d end.

(** [ORDER BY timestamp DESC] and
    [.sort((a, b) => b.timestamp - a.timestamp)]: a stable sort, newest
    first. *)
Fixpoint insertNewestFirst (x : ActivityLog.t) (l : list ActivityLog.t)
  : list ActivityLog.t :=
  match l with
  | [] => [x]
  | y :: ys =>
      if ActivityLog.timestamp y <=? ActivityLog.timestamp x
      then x :: y :: ys
      else y :: insertNewestFirst x ys
  end.

Fixpoint sortNewestFirst (l : list ActivityLog.t) : list ActivityLog.t :=
  match l with
  | [] => []
  | x :: xs => insertNewestFirst x (sortNewestFirst xs)
  end.

(** [.set(patch)] on a row of [secrets], and [{ ...existing, ...patch }]:
    the keys present in the patch take the patch's value, the others keep
    theirs. *)
Definition applyPatch (p : PartialSecret.t) (s : Secret.t) : Secret.t :=
  Secret.mk (Secret.id s)
            (withDefault (Secret.name s) (PartialSecret.name p))
            (withDefault (Secret.value s) (PartialSecret.value p))
            (withDefault (Secret.description s) (PartialSecret.description p))
            (withDefault (Secret.projectId s) (PartialSecret.projectId p))
            (withDefault (Secret.ssmPath s) (PartialSecret.ssmPath p))
            (withDefault (Secret.isEncrypted s) (PartialSecret.isEncrypted p)).

(** The patch has no key at all: [{}]. *)
Definition noValues (p : PartialSecret.t) : bool :=
  match PartialSecret.name p, PartialSecret.value p,
        PartialSecret.description p, PartialSecret.projectId p,
        PartialSecret.ssmPath p, PartialSecret.isEncrypted p with
  | None, None, None, None, None, None => true
  | _, _, _, _, _, _ => false
  end.

(** [.set(patch)] on a row of [projects]. *)
Definition applyProjectPatch (p : PartialProject.t) (r : Project.t)
  : Project.t :=
  Project.mk (Project.id r)
             (withDefault (Project.name r) (PartialProject.name p))
             (withDefault (Project.description r) (PartialProject.description p)).

Definition noProjectValues (p : PartialProject.t) : bool :=
  match PartialProject.name p, PartialProject.description p with
  | None, None => true
  | _, _ => false
  end.

(** [a] may come before [b] in a list ordered newest first. *)
Definition newerOrSame (a b : ActivityLog.t) : Prop :=
  ActivityLog.timestamp b <= ActivityLog.timestamp a.

(** The entry was stamped at time [t]. *)
Definition atTime (t : nat) (l : ActivityLog.t) : bool :=
  ActivityLog.timestamp l =? t.

(* ------------------------------------------------------------------ *)
(** ** server/pg-storage.ts: the relational store in use *)

Module PgStorage.

(** The five tables with their [serial] sequences. *)
Record Db := mkDb {
  users : list User.t;
  users_id_seq : nat;
  projects : list Project.t;
  projects_id_seq : nat;
  user_projects : list UserProject.t;
  user_projects_id_seq : nat;
  secrets : list Secret.t;
  secrets_id_seq : nat;
  activity_logs : list ActivityLog.t;
  activity_logs_id_seq : nat
}.

(** A freshly migrated database: empty tables, sequences at 1. *)
Definition emptyDb : Db := mkDb [] 1 [] 1 [] 1 [] 1 [] 1.

(** What a storage call throws: the driver's unique violation, whose [code]
    "23505" the routes inspect, and the [Error("No values to set")] that
    drizzle's [.set] throws for a patch without keys, before any statement
    is sent. *)
Inductive StorageError := UniqueViolation | NoValuesToSet.

(** [update(t).set(..).where(hit).returning()] on the rows of a table: the
    rows the condition selects are rewritten, and the table then holds the
    rows it left alone, in their order, followed by the new versions of the
    rewritten rows, which are also what [returning()] yields. *)
Definition updateWhere {A : Type} (hit : A -> bool) (set : A -> A)
  (rows : list A) : list A * list A :=
  let results := map set (filter hit rows) in
  (filter (fun r => negb (hit r)) rows ++ results, results).

Definition set_users (db : Db) (l : list User.t) (n : nat) : Db :=
  mkDb l n (projects db) (projects_id_seq db) (user_projects db)
       (user_projects_id_seq db) (secrets db) (secrets_id_seq db)
       (activity_logs db) (activity_logs_id_seq db).

Definition set_projects (db : Db) (l : list Project.t) (n : nat) : Db :=
  mkDb (users db) (users_id_seq db) l n (user_projects db)
       (user_projects_id_seq db) (secrets db) (secrets_id_seq db)
       (activity_logs db) (activity_logs_id_seq db).

Definition set_user_projects (db : Db) (l : list UserProject.t) (n : nat) : Db :=
  mkDb (users db) (users_id_seq db) (projects db) (projects_id_seq db) l n
       (secrets db) (secrets_id_seq db)
       (activity_logs db) (activity_logs_id_seq db).

Definition set_secrets (db : Db) (l : list Secret.t) (n : nat) : Db :=
  mkDb (users db) (users_id_seq db) (projects db) (projects_id_seq db)
       (user_projects db) (user_projects_id_seq db) l n
       (activity_logs db) (activity_logs_id_seq db).

Definition set_activity_logs (db : Db) (l : list ActivityLog.t) (n : nat) : Db :=
  mkDb (users db) (users_id_seq db) (projects db) (projects_id_seq db)
       (user_projects db) (user_projects_id_seq db)
       (secrets db) (secrets_id_seq db) l n.

(** *** User methods *)

Definition getUser (id : nat) (db : Db) : option User.t :=
  find (fun u => User.id u =? id) (users db).

Definition getUserByUsername (username : string) (db : Db) : option User.t :=
  find (fun u => String.eqb (User.username u) username) (users db).

(** [username] and [email] are [unique()] columns. *)
Definition userConflict (u : InsertUser.t) (db : Db) : bool :=
  existsb (fun r => String.eqb (User.username r) (InsertUser.username u)
                    || String.eqb (User.email r) (InsertUser.email u))
          (users db).

(** [insert(users).values(user).returning()]. The sequence value is drawn
    before the unique constraints are checked, so a rejected insert still
    consumes it. *)
Definition createUser (u : InsertUser.t) (db : Db) : Db * (StorageError + User.t) :=
  let id := users_id_seq db in
  if userConflict u db then (set_users db (users db) (S id), inl UniqueViolation)
  else
    let row := User.mk id (InsertUser.username u) (InsertUser.password u)
                       (InsertUser.email u) (InsertUser.fullName u)
                       (withDefault "user" (InsertUser.role u)) in
    (set_users db (users db ++ [row]) (S id), inr row).

Definition getUsers (db : Db) : list User.t := users db.

(** *** Project methods *)

Definition getProject (id : nat) (db : Db) : option Project.t :=
  find (fun p => Project.id p =? id) (projects db).

Definition getProjects (db : Db) : list Project.t := projects db.

Definition createProject (p : InsertProject.t) (db : Db) : Db * Project.t :=
  let id := projects_id_seq db in
  let row := Project.mk id (InsertProject.name p) (InsertProject.description p) in
  (set_projects db (projects db ++ [row]) (S id), row).

(** *** Secret methods *)

Definition getSecret (id : nat) (db : Db) : option Secret.t :=
  find (fun s => Secret.id s =? id) (secrets db).

Definition getSecrets (db : Db) : list Secret.t := secrets db.

Definition getProjectSecrets (projectId : nat) (db : Db) : list Secret.t :=
  filter (fun s => Secret.projectId s =? projectId) (secrets db).

Definition createSecret (s : InsertSecret.t) (db : Db) : Db * Secret.t :=
  let id := secrets_id_seq db in
  let row := Secret.mk id (InsertSecret.name s) (InsertSecret.value s)
                       (InsertSecret.description s) (InsertSecret.projectId s)
                       (InsertSecret.ssmPath s)
                       (withDefault (Some false) (InsertSecret.isEncrypted s)) in
  (set_secrets db (secrets db ++ [row]) (S id), row).

(** [update(secrets).set(secret).where(eq(secrets.id, id)).returning()],
    then [results[0]]. *)
Definition updateSecret (id : nat) (p : PartialSecret.t) (db : Db)
  : Db * (StorageError + option Secret.t) :=
  if noValues p then (db, inl NoValuesToSet)
  else
    let updated :=
      updateWhere (fun s => Secret.id s =? id) (applyPatch p) (secrets db) in
    (set_secrets db (fst updated) (secrets_id_seq db),
     inr (hd_error (snd updated))).

Definition deleteSecret (id : nat) (db : Db) : Db * bool :=
  (set_secrets db (filter (fun s => negb (Secret.id s =? id)) (secrets db))
               (secrets_id_seq db),
   existsb (fun s => Secret.id s =? id) (secrets db)).

(** *** User Project Role methods *)

Definition samePair (userId projectId : nat) (up : UserProject.t) : bool :=
  (UserProject.userId up =? userId) && (UserProject.projectId up =? projectId).

Definition getUserProject (userId projectId : nat) (db : Db)
  : option UserProject.t :=
  find (samePair userId projectId) (user_projects db).

(** [insert(userProjects).values(userProject).returning()]; the table
    declares no constraint over [(user_id, project_id)]. *)
Definition assignUserToProject (up : InsertUserProject.t) (db : Db)
  : Db * UserProject.t :=
  let id := user_projects_id_seq db in
  let row := UserProject.mk id (InsertUserProject.userId up)
                            (InsertUserProject.projectId up)
                            (withDefault "viewer" (InsertUserProject.role up)) in
  (set_user_projects db (user_projects db ++ [row]) (S id), row).

Definition updateUserProjectRole (userId projectId : nat) (role : string)
  (db : Db) : Db * option UserProject.t :=
  let updated :=
    updateWhere (samePair userId projectId)
                (fun up => UserProject.mk (UserProject.id up)
                             (UserProject.userId up)
                             (UserProject.projectId up) role)
                (user_projects db) in
  (set_user_projects db (fst updated) (user_projects_id_seq db),
   hd_error (snd updated)).

Definition removeUserFromProject (userId projectId : nat) (db : Db)
  : Db * bool :=
  (set_user_projects db
     (filter (fun up => negb (samePair userId projectId up)) (user_projects db))
     (user_projects_id_seq db),
   existsb (samePair userId projectId) (user_projects db)).

(** The membership rows of a project (the user enrichment of the source
    adds a [user] key to each row and is not part of the row type). *)
Definition getProjectUsers (projectId : nat) (db : Db) : list UserProject.t :=
  filter (fun up => UserProject.projectId up =? projectId) (user_projects db).

(** [getUserProjects(userId)]: the projects the user has a row for. *)
Definition getUserProjects (userId : nat) (db : Db) : list Project.t :=
  let projectIds :=
    map UserProject.projectId
        (filter (fun up => UserProject.userId up =? userId) (user_projects db)) in
  match projectIds with
  | [] => []
  | [pid] => filter (fun p => Project.id p =? pid) (projects db)
  | _ => filter (fun p => existsb (Nat.eqb (Project.id p)) projectIds)
                (projects db)
  end.

(** *** Activity Log methods *)

Definition getActivityLogs (db : Db) : list ActivityLog.t :=
  sortNewestFirst (activity_logs db).

Definition getUserActivityLogs (userId : nat) (db : Db) : list ActivityLog.t :=
  sortNewestFirst
    (filter (fun l => ActivityLog.userId l =? userId) (activity_logs db)).

Definition getProjectActivityLogs (projectId : nat) (db : Db)
  : list ActivityLog.t :=
  sortNewestFirst
    (filter (fun l => String.eqb (ActivityLog.resourceType l) "project"
                      && (ActivityLog.resourceId l =? projectId))
            (activity_logs db)).

(** [now] is the value of [new Date()]. *)
Definition logActivity (now : nat) (a : InsertActivityLog.t) (db : Db)
  : Db * ActivityLog.t :=
  let id := activity_logs_id_seq db in
  let row := ActivityLog.mk id (InsertActivityLog.userId a)
                            (InsertActivityLog.action a)
                            (InsertActivityLog.resourceType a)
                            (InsertActivityLog.resourceId a)
                            (InsertActivityLog.details a) now in
  (set_activity_logs db (activity_logs db ++ [row]) (S id), row).

(** *** Project methods that no route calls *)

(** [update(projects).set(project).where(eq(projects.id, id)).returning()],
    then [results[0]]. *)
Definition updateProject (id : nat) (p : PartialProject.t) (db : Db)
  : Db * (StorageError + option Project.t) :=
  if noProjectValues p then (db, inl NoValuesToSet)
  else
    let updated :=
      updateWhere (fun r => Project.id r =? id) (applyProjectPatch p)
                  (projects db) in
    (set_projects db (fst updated) (projects_id_seq db),
     inr (hd_error (snd updated))).

(** [delete(projects).where(eq(projects.id, id)).returning({ id })], then
    [results.length > 0]. Only the [projects] table is named. *)
Definition deleteProject (id : nat) (db : Db) : Db * bool :=
  (set_projects db (filter (fun r => negb (Project.id r =? id)) (projects db))
                (projects_id_seq db),
   existsb (fun r => Project.id r =? id) (projects db)).

End PgStorage.

(* ------------------------------------------------------------------ *)
(** ** server/storage.ts: the in-memory implementation of [IStorage] *)

(** A JavaScript [Map<number, V>]: iteration visits the entries in insertion
    order, and [set] on a key already present keeps the entry's position.
    [find] and the stable sort of the storage methods observe that order. *)
Module JsMap.

Definition t (V : Type) := list (nat * V).

Definition empty {V : Type} : t V := [].

Definition get {V : Type} (k : nat) (m : t V) : option V :=
  option_map snd (find (fun e => fst e =? k) m).

Fixpoint set {V : Type} (k : nat) (v : V) (m : t V) : t V :=
  match m with
  | [] => [(k, v)]
  | (k', v') :: rest =>
      if k' =? k then (k, v) :: rest else (k', v') :: set k v rest
  end.

(** [m.delete(k)]: the map without the key, and whether the key was there. *)
Definition delete {V : Type} (k : nat) (m : t V) : t V * bool :=
  (filter (fun e => negb (fst e =? k)) m, existsb (fun e => fst e =? k) m).

(** [Array.from(m.values())] *)
Definition values {V : Type} (m : t V) : list V := map snd m.

Definition keys {V : Type} (m : t V) : list nat := map fst m.

End JsMap.

Module MemStorage.

(** A stored membership object. [{ ...userProject, id }] copies the keys of
    the insert payload, so [role] is absent when the payload omits it. *)
Record UserProjectObj := mkUserProject {
  up_id : nat;
  up_userId : nat;
  up_projectId : nat;
  up_role : option string
}.

(** The maps and counters that the secret, membership and activity-log
    methods read and write. The [users] and [projects] maps, which these
    methods never touch, are left out. *)
Record t := mk {
  secrets : JsMap.t Secret.t;
  activityLogs : JsMap.t ActivityLog.t;
  userProjects : JsMap.t UserProjectObj;
  currentSecretId : nat;
  currentActivityLogId : nat;
  currentUserProjectId : nat
}.

(** State after the constructor: the seeded admin user (id 1) holds role
    admin on each of the four sample projects (ids 1 to 4). *)
Definition constructor : t :=
  mk JsMap.empty JsMap.empty
     [ (1, mkUserProject 1 1 1 (Some "admin"));
       (2, mkUserProject 2 1 2 (Some "admin"));
       (3, mkUserProject 3 1 3 (Some "admin"));
       (4, mkUserProject 4 1 4 (Some "admin")) ]
     1 1 5.

(** *** Secret methods *)

Definition getSecret (id : nat) (st : t) : option Secret.t :=
  JsMap.get id (secrets st).

Definition getProjectSecrets (projectId : nat) (st : t) : list Secret.t :=
  filter (fun s => Secret.projectId s =? projectId) (JsMap.values (secrets st)).

Definition createSecret (s : InsertSecret.t) (st : t) : t * Secret.t :=
  let id := currentSecretId st in
  let newSecret :=
    Secret.mk id (InsertSecret.name s) (InsertSecret.value s)
              (InsertSecret.description s) (InsertSecret.projectId s)
              (InsertSecret.ssmPath s)
              (withDefault None (InsertSecret.isEncrypted s)) in
  (mk (JsMap.set id newSecret (secrets st)) (activityLogs st) (userProjects st)
      (S id) (currentActivityLogId st) (currentUserProjectId st),
   newSecret).

Definition updateSecret (id : nat) (p : PartialSecret.t) (st : t)
  : t * option Secret.t :=
  match JsMap.get id (secrets st) with
  | None => (st, None)
  | Some existingSecret =>
      let updatedSecret := applyPatch p existingSecret in
      (mk (JsMap.set id updatedSecret (secrets st)) (activityLogs st)
          (userProjects st) (currentSecretId st) (currentActivityLogId st)
          (currentUserProjectId st),
       Some updatedSecret)
  end.

Definition deleteSecret (id : nat) (st : t) : t * bool :=
  let (m, was) := JsMap.delete id (secrets st) in
  (mk m (activityLogs st) (userProjects st) (currentSecretId st)
      (currentActivityLogId st) (currentUserProjectId st),
   was).

(** *** User Project Role methods *)

Definition samePair (userId projectId : nat) (up : UserProjectObj) : bool :=
  (up_userId up =? userId) && (up_projectId up =? projectId).

Definition getUserProject (userId projectId : nat) (st : t)
  : option UserProjectObj :=
  find (samePair userId projectId) (JsMap.values (userProjects st)).

Definition updateUserProjectRole (userId projectId : nat) (role : option string)
  (st : t) : t * option UserProjectObj :=
  match getUserProject userId projectId st with
  | None => (st, None)
  | Some userProject =>
      let updatedUserProject :=
        mkUserProject (up_id userProject) (up_userId userProject)
                      (up_projectId userProject) role in
      (mk (secrets st) (activityLogs st)
          (JsMap.set (up_id userProject) updatedUserProject (userProjects st))
          (currentSecretId st) (currentActivityLogId st)
          (currentUserProjectId st),
       Some updatedUserProject)
  end.

(** The result of the update branch is cast to [UserProject] in the source;
    here it stays the [option] that [updateUserProjectRole] returns. *)
Definition assignUserToProject (up : InsertUserProject.t) (st : t)
  : t * option UserProjectObj :=
  match getUserProject (InsertUserProject.userId up)
                       (InsertUserProject.projectId up) st with
  | Some _ =>
      updateUserProjectRole (InsertUserProject.userId up)
                            (InsertUserProject.projectId up)
                            (InsertUserProject.role up) st
  | None =>
      let id := currentUserProjectId st in
      let newUserProject :=
        mkUserProject id (InsertUserProject.userId up)
                      (InsertUserProject.projectId up)
                      (InsertUserProject.role up) in
      (mk (secrets st) (activityLogs st)
          (JsMap.set id newUserProject (userProjects st))
          (currentSecretId st) (currentActivityLogId st) (S id),
       Some newUserProject)
  end.

Definition removeUserFromProject (userId projectId : nat) (st : t) : t * bool :=
  match getUserProject userId projectId st with
  | None => (st, false)
  | Some userProject =>
      let (m, was) := JsMap.delete (up_id userProject) (userProjects st) in
      (mk (secrets st) (activityLogs st) m (currentSecretId st)
          (currentActivityLogId st) (currentUserProjectId st),
       was)
  end.

Definition getProjectUsers (projectId : nat) (st : t) : list UserProjectObj :=
  filter (fun up => up_projectId up =? projectId)
         (JsMap.values (userProjects st)).

(** *** Activity Log methods *)

Definition getActivityLogs (st : t) : list ActivityLog.t :=
  sortNewestFirst (JsMap.values (activityLogs st)).

Definition getUserActivityLogs (userId : nat) (st : t) : list ActivityLog.t :=
  sortNewestFirst
    (filter (fun l => ActivityLog.userId l =? userId)
            (JsMap.values (activityLogs st))).

(** The filter of [getProjectActivityLogs]: a project entry of this project,
    or a secret entry whose [resourceId] is the id of a secret that is in
    the project now. *)
Definition inProjectScope (projectId : nat) (st : t) (l : ActivityLog.t) : bool :=
  (String.eqb (ActivityLog.resourceType l) "project"
   && (ActivityLog.resourceId l =? projectId))
  || (String.eqb (ActivityLog.resourceType l) "secret"
      && existsb (Nat.eqb (ActivityLog.resourceId l))
           (map Secret.id
              (filter (fun s => Secret.projectId s =? projectId)
                      (JsMap.values (secrets st))))).

Definition getProjectActivityLogs (projectId : nat) (st : t)
  : list ActivityLog.t :=
  sortNewestFirst
    (filter (inProjectScope projectId st) (JsMap.values (activityLogs st))).

Definition logActivity (now : nat) (a : InsertActivityLog.t) (st : t)
  : t * ActivityLog.t :=
  let id := currentActivityLogId st in
  let newActivity :=
    ActivityLog.mk id (InsertActivityLog.userId a) (InsertActivityLog.action a)
                   (InsertActivityLog.resourceType a)
                   (InsertActivityLog.resourceId a)
                   (InsertActivityLog.details a) now in
  (mk (secrets st) (JsMap.set id newActivity (activityLogs st))
      (userProjects st) (currentSecretId st) (S id) (currentUserProjectId st),
   newActivity).

(** One mutating call on the storage object. *)
Inductive step : t -> t -> Prop :=
| step_createSecret s st : step st (fst (createSecret s st))
| step_updateSecret id p st : step st (fst (updateSecret id p st))
| step_deleteSecret id st : step st (fst (deleteSecret id st))
| step_assignUserToProject up st : step st (fst (assignUserToProject up st))
| step_updateUserProjectRole u p r st :
    step st (fst (updateUserProjectRole u p r st))
| step_removeUserFromProject u p st :
    step st (fst (removeUserFromProject u p st))
| step_logActivity now a st : step st (fst (logActivity now a st)).

(** The states the storage object can be in. *)
Inductive reachable : t -> Prop :=
| reachable_constructor : reachable constructor
| reachable_step st st' : reachable st -> step st st' -> reachable st'.

(** The [(userId, projectId)] pairs of the stored membership objects. *)
Definition pairOf (up : UserProjectObj) : nat * nat :=
  (up_userId up, up_projectId up).

Definition pairs (st : t) : list (nat * nat) :=
  map pairOf (JsMap.values (userProjects st)).

(** Number of membership objects stored for a pair. *)
Definition countPair (userId projectId : nat) (st : t) : nat :=
  List.length
    (filter (samePair userId projectId) (JsMap.values (userProjects st))).

(** What the constructor establishes and every method keeps, on the
    membership map: its keys are distinct, each object sits under its own
    id, no two objects share a [(userId, projectId)] pair, and the counter
    is ahead of every key. *)
Definition membershipInvariant (st : t) : Prop :=
  NoDup (JsMap.keys (userProjects st))
  /\ (forall k up, In (k, up) (userProjects st) -> up_id up = k)
  /\ NoDup (pairs st)
  /\ (forall k, In k (JsMap.keys (userProjects st)) ->
                k < currentUserProjectId st).

(** Each secret sits under its own id in the secrets map. *)
Definition secretsKeyed (st : t) : Prop :=
  forall k s, In (k, s) (secrets st) -> Secret.id s = k.

End MemStorage.

(* ------------------------------------------------------------------ *)
(** ** server/routes.ts: the REST handlers *)

Module Routes.

Import PgStorage.

(** *** The AWS SSM client *)

Inductive ParameterType := TypeString | TypeSecureString.

Inductive SsmCommand :=
| PutParameterCommand (Name Value : string) (Type_ : ParameterType)
                      (Overwrite : bool)
| DeleteParameterCommand (Name : string).

(** What [await ssmClient.send(cmd)] does: it returns, or it throws an
    error that carries a [message]. *)
Inductive SsmOutcome := SsmOk | SsmError (message : string).

Definition succeeded (o : SsmOutcome) : bool :=
  match o with SsmOk => true | SsmError _ => false end.

(** *** What a handler leaves behind *)

(** The writes a handler asks of the relational store. *)
Inductive StorageWrite :=
| W_createUser (u : InsertUser.t)
| W_createProject (p : InsertProject.t)
| W_assignUserToProject (up : InsertUserProject.t)
| W_createSecret (s : InsertSecret.t)
| W_updateSecret (id : nat) (p : PartialSecret.t)
| W_deleteSecret (id : nat)
| W_logActivity (a : InsertActivityLog.t).

(** The calls the properties below speak about, in the order the handler
    issues them: the membership lookup [storage.getUserProject], the writes
    to the relational store, and the commands sent to the parameter store
    with whether they succeeded. A call is recorded when the handler makes
    it, whether the storage method then returns or throws. The other reads
    of the relational store change nothing and are not recorded. *)
Inductive Event :=
| Lookup (userId projectId : nat)
| Write (w : StorageWrite)
| Ssm (cmd : SsmCommand) (ok : bool).

(** *** Responses *)

Inductive Resource := RProject (p : Project.t) | RSecret (s : Secret.t).

(** [{ ...log, user: { id, username } | undefined, resource }] *)
Record EnrichedLog := mkEnrichedLog {
  log : ActivityLog.t;
  log_user : option (nat * string);
  log_resource : option Resource
}.

Inductive Json :=
| JMessage (message : string)                 (* { message } *)
| JMessageError (message error : string)      (* { message, error } *)
| JUser (u : User.t)
| JUsers (l : list User.t)
| JProject (p : Project.t)
| JProjects (l : list Project.t)
| JSecret (s : Secret.t)
| JSecretOpt (s : option Secret.t)
| JSecrets (l : list Secret.t)
| JUserProject (up : UserProject.t)
| JProjectUsers (l : list (UserProject.t * option User.t))
| JLogs (l : list EnrichedLog)
| JSuccess.                                   (* { success: true } *)

Record Response := mkResponse { status : nat; body : Json }.

(** *** The handler monad *)

(** A step of a handler runs to its value, ends the handler with a response
    ([return res.status(..).json(..)]), or throws. *)
Inductive Result (A : Type) :=
| Ok (a : A)
| Return (r : Response)
| Throw (e : StorageError).
Arguments Ok {A} a.
Arguments Return {A} r.
Arguments Throw {A} e.

Definition M (A : Type) : Type := Db -> list Event * Db * Result A.

Definition ret {A : Type} (a : A) : M A := fun db => ([], db, Ok a).

Definition bind {A B : Type} (m : M A) (f : A -> M B) : M B :=
  fun db =>
    match m db with
    | (e1, db1, Ok a) =>
        match f a db1 with
        | (e2, db2, r) => (e1 ++ e2, db2, r)
        end
    | (e1, db1, Return r) => (e1, db1, Return r)
    | (e1, db1, Throw e) => (e1, db1, Throw e)
    end.

Notation "x <- m ;; k" := (bind m (fun x => k))
  (at level 61, m at next level, right associativity).
Notation "m ;;; k" := (bind m (fun _ => k))
  (at level 61, right associativity).

(** [return res.status(status).json(body)] *)
Definition reply {A : Type} (status : nat) (body : Json) : M A :=
  fun db => ([], db, Return (mkResponse status body)).

(** [await Promise.all(l.map(async x => f x))] for callbacks that only read. *)
Fixpoint mapM {A B : Type} (f : A -> M B) (l : list A) : M (list B) :=
  match l with
  | [] => ret []
  | x :: xs => y <- f x ;; ys <- mapM f xs ;; ret (y :: ys)
  end.

(** The [try { .. } catch (err) { res.status(500).json({ message }) }] that
    wraps every handler body. *)
Definition route (failure : string) (handler : M Response)
  : Db -> list Event * Db * Response :=
  fun db =>
    match handler db with
    | (e, db', Ok r) => (e, db', r)
    | (e, db', Return r) => (e, db', r)
    | (e, db', Throw _) => (e, db', mkResponse 500 (JMessage failure))
    end.

(** *** [storage], the exported [PgStorage] instance, seen from a handler *)

Definition query {A : Type} (q : Db -> A) : M A := fun db => ([], db, Ok (q db)).

Definition write {A : Type} (w : StorageWrite) (op : Db -> Db * A) : M A :=
  fun db => match op db with (db', a) => ([Write w], db', Ok a) end.

Definition storage_getUser (id : nat) : M (option User.t) :=
  query (getUser id).
Definition storage_getUsers : M (list User.t) := query getUsers.
Definition storage_createUser (u : InsertUser.t) : M User.t :=
  fun db =>
    match createUser u db with
    | (db', inr row) => ([Write (W_createUser u)], db', Ok row)
    | (db', inl err) => ([Write (W_createUser u)], db', Throw err)
    end.
Definition storage_getProject (id : nat) : M (option Project.t) :=
  query (getProject id).
Definition storage_getProjects : M (list Project.t) := query getProjects.
Definition storage_getUserProjects (userId : nat) : M (list Project.t) :=
  query (getUserProjects userId).
Definition storage_createProject (p : InsertProject.t) : M Project.t :=
  write (W_createProject p) (createProject p).
Definition storage_getSecret (id : nat) : M (option Secret.t) :=
  query (getSecret id).
Definition storage_getSecrets : M (list Secret.t) := query getSecrets.
Definition storage_getProjectSecrets (projectId : nat) : M (list Secret.t) :=
  query (getProjectSecrets projectId).
Definition storage_createSecret (s : InsertSecret.t) : M Secret.t :=
  write (W_createSecret s) (createSecret s).
Definition storage_updateSecret (id : nat) (p : PartialSecret.t)
  : M (option Secret.t) :=
  fun db =>
    match updateSecret id p db with
    | (db', inr row) => ([Write (W_updateSecret id p)], db', Ok row)
    | (db', inl err) => ([Write (W_updateSecret id p)], db', Throw err)
    end.
Definition storage_deleteSecret (id : nat) : M bool :=
  write (W_deleteSecret id) (deleteSecret id).
Definition storage_getUserProject (userId projectId : nat)
  : M (option UserProject.t) :=
  fun db => ([Lookup userId projectId], db, Ok (getUserProject userId projectId db)).
Definition storage_assignUserToProject (up : InsertUserProject.t)
  : M UserProject.t :=
  write (W_assignUserToProject up) (assignUserToProject up).
Definition storage_getProjectUsers (projectId : nat) : M (list UserProject.t) :=
  query (getProjectUsers projectId).
Definition storage_getActivityLogs : M (list ActivityLog.t) :=
  query getActivityLogs.
Definition storage_getUserActivityLogs (userId : nat) : M (list ActivityLog.t) :=
  query (getUserActivityLogs userId).
Definition storage_getProjectActivityLogs (projectId : nat)
  : M (list ActivityLog.t) :=
  query (getProjectActivityLogs projectId).
Definition storage_logActivity (now : nat) (a : InsertActivityLog.t)
  : M ActivityLog.t :=
  write (W_logActivity a) (logActivity now a).

(** *** Middleware *)

(** [isAuthenticated]: [req.user] is the session's user, if any. *)
Definition isAuthenticated (req_user : option User.t) : M User.t :=
  match req_user with
  | Some user => ret user
  | None => reply 401 (JMessage "Unauthorized")
  end.

(** [isAdmin] *)
Definition isAdmin (req_user : option User.t) : M User.t :=
  match req_user with
  | Some user =>
      if String.eqb (User.role user) "admin" then ret user
      else reply 403 (JMessage "Forbidden")
  | None => reply 403 (JMessage "Forbidden")
  end.

(** The permission check that the project and secret routes repeat:
[[
      if (userRole !== "admin") {
        const userProject = await storage.getUserProject(userId, projectId);
        if (!userProject || !roles.includes(userProject.role)) {
          return res.status(403).json({ message: "Forbidden" });
        }
      }
]]
    [roles] is the array the route tests the row's role against; it is
    [None] for the routes that only test [!userProject]. *)
Definition authorize (user : User.t) (projectId : nat)
  (roles : option (list string)) : M unit :=
  if negb (String.eqb (User.role user) "admin") then
    userProject <- storage_getUserProject (User.id user) projectId ;;
    match userProject with
    | None => reply 403 (JMessage "Forbidden")
    | Some userProject =>
        match roles with
        | None => ret tt
        | Some roles =>
            if Js.includes roles (UserProject.role userProject) then ret tt
            else reply 403 (JMessage "Forbidden")
        end
    end
  else ret tt.

(** [`/secrets-manager/${formattedProjectName}/${req.body.name}`] *)
Definition ssmPathFor (toLowerCase : string -> string) (project : Project.t)
  (secretName : string) : string :=
  let formattedProjectName :=
    Js.replaceSpaces (toLowerCase (Project.name project)) in
  ("/secrets-manager/" ++ formattedProjectName ++ "/" ++ secretName)%string.

(** [req.body.isEncrypted ? "SecureString" : "String"] *)
Definition parameterType (isEncrypted : option (option bool)) : ParameterType :=
  if Js.truthyBool isEncrypted then TypeSecureString else TypeString.

(** [req.body.value && req.body.value !== secret.value] *)
Definition valueChanged (body : PartialSecret.t) (secret : Secret.t) : bool :=
  Js.truthyStr (PartialSecret.value body)
  && negb (String.eqb (withDefault "" (PartialSecret.value body))
                      (Secret.value secret)).

(** [{ ...req.body, ssmPath }] *)
Definition withSsmPath (body : InsertSecret.t) (ssmPath : string)
  : InsertSecret.t :=
  InsertSecret.mk (InsertSecret.name body) (InsertSecret.value body)
                  (InsertSecret.description body) (InsertSecret.projectId body)
                  ssmPath (InsertSecret.isEncrypted body).

(** The activity records of the three secret mutations. *)
Definition createdActivity (userId : nat) (secret : Secret.t)
  (project : Project.t) : InsertActivityLog.t :=
  InsertActivityLog.mk userId "created" "secret" (Secret.id secret)
    (Some ("Created secret: " ++ Secret.name secret
           ++ " in project: " ++ Project.name project)%string).

Definition updatedActivity (userId secretId : nat) (secret : Secret.t)
  : InsertActivityLog.t :=
  InsertActivityLog.mk userId "updated" "secret" secretId
    (Some ("Updated secret: " ++ Secret.name secret)%string).

Definition deletedActivity (userId secretId : nat) (secret : Secret.t)
  : InsertActivityLog.t :=
  InsertActivityLog.mk userId "deleted" "secret" secretId
    (Some ("Deleted secret: " ++ Secret.name secret)%string).

Definition enrich (l : ActivityLog.t) : M EnrichedLog :=
  user <- storage_getUser (ActivityLog.userId l) ;;
  resource <-
    (if String.eqb (ActivityLog.resourceType l) "project" then
       p <- storage_getProject (ActivityLog.resourceId l) ;;
       ret (option_map RProject p)
     else if String.eqb (ActivityLog.resourceType l) "secret" then
       s <- storage_getSecret (ActivityLog.resourceId l) ;;
       ret (option_map RSecret s)
     else ret None) ;;
  ret (mkEnrichedLog l
         (option_map (fun u => (User.id u, User.username u)) user)
         resource).

Section Handlers.

(** [String.prototype.toLowerCase], the parameter store as the request
    meets it, and the clock. *)
Variable toLowerCase : string -> string.
Variable ssmClient : SsmCommand -> SsmOutcome.
Variable now : nat.

(** [await ssmClient.send(cmd)] *)
Definition ssmClient_send (cmd : SsmCommand) : M SsmOutcome :=
  fun db => ([Ssm cmd (succeeded (ssmClient cmd))], db, Ok (ssmClient cmd)).

(** [POST /api/users] *)
Definition postUsers (req_user : option User.t) (body : InsertUser.t) :=
  route "Failed to create user"
    (user <- storage_createUser body ;;
     reply 201 (JUser user)).

(** [GET /api/users] *)
Definition getUsersRoute (req_user : option User.t) :=
  route "Failed to get users"
    (isAdmin req_user ;;;
     users <- storage_getUsers ;;
     reply 200 (JUsers users)).

(** [GET /api/projects] *)
Definition getProjectsRoute (req_user : option User.t) :=
  route "Failed to get projects"
    (user <- isAuthenticated req_user ;;
     projects <-
       (if String.eqb (User.role user) "admin" then storage_getProjects
        else storage_getUserProjects (User.id user)) ;;
     reply 200 (JProjects projects)).

(** [POST /api/projects] *)
Definition postProjects (req_user : option User.t) (body : InsertProject.t) :=
  route "Failed to create project"
    (user <- isAuthenticated req_user ;;
     project <- storage_createProject body ;;
     let userId := User.id user in
     storage_assignUserToProject
       (InsertUserProject.mk userId (Project.id project) (Some "admin")) ;;;
     storage_logActivity now
       (InsertActivityLog.mk userId "created" "project" (Project.id project)
          (Some ("Created project: " ++ Project.name project)%string)) ;;;
     reply 201 (JProject project)).

(** [GET /api/projects/:id] *)
Definition getProjectRoute (req_user : option User.t) (projectId : nat) :=
  route "Failed to get project"
    (user <- isAuthenticated req_user ;;
     project <- storage_getProject projectId ;;
     match project with
     | None => reply 404 (JMessage "Project not found")
     | Some project =>
         authorize user projectId None ;;;
         reply 200 (JProject project)
     end).

(** [GET /api/secrets] *)
Definition getSecretsRoute (req_user : option User.t) :=
  route "Failed to get secrets"
    (user <- isAuthenticated req_user ;;
     secrets <-
       (if String.eqb (User.role user) "admin" then storage_getSecrets
        else
          userProjects <- storage_getUserProjects (User.id user) ;;
          perProject <-
            mapM (fun project => storage_getProjectSecrets (Project.id project))
                 userProjects ;;
          ret (List.concat perProject)) ;;
     reply 200 (JSecrets secrets)).

(** [GET /api/projects/:id/secrets] *)
Definition getProjectSecretsRoute (req_user : option User.t) (projectId : nat) :=
  route "Failed to get project secrets"
    (user <- isAuthenticated req_user ;;
     let userId := User.id user in
     authorize user projectId None ;;;
     secrets <- storage_getProjectSecrets projectId ;;
     storage_logActivity now
       (InsertActivityLog.mk userId "viewed" "project" projectId
          (Some ("Viewed secrets in project with ID: "
                 ++ Js.showNat projectId)%string)) ;;;
     reply 200 (JSecrets secrets)).

(** [POST /api/secrets] *)
Definition postSecrets (req_user : option User.t) (body : InsertSecret.t) :=
  route "Failed to create secret"
    (user <- isAuthenticated req_user ;;
     let projectId := InsertSecret.projectId body in
     let userId := User.id user in
     authorize user projectId (Some ["admin"; "editor"]) ;;;
     project <- storage_getProject projectId ;;
     match project with
     | None => reply 404 (JMessage "Project not found")
     | Some project =>
         let ssmPath := ssmPathFor toLowerCase project (InsertSecret.name body) in
         sent <- ssmClient_send
                   (PutParameterCommand ssmPath (InsertSecret.value body)
                      (parameterType (InsertSecret.isEncrypted body)) true) ;;
         match sent with
         | SsmError message =>
             reply 500 (JMessageError "Failed to store secret in AWS SSM" message)
         | SsmOk =>
             secret <- storage_createSecret (withSsmPath body ssmPath) ;;
             storage_logActivity now (createdActivity userId secret project) ;;;
             reply 201 (JSecret secret)
         end
     end).

(** [PUT /api/secrets/:id] *)
Definition putSecret (req_user : option User.t) (secretId : nat)
  (body : PartialSecret.t) :=
  route "Failed to update secret"
    (user <- isAuthenticated req_user ;;
     let userId := User.id user in
     secret <- storage_getSecret secretId ;;
     match secret with
     | None => reply 404 (JMessage "Secret not found")
     | Some secret =>
         authorize user (Secret.projectId secret) (Some ["admin"; "editor"]) ;;;
         (if valueChanged body secret then
            sent <- ssmClient_send
                      (PutParameterCommand (Secret.ssmPath secret)
                         (withDefault "" (PartialSecret.value body))
                         (parameterType (PartialSecret.isEncrypted body)) true) ;;
            match sent with
            | SsmError message =>
                reply 500
                  (JMessageError "Failed to update secret in AWS SSM" message)
            | SsmOk => ret tt
            end
          else ret tt) ;;;
         updatedSecret <- storage_updateSecret secretId body ;;
         storage_logActivity now (updatedActivity userId secretId secret) ;;;
         reply 200 (JSecretOpt updatedSecret)
     end).

(** [DELETE /api/secrets/:id] *)
Definition deleteSecretRoute (req_user : option User.t) (secretId : nat) :=
  route "Failed to delete secret"
    (user <- isAuthenticated req_user ;;
     let userId := User.id user in
     secret <- storage_getSecret secretId ;;
     match secret with
     | None => reply 404 (JMessage "Secret not found")
     | Some secret =>
         authorize user (Secret.projectId secret) (Some ["admin"]) ;;;
         sent <- ssmClient_send (DeleteParameterCommand (Secret.ssmPath secret)) ;;
         match sent with
         | SsmError message =>
             reply 500
               (JMessageError "Failed to delete secret from AWS SSM" message)
         | SsmOk =>
             storage_deleteSecret secretId ;;;
             storage_logActivity now (deletedActivity userId secretId secret) ;;;
             reply 200 JSuccess
         end
     end).

(** [POST /api/user-projects] *)
Definition postUserProjects (req_user : option User.t)
  (body : InsertUserProject.t) :=
  route "Failed to assign user to project"
    (user <- isAuthenticated req_user ;;
     let userId := User.id user in
     let projectId := InsertUserProject.projectId body in
     authorize user projectId (Some ["admin"]) ;;;
     userProject <- storage_assignUserToProject body ;;
     targetUser <- storage_getUser (InsertUserProject.userId body) ;;
     project <- storage_getProject projectId ;;
     storage_logActivity now
       (InsertActivityLog.mk userId "assigned" "project" projectId
          (Some ("Assigned user: "
                 ++ Js.showOpt (option_map User.username targetUser)
                 ++ " to project: "
                 ++ Js.showOpt (option_map Project.name project)
                 ++ " with role: "
                 ++ Js.showOpt (InsertUserProject.role body))%string)) ;;;
     reply 201 (JUserProject userProject)).

(** [GET /api/projects/:id/users] *)
Definition getProjectUsersRoute (req_user : option User.t) (projectId : nat) :=
  route "Failed to get project users"
    (user <- isAuthenticated req_user ;;
     authorize user projectId None ;;;
     userProjects <- storage_getProjectUsers projectId ;;
     users <- mapM (fun up =>
                      u <- storage_getUser (UserProject.userId up) ;;
                      ret (up, u))
                   userProjects ;;
     reply 200 (JProjectUsers users)).

(** [GET /api/activity-logs] *)
Definition getActivityLogsRoute (req_user : option User.t) :=
  route "Failed to get activity logs"
    (user <- isAuthenticated req_user ;;
     logs <-
       (if String.eqb (User.role user) "admin" then storage_getActivityLogs
        else storage_getUserActivityLogs (User.id user)) ;;
     enrichedLogs <- mapM enrich logs ;;
     reply 200 (JLogs enrichedLogs)).

(** [GET /api/projects/:id/activity-logs] *)
Definition getProjectActivityLogsRoute (req_user : option User.t)
  (projectId : nat) :=
  route "Failed to get project activity logs"
    (user <- isAuthenticated req_user ;;
     authorize user projectId None ;;;
     logs <- storage_getProjectActivityLogs projectId ;;
     enrichedLogs <- mapM enrich logs ;;
     reply 200 (JLogs enrichedLogs)).

(** The routes that [registerRoutes] installs on the application: a request
    is the route it matches, with its path parameter and body. *)
Inductive Request :=
| POST_users (body : InsertUser.t)
| GET_users
| GET_projects
| POST_projects (body : InsertProject.t)
| GET_project (id : nat)
| GET_secrets
| GET_project_secrets (id : nat)
| POST_secrets (body : InsertSecret.t)
| PUT_secret (id : nat) (body : PartialSecret.t)
| DELETE_secret (id : nat)
| POST_user_projects (body : InsertUserProject.t)
| GET_project_users (id : nat)
| GET_activity_logs
| GET_project_activity_logs (id : nat).

Definition registerRoutes (req_user : option User.t) (req : Request)
  : Db -> list Event * Db * Response :=
  match req with
  | POST_users body => postUsers req_user body
  | GET_users => getUsersRoute req_user
  | GET_projects => getProjectsRoute req_user
  | POST_projects body => postProjects req_user body
  | GET_project id => getProjectRoute req_user id
  | GET_secrets => getSecretsRoute req_user
  | GET_project_secrets id => getProjectSecretsRoute req_user id
  | POST_secrets body => postSecrets req_user body
  | PUT_secret id body => putSecret req_user id body
  | DELETE_secret id => deleteSecretRoute req_user id
  | POST_user_projects body => postUserProjects req_user body
  | GET_project_users id => getProjectUsersRoute req_user id
  | GET_activity_logs => getActivityLogsRoute req_user
  | GET_project_activity_logs id => getProjectActivityLogsRoute req_user id
  end.

End Handlers.

(** The project whose membership a route hands to its permission check,
    when the request reaches that check: the [:id] of a project route, the
    [projectId] of the body, or the [projectId] of the secret addressed. *)
Definition checkedProject (req : Request) (db : Db) : option nat :=
  match req with
  | GET_project id => option_map (fun _ => id) (getProject id db)
  | GET_project_secrets id => Some id
  | POST_secrets body => Some (InsertSecret.projectId body)
  | PUT_secret id _ => option_map Secret.projectId (getSecret id db)
  | DELETE_secret id => option_map Secret.projectId (getSecret id db)
  | POST_user_projects body => Some (InsertUserProject.projectId body)
  | GET_project_users id => Some id
  | GET_project_activity_logs id => Some id
  | _ => None
  end.

(** The three components of a handler's run. *)
Definition emitted {A : Type} (out : list Event * Db * A) : list Event :=
  fst (fst out).
Definition store {A : Type} (out : list Event * Db * A) : Db := snd (fst out).
Definition answer {A : Type} (out : list Event * Db * A) : A := snd out.

(** A callback that only reads: it emits nothing, leaves the store alone and
    returns [g x db]. *)
Definition readsAs {A B : Type} (f : A -> M B) (g : A -> Db -> B) : Prop :=
  forall x db, f x db = ([], db, Ok (g x db)).

(** What [enrich] computes from the store. *)
Definition enriched (l : ActivityLog.t) (db : Db) : EnrichedLog :=
  mkEnrichedLog l
    (option_map (fun u => (User.id u, User.username u))
                (getUser (ActivityLog.userId l) db))
    (if String.eqb (ActivityLog.resourceType l) "project"
     then option_map RProject (getProject (ActivityLog.resourceId l) db)
     else if String.eqb (ActivityLog.resourceType l) "secret"
          then option_map RSecret (getSecret (ActivityLog.resourceId l) db)
          else None).

(** The requests that create, update or delete a secret. *)
Definition mutatesSecret (req : Request) : bool :=
  match req with
  | POST_secrets _ | PUT_secret _ _ | DELETE_secret _ => true
  | _ => false
  end.

Definition forbidden : Response := mkResponse 403 (JMessage "Forbidden").

(** The outcome of [authorize user projectId (Some roles)] as a test: the
    actor is a global admin, or the row the lookup returns has one of the
    roles. *)
Definition permitted (user : User.t) (projectId : nat) (roles : list string)
  (db : Db) : bool :=
  String.eqb (User.role user) "admin"
  || match getUserProject (User.id user) projectId db with
     | Some up => Js.includes roles (UserProject.role up)
     | None => false
     end.

(** The events of the permission check: one lookup, unless the actor is a
    global admin. *)
Definition lookups (user : User.t) (projectId : nat) : list Event :=
  if String.eqb (User.role user) "admin" then []
  else [Lookup (User.id user) projectId].

(** Some command sent to the parameter store failed. *)
Definition ssmFailed (events : list Event) : bool :=
  existsb (fun e => match e with Ssm _ false => true | _ => false end) events.

(** No event of the list is a write to the relational store. *)
Definition noWrite (events : list Event) : bool :=
  forallb (fun e => match e with Write _ => false | _ => true end) events.

(** The membership lookups among the events. *)
Definition lookupsOf (events : list Event) : list Event :=
  filter (fun e => match e with Lookup _ _ => true | _ => false end) events.

(** Every secret row's id was drawn from the sequence (primary key
    [serial]): it is below the sequence's next value. *)
Definition secretIdsDrawn (db : Db) : Prop :=
  forall s, In s (secrets db) -> Secret.id s < secrets_id_seq db.

(** The command [POST /api/secrets] sends for a body and its project. *)
Definition createCommand (toLowerCase : string -> string)
  (body : InsertSecret.t) (project : Project.t) : SsmCommand :=
  PutParameterCommand (ssmPathFor toLowerCase project (InsertSecret.name body))
                      (InsertSecret.value body)
                      (parameterType (InsertSecret.isEncrypted body)) true.

(** The command [PUT /api/secrets/:id] sends when the value changed. *)
Definition updateCommand (body : PartialSecret.t) (secret : Secret.t)
  : SsmCommand :=
  PutParameterCommand (Secret.ssmPath secret)
                      (withDefault "" (PartialSecret.value body))
                      (parameterType (PartialSecret.isEncrypted body)) true.

(** The command [DELETE /api/secrets/:id] sends. *)
Definition deleteCommand (secret : Secret.t) : SsmCommand :=
  DeleteParameterCommand (Secret.ssmPath secret).

(** No event of the list is a membership lookup. *)
Definition noLookup (events : list Event) : bool :=
  forallb (fun e => match e with Lookup _ _ => false | _ => true end) events.

(** No event of the list is a command sent to the parameter store. *)
Definition noSsm (events : list Event) : bool :=
  forallb (fun e => match e with Ssm _ _ => false | _ => true end) events.

(** The [GET] routes other than [GET /api/projects/:id/secrets]. *)
Definition onlyReads (req : Request) : bool :=
  match req with
  | GET_users | GET_projects | GET_project _ | GET_secrets
  | GET_project_users _ | GET_activity_logs | GET_project_activity_logs _ => true
  | _ => false
  end.

(** The answer is one of the refusals: 401, 403 or 404. *)
Definition refused (r : Response) : bool :=
  (status r =? 401) || (status r =? 403) || (status r =? 404).


(** The commands sent to the parameter store, in order. *)
Definition ssmCommands (events : list Event) : list SsmCommand :=
  flat_map (fun e => match e with Ssm cmd _ => [cmd] | _ => [] end) events.



(** The user has a membership row for the project. *)
Definition isMember (userId projectId : nat) (db : Db) : bool :=
  existsb (samePair userId projectId) (user_projects db).

(** Every project row's id was drawn from the sequence. *)
Definition projectIdsDrawn (db : Db) : Prop :=
  forall p, In p (projects db) -> Project.id p < projects_id_seq db.

(** Every user row's id was drawn from the sequence. *)
Definition userIdsDrawn (db : Db) : Prop :=
  forall u, In u (users db) -> User.id u < users_id_seq db.

(** The ids, usernames and emails of the [users] table are distinct: the
    primary key and the two [unique()] columns. *)
Definition usersUnique (db : Db) : Prop :=
  NoDup (map User.username (users db)) /\ NoDup (map User.email (users db)).

End Routes.

(* ------------------------------------------------------------------ *)
(** ** server/routes.ts: sessions and the auth routes *)

Module LoginUser.
Record t := mk {
  username : string;
  password : string
}.
End LoginUser.

Module Auth.

Import PgStorage Routes.

(** [loginUserSchema.parse(body)]: the issues zod raises, in key order; the
    body is accepted when there is none. [z.string().min(n)] compares
    [s.length], the number of UTF-16 code units, with [n]. *)
Definition loginUserSchema (body : LoginUser.t) : list string :=
  (if Js.length (LoginUser.username body) <? 3
   then ["Username must be at least 3 characters"] else [])
  ++ (if Js.length (LoginUser.password body) <? 6
      then ["Password must be at least 6 characters"] else []).

(** What the verify callback of the [LocalStrategy] hands to [done]. *)
Inductive Verdict :=
| Verified (user : User.t)                   (* done(null, user) *)
| Failed (message : string).                 (* done(null, false, { message }) *)

(** [new LocalStrategy(async (username, password, done) => ..)] *)
Definition localStrategy (username password : string) (db : Db) : Verdict :=
  match getUserByUsername username db with
  | None => Failed "Invalid username or password"
  | Some user =>
      if negb (String.eqb (User.password user) password)
      then Failed "Invalid username or password"
      else Verified user
  end.

(** The session holds what [serializeUser] stores: the user's id. *)
Definition Session := option nat.

Definition serializeUser (user : User.t) : nat := User.id user.

(** [deserializeUser]: [req.user] is read from the store on every request. *)
Definition deserializeUser (session : Session) (db : Db) : option User.t :=
  match session with
  | Some id => getUser id db
  | None => None
  end.

(** Bodies of the auth responses. *)
Inductive AuthJson :=
| AMessage (message : string)                 (* { message } *)
| AValidation (issues : list string)          (* { message } built from the issues *)
| AUser (user : User.t)                       (* { user } *)
| AUnauthorized                               (* passport's plain 401 *)
| ASuccess                                    (* { success: true } *)
| ASession (user : option User.t).            (* { isAuthenticated, user } *)

Record AuthResponse := mkAuthResponse { auth_status : nat; auth_body : AuthJson }.

(** [POST /api/auth/register] *)
Definition postAuthRegister (session : Session) (body : InsertUser.t) (db : Db)
  : Db * AuthResponse * Session :=
  match createUser body db with
  | (db', inr user) =>
      (db', mkAuthResponse 201 (AUser user), Some (serializeUser user))
  | (db', inl UniqueViolation) =>
      (db', mkAuthResponse 400 (AMessage "Username or email already exists"),
       session)
  | (db', inl _) =>
      (db', mkAuthResponse 500 (AMessage "Failed to register user"), session)
  end.

(** [POST /api/auth/login]: [validateRequest(loginUserSchema)], then
    [passport.authenticate("local")], then the handler. *)
Definition postAuthLogin (session : Session) (body : LoginUser.t) (db : Db)
  : AuthResponse * Session :=
  match loginUserSchema body with
  | (_ :: _) as issues => (mkAuthResponse 400 (AValidation issues), session)
  | [] =>
      match localStrategy (LoginUser.username body) (LoginUser.password body) db with
      | Failed _ => (mkAuthResponse 401 AUnauthorized, session)
      | Verified user =>
          (mkAuthResponse 200 (AUser user), Some (serializeUser user))
      end
  end.



(** One request of a session against the application: passport restores
    [req.user], then the matching route runs. *)
Definition serve (toLowerCase : string -> string)
  (ssmClient : SsmCommand -> SsmOutcome) (now : nat)
  (session : Session) (req : Request) (db : Db)
  : list Event * Db * Response :=
  registerRoutes toLowerCase ssmClient now (deserializeUser session db) req db.

End Auth.

(* ------------------------------------------------------------------ *)
(** ** A small deployment, for the worked cases *)

Module Sample.
Import Routes PgStorage.

Definition admin : User.t :=
  User.mk 1 "admin" "admin123" "admin@example.com" "Admin User" "admin".
Definition alice : User.t :=
  User.mk 2 "alice" "alice-pw" "alice@example.com" "Alice" "user".
Definition bob : User.t :=
  User.mk 3 "bob" "bob-pw" "bob@example.com" "Bob" "user".
Definition carol : User.t :=
  User.mk 4 "carol" "carol-pw" "carol@example.com" "Carol" "user".

Definition frontend : Project.t :=
  Project.mk 1 "Frontend API" (Some "Frontend API keys and configuration").
Definition auth : Project.t :=
  Project.mk 2 "Auth Service" (Some "Authentication service configuration").

(** An encrypted secret of the Frontend API project. *)
Definition apiKey : Secret.t :=
  Secret.mk 1 "API_KEY" "s3cret" None 1
            "/secrets-manager/frontend-api/API_KEY" (Some true).

(** Alice is editor and Bob viewer of project 1; Carol has no row; nobody
    but the global admin has a row for project 2. *)
Definition db : Db :=
  mkDb [admin; alice; bob; carol] 5
       [frontend; auth] 3
       [UserProject.mk 1 1 1 "admin"; UserProject.mk 2 1 2 "admin";
        UserProject.mk 3 2 1 "editor"; UserProject.mk 4 3 1 "viewer"] 5
       [apiKey] 2
       [] 1.

(** A parameter store that accepts every command. *)
Definition ssmUp : SsmCommand -> SsmOutcome := fun _ => SsmOk.

(** A parameter store that cannot be reached. *)
Definition ssmDown : SsmCommand -> SsmOutcome :=
  fun _ => SsmError "connect ETIMEDOUT".

(** A parameter store that no longer holds the parameter to delete. *)
Definition ssmGone : SsmCommand -> SsmOutcome :=
  fun cmd =>
    match cmd with
    | DeleteParameterCommand _ => SsmError "ParameterNotFound"
    | PutParameterCommand _ _ _ _ => SsmOk
    end.

Definition newSecret : InsertSecret.t :=
  InsertSecret.mk "DB Password" "hunter2" None 1 "ignored" (Some (Some true)).


(** Bodies of [PUT /api/secrets/1]. *)
Definition emptyValue : PartialSecret.t :=
  PartialSecret.mk None (Some "") None None None None.
Definition moveToAuth : PartialSecret.t :=
  PartialSecret.mk None None None (Some 2) (Some "/elsewhere") None.
Definition newValueOnly : PartialSecret.t :=
  PartialSecret.mk None (Some "rotated") None None None None.

(** The same two assignments, for both storages. *)
Definition asViewer : InsertUserProject.t :=
  InsertUserProject.mk 2 1 (Some "viewer").
Definition asAdmin : InsertUserProject.t :=
  InsertUserProject.mk 2 1 (Some "admin").

(** A secret of project 1 and the record of its creation. *)
Definition secretBody : InsertSecret.t :=
  InsertSecret.mk "API_KEY" "s3cret" None 1
                  "/secrets-manager/frontend-api/API_KEY" None.
Definition secretCreated : InsertActivityLog.t :=
  InsertActivityLog.mk 2 "created" "secret" 1
    (Some "Created secret: API_KEY in project: Frontend API").
Definition projectViewed : InsertActivityLog.t :=
  InsertActivityLog.mk 2 "viewed" "project" 1
    (Some "Viewed secrets in project with ID: 1").

(** [PgStorage] after: createSecret, logActivity (created), logActivity
    (viewed). *)
Definition pgWithSecret : Db :=
  let db1 := fst (createSecret secretBody emptyDb) in
  let db2 := fst (logActivity 100 secretCreated db1) in
  fst (logActivity 200 projectViewed db2).

(** [MemStorage] after the same calls. *)
Definition memWithSecret : MemStorage.t :=
  let st1 := fst (MemStorage.createSecret secretBody MemStorage.constructor) in
  let st2 := fst (MemStorage.logActivity 100 secretCreated st1) in
  fst (MemStorage.logActivity 200 projectViewed st2).

(** The sample store with a third project whose name is the formatted name
    of the first. *)
Definition twin : Project.t := Project.mk 3 "frontend-api" None.

Definition dbTwin : Db :=
  mkDb (users db) (users_id_seq db)
       [frontend; auth; twin] 4
       (user_projects db) (user_projects_id_seq db)
       (secrets db) (secrets_id_seq db)
       (activity_logs db) (activity_logs_id_seq db).

Definition twinSecret : InsertSecret.t :=
  InsertSecret.mk "DB Password" "other" None 3 "ignored" None.

(** Registration bodies: a fresh account, one with a five-character
    password, and one that repeats a username. *)
Definition dave : InsertUser.t :=
  InsertUser.mk "dave" "dave-password" "dave@example.com" "Dave" None.
Definition erin : InsertUser.t :=
  InsertUser.mk "erin" "12345" "erin@example.com" "Erin" None.
Definition aliceAgain : InsertUser.t :=
  InsertUser.mk "alice" "whatever" "alice2@example.com" "Alice II" None.

Definition billing : InsertProject.t := InsertProject.mk "Billing" None.

(** A password with a character of two bytes: "se", then U+00F1 as the
    bytes 195 and 177, then "or". *)
Definition accented : string :=
  ("se" ++ String (ascii_of_nat 195) (String (ascii_of_nat 177) "or"))%string.

Definition renameOnly : PartialSecret.t :=
  PartialSecret.mk (Some "API_TOKEN") None None None None None.

End Sample.

(* ------------------------------------------------------------------ *)
(** * Properties *)

(** ** Reads inside a handler *)

Section ReadOnly.
Import Routes PgStorage.

Lemma mapM_reads {A B : Type} (f : A -> M B) (g : A -> Db -> B) :
  readsAs f g ->
  forall l db, mapM f l db = ([], db, Ok (map (fun x => g x db) l)).
Proof.
  intros Hf l db. induction l as [|x xs IH]; simpl.
  - reflexivity.
  - unfold bind. rewrite Hf, IH. reflexivity.
Qed.

Lemma enrich_reads : readsAs enrich enriched.
Proof.
  intros l db. unfold enrich, enriched, bind, storage_getUser,
    storage_getProject, storage_getSecret, query, ret.
  destruct (String.eqb (ActivityLog.resourceType l) "project");
    [reflexivity|].
  destruct (String.eqb (ActivityLog.resourceType l) "secret"); reflexivity.
Qed.

Lemma projectSecrets_reads :
  readsAs (fun project => storage_getProjectSecrets (Project.id project))
          (fun project db => getProjectSecrets (Project.id project) db).
Proof. intros p db. reflexivity. Qed.

Lemma projectUser_reads :
  readsAs (fun up => bind (storage_getUser (UserProject.userId up))
                          (fun u => ret (up, u)))
          (fun up db => (up, getUser (UserProject.userId up) db)).
Proof. intros up db. reflexivity. Qed.

End ReadOnly.

(** ** The permission check *)

Section Authorization.
Import Routes PgStorage.

Variable toLowerCase : string -> string.
Variable ssmClient : SsmCommand -> SsmOutcome.
Variable now : nat.

Lemma authorize_admin user projectId roles db :
  User.role user = "admin" ->
  authorize user projectId roles db = ([], db, Ok tt).
Proof.
  intros Hrole. unfold authorize. rewrite Hrole. reflexivity.
Qed.

Lemma authorize_no_row user projectId roles db :
  User.role user <> "admin" ->
  getUserProject (User.id user) projectId db = None ->
  authorize user projectId roles db
  = ([Lookup (User.id user) projectId], db,
     Return (mkResponse 403 (JMessage "Forbidden"))).
Proof.
  intros Hrole Hrow. unfold authorize.
  apply String.eqb_neq in Hrole. rewrite Hrole. simpl.
  unfold bind, storage_getUserProject. rewrite Hrow. reflexivity.
Qed.

Lemma authorize_row user projectId roles db up :
  User.role user <> "admin" ->
  getUserProject (User.id user) projectId db = Some up ->
  authorize user projectId roles db
  = ([Lookup (User.id user) projectId], db,
     match roles with
     | None => Ok tt
     | Some roles =>
         if Js.includes roles (UserProject.role up) then Ok tt
         else Return (mkResponse 403 (JMessage "Forbidden"))
     end).
Proof.
  intros Hrole Hrow. unfold authorize.
  apply String.eqb_neq in Hrole. rewrite Hrole. simpl.
  unfold bind, storage_getUserProject. rewrite Hrow.
  destruct roles as [roles|]; [|reflexivity].
  destruct (Js.includes roles (UserProject.role up)); reflexivity.
Qed.

(** Unfolds a handler down to the storage and SSM calls it makes. *)
Ltac handler :=
  unfold registerRoutes, postUsers, getUsersRoute, getProjectsRoute,
    postProjects, getProjectRoute, getSecretsRoute, getProjectSecretsRoute,
    postSecrets, putSecret, deleteSecretRoute, postUserProjects,
    getProjectUsersRoute, getActivityLogsRoute, getProjectActivityLogsRoute,
    route, bind, isAuthenticated, isAdmin, ssmClient_send, reply, ret,
    storage_getUser, storage_getUsers, storage_createUser, storage_getProject,
    storage_getProjects, storage_getUserProjects, storage_createProject,
    storage_getSecret, storage_getSecrets, storage_getProjectSecrets,
    storage_createSecret, storage_updateSecret, storage_deleteSecret,
    storage_assignUserToProject, storage_getProjectUsers,
    storage_getActivityLogs, storage_getUserActivityLogs,
    storage_getProjectActivityLogs, storage_logActivity, query, write,
    emitted, store, answer.

(** C1: an actor whose global role is admin is never refused with 403, on
    any route, and no handler looks up a membership row
    ([storage.getUserProject]) on their behalf: the permission check returns
    at once, whatever the project and whatever roles the route asks for. *)
Theorem admin_allowed_without_lookup :
  forall (db : Db) (user : User.t),
    User.role user = "admin" ->
    (forall projectId roles,
        authorize user projectId roles db = ([], db, Ok tt))
    /\ (forall req,
           let out := registerRoutes toLowerCase ssmClient now (Some user) req db in
           status (answer out) <> 403 /\ noLookup (emitted out) = true).
Proof.
  intros db user Hrole. split.
  - intros. now apply authorize_admin.
  - intros req out. subst out.
    destruct req as [body| | |body|id| |id|body|id body|id|body|id| |id]; handler; simpl;
      try rewrite (authorize_admin _ _ _ _ Hrole);
      try rewrite Hrole; simpl.
    + destruct (createUser body db) as [db' [e|row]]; simpl; split;
        [discriminate|reflexivity|discriminate|reflexivity].
    + split; [discriminate|reflexivity].
    + split; [discriminate|reflexivity].
    + split; [discriminate|reflexivity].
    + destruct (getProject id db); simpl;
        try rewrite (authorize_admin _ _ _ _ Hrole); simpl;
        split; (discriminate || reflexivity).
    + split; [discriminate|reflexivity].
    + split; [discriminate|reflexivity].
    + destruct (getProject (InsertSecret.projectId body) db); simpl;
        [|split; (discriminate || reflexivity)].
      destruct (ssmClient _); simpl; split; (discriminate || reflexivity).
    + destruct (getSecret id db) as [secret|]; simpl;
        [|split; (discriminate || reflexivity)].
      rewrite (authorize_admin _ _ _ _ Hrole); simpl.
      destruct (valueChanged body secret); simpl;
        [destruct (ssmClient _); simpl|];
        try (destruct (updateSecret id body db) as [db' [e|row]]; simpl);
        split; (discriminate || reflexivity).
    + destruct (getSecret id db) as [secret|]; simpl;
        [|split; (discriminate || reflexivity)].
      rewrite (authorize_admin _ _ _ _ Hrole); simpl.
      destruct (ssmClient _); simpl; split; (discriminate || reflexivity).
    + split; [discriminate|reflexivity].
    + rewrite (mapM_reads _ _ projectUser_reads). simpl.
      split; [discriminate|reflexivity].
    + rewrite (mapM_reads _ _ enrich_reads). simpl.
      split; [discriminate|reflexivity].
    + rewrite (mapM_reads _ _ enrich_reads). simpl.
      split; [discriminate|reflexivity].
Qed.

(** C2: for an actor whose global role is not admin, (a) a request on a
    project for which the actor has no membership row is answered 403, the
    store is left as it was and nothing but the lookup happened; (b) when the
    row the lookup returns has role viewer, listing the project's secrets
    answers 200 with the project's secrets, while creating, updating and
    deleting a secret of that project are answered 403 with the store
    untouched and no command sent to the parameter store. *)
Theorem non_admin_needs_membership :
  forall (db : Db) (user : User.t),
    User.role user <> "admin" ->
    (forall req p,
        checkedProject req db = Some p ->
        getUserProject (User.id user) p db = None ->
        registerRoutes toLowerCase ssmClient now (Some user) req db
        = ([Lookup (User.id user) p], db, forbidden))
    /\ (forall p up,
           getUserProject (User.id user) p db = Some up ->
           UserProject.role up = "viewer" ->
           (let out :=
              registerRoutes toLowerCase ssmClient now (Some user) (GET_project_secrets p) db in
            answer out = mkResponse 200 (JSecrets (getProjectSecrets p db)))
           /\ (forall req,
                  mutatesSecret req = true ->
                  checkedProject req db = Some p ->
                  registerRoutes toLowerCase ssmClient now (Some user) req db
                  = ([Lookup (User.id user) p], db, forbidden))).
Proof.
  intros db user Hrole. split.
  - intros req p Hp Hrow.
    destruct req as [body| | |body|id| |id|body|id body|id|body|id| |id];
      simpl in Hp; try discriminate.
    + destruct (getProject id db) as [project|] eqn:Hproject;
        simpl in Hp; [|discriminate].
      injection Hp as <-. handler. rewrite Hproject.
      rewrite (authorize_no_row _ _ _ _ Hrole Hrow). reflexivity.
    + injection Hp as <-. handler.
      rewrite (authorize_no_row _ _ _ _ Hrole Hrow). reflexivity.
    + injection Hp as <-. handler.
      rewrite (authorize_no_row _ _ _ _ Hrole Hrow). reflexivity.
    + destruct (getSecret id db) as [secret|] eqn:Hsecret;
        simpl in Hp; [|discriminate].
      injection Hp as <-. handler. rewrite Hsecret.
      rewrite (authorize_no_row _ _ _ _ Hrole Hrow). reflexivity.
    + destruct (getSecret id db) as [secret|] eqn:Hsecret;
        simpl in Hp; [|discriminate].
      injection Hp as <-. handler. rewrite Hsecret.
      rewrite (authorize_no_row _ _ _ _ Hrole Hrow). reflexivity.
    + injection Hp as <-. handler.
      rewrite (authorize_no_row _ _ _ _ Hrole Hrow). reflexivity.
    + injection Hp as <-. handler.
      rewrite (authorize_no_row _ _ _ _ Hrole Hrow). reflexivity.
    + injection Hp as <-. handler.
      rewrite (authorize_no_row _ _ _ _ Hrole Hrow). reflexivity.
  - intros p up Hrow Hviewer. split.
    + handler. rewrite (authorize_row _ _ _ _ _ Hrole Hrow). reflexivity.
    + intros req Hmut Hp.
      destruct req as [body| | |body|id| |id|body|id body|id|body|id| |id];
        simpl in Hmut; try discriminate; simpl in Hp.
      * injection Hp as <-. handler.
        rewrite (authorize_row _ _ _ _ _ Hrole Hrow), Hviewer. reflexivity.
      * destruct (getSecret id db) as [secret|] eqn:Hsecret;
          simpl in Hp; [|discriminate].
        injection Hp as <-. handler. rewrite Hsecret.
        rewrite (authorize_row _ _ _ _ _ Hrole Hrow), Hviewer. reflexivity.
      * destruct (getSecret id db) as [secret|] eqn:Hsecret;
          simpl in Hp; [|discriminate].
        injection Hp as <-. handler. rewrite Hsecret.
        rewrite (authorize_row _ _ _ _ _ Hrole Hrow), Hviewer. reflexivity.
Qed.

Lemma authorize_permitted user projectId roles db :
  permitted user projectId roles db = true ->
  authorize user projectId (Some roles) db = (lookups user projectId, db, Ok tt).
Proof.
  unfold permitted, lookups, authorize, bind, storage_getUserProject.
  destruct (String.eqb (User.role user) "admin"); simpl; [reflexivity|].
  destruct (getUserProject (User.id user) projectId db) as [up|];
    [|discriminate].
  intros ->. reflexivity.
Qed.

Lemma authorize_not_permitted user projectId roles db :
  permitted user projectId roles db = false ->
  authorize user projectId (Some roles) db
  = (lookups user projectId, db, Return forbidden).
Proof.
  unfold permitted, lookups, authorize, bind, storage_getUserProject.
  destruct (String.eqb (User.role user) "admin"); simpl; [discriminate|].
  destruct (getUserProject (User.id user) projectId db) as [up|];
    [|reflexivity].
  intros ->. reflexivity.
Qed.

Lemma lookups_ssmFailed user projectId l :
  ssmFailed (lookups user projectId ++ l) = ssmFailed l.
Proof.
  unfold lookups. destruct (String.eqb (User.role user) "admin"); reflexivity.
Qed.

Lemma lookups_noWrite user projectId l :
  noWrite (lookups user projectId ++ l) = noWrite l.
Proof.
  unfold lookups. destruct (String.eqb (User.role user) "admin"); reflexivity.
Qed.

End Authorization.

(** ** Lookups in the tables *)

Section Tables.
Import PgStorage.

Lemma find_app_none {A : Type} (f : A -> bool) (l l' : list A) :
  find f l = None -> find f (l ++ l') = find f l'.
Proof.
  induction l as [|x xs IH]; simpl; [reflexivity|].
  destruct (f x); [discriminate|exact IH].
Qed.

Lemma find_app {A : Type} (f : A -> bool) (l l' : list A) :
  find f (l ++ l') = match find f l with
                     | Some x => Some x
                     | None => find f l'
                     end.
Proof.
  induction l as [|x xs IH]; simpl; [reflexivity|].
  destruct (f x); [reflexivity|exact IH].
Qed.

Lemma find_filter_not {A : Type} (f : A -> bool) (l : list A) :
  find f (filter (fun x => negb (f x)) l) = None.
Proof.
  induction l as [|x xs IH]; simpl; [reflexivity|].
  destruct (f x) eqn:Hx; simpl; [exact IH|]. now rewrite Hx.
Qed.

Lemma find_filter_other {A : Type} (f g : A -> bool) (l : list A) :
  (forall x, f x = true -> g x = true) ->
  find f (filter g l) = find f l.
Proof.
  intros Hfg. induction l as [|x xs IH]; simpl; [reflexivity|].
  destruct (g x) eqn:Hg; simpl.
  - destruct (f x); [reflexivity|exact IH].
  - destruct (f x) eqn:Hf; [|exact IH]. rewrite (Hfg x Hf) in Hg. discriminate.
Qed.

Lemma find_filter_out (id : nat) (l : list Secret.t) :
  find (fun s => Secret.id s =? id)
       (filter (fun s => negb (Secret.id s =? id)) l) = None.
Proof. exact (find_filter_not (fun s => Secret.id s =? id) l). Qed.

Lemma hd_error_filter {A : Type} (f : A -> bool) (l : list A) :
  hd_error (filter f l) = find f l.
Proof.
  induction l as [|x xs IH]; simpl; [reflexivity|].
  destruct (f x); [reflexivity|exact IH].
Qed.

Lemma hd_error_map {A B : Type} (g : A -> B) (l : list A) :
  hd_error (map g l) = option_map g (hd_error l).
Proof. destruct l; reflexivity. Qed.

Lemma find_none_map {A : Type} (f : A -> bool) (g : A -> A) (l : list A) :
  (forall x, In x l -> f (g x) = false) -> find f (map g l) = None.
Proof.
  induction l as [|x xs IH]; simpl; intros H; [reflexivity|].
  rewrite (H x (or_introl eq_refl)). apply IH. intros y Hy. apply H. now right.
Qed.

(** *** Updates *)

Section UpdateWhere.
Context {A : Type}.
Variables (hit : A -> bool) (set : A -> A).

(** [returning()] starts with the new version of the first row selected. *)
Lemma updateWhere_returning (rows : list A) :
  hd_error (snd (updateWhere hit set rows)) = option_map set (find hit rows).
Proof.
  unfold updateWhere. cbn [snd]. now rewrite hd_error_map, hd_error_filter.
Qed.

(** When the rewriting keeps a row selected, the condition finds afterwards
    what [returning()] starts with. *)
Lemma updateWhere_find (rows : list A) :
  (forall r, hit r = true -> hit (set r) = true) ->
  find hit (fst (updateWhere hit set rows))
  = hd_error (snd (updateWhere hit set rows)).
Proof.
  intros Hkeeps. unfold updateWhere. cbn [fst snd].
  rewrite find_app, find_filter_not.
  destruct (filter hit rows) as [|x xs] eqn:Hf; [reflexivity|].
  assert (Hx : hit x = true).
  { assert (Hin : In x (filter hit rows)) by (rewrite Hf; now left).
    now apply filter_In in Hin. }
  simpl. now rewrite (Hkeeps x Hx).
Qed.

(** A condition that no selected row meets, before or after the rewriting,
    finds what it found. *)
Lemma updateWhere_find_other (other : A -> bool) (rows : list A) :
  (forall r, hit r = true -> other r = false) ->
  (forall r, hit r = true -> other (set r) = false) ->
  find other (fst (updateWhere hit set rows)) = find other rows.
Proof.
  intros Hbefore Hafter. unfold updateWhere. cbn [fst].
  rewrite find_app. rewrite find_filter_other.
  - destruct (find other rows); [reflexivity|].
    apply find_none_map. intros x Hx. apply filter_In in Hx.
    now apply Hafter.
  - intros x Hx. destruct (hit x) eqn:Hh; [|reflexivity].
    rewrite (Hbefore x Hh) in Hx. discriminate.
Qed.

Lemma updateWhere_length (rows : list A) :
  List.length (fst (updateWhere hit set rows)) = List.length rows.
Proof.
  unfold updateWhere. cbn [fst]. rewrite length_app, length_map.
  induction rows as [|x xs IH]; simpl; [reflexivity|].
  destruct (hit x); simpl; lia.
Qed.

(** Nothing selected, nothing changed. *)
Lemma updateWhere_none (rows : list A) :
  find hit rows = None -> updateWhere hit set rows = (rows, []).
Proof.
  intros Hnone. unfold updateWhere.
  assert (Hall : forall x, In x rows -> hit x = false)
    by (intros x Hx; exact (find_none _ _ Hnone x Hx)).
  assert (Hno : filter hit rows = []).
  { clear Hnone. induction rows as [|x xs IH]; simpl; [reflexivity|].
    rewrite (Hall x (or_introl eq_refl)). apply IH.
    intros y Hy. apply Hall. now right. }
  rewrite Hno. simpl. rewrite app_nil_r. f_equal.
  clear Hnone Hno. induction rows as [|x xs IH]; simpl; [reflexivity|].
  rewrite (Hall x (or_introl eq_refl)). simpl. f_equal. apply IH.
  intros y Hy. apply Hall. now right.
Qed.

(** Every row afterwards is a row left alone or the new version of one. *)
Lemma updateWhere_In (rows : list A) (r : A) :
  In r (fst (updateWhere hit set rows)) ->
  In r rows \/ exists old, In old rows /\ r = set old.
Proof.
  unfold updateWhere. cbn [fst]. intros Hin. apply in_app_or in Hin.
  destruct Hin as [Hin|Hin].
  - left. now apply filter_In in Hin.
  - right. apply in_map_iff in Hin. destruct Hin as (old & <- & Hold).
    exists old. apply filter_In in Hold. now split.
Qed.

End UpdateWhere.

Lemma applyPatch_id p s : Secret.id (applyPatch p s) = Secret.id s.
Proof. reflexivity. Qed.

Lemma updateSecret_throws id p db :
  noValues p = true -> updateSecret id p db = (db, inl NoValuesToSet).
Proof. intros H. unfold updateSecret. now rewrite H. Qed.

Lemma updateSecret_runs id p db :
  noValues p = false ->
  updateSecret id p db
  = (set_secrets db
       (fst (updateWhere (fun s => Secret.id s =? id) (applyPatch p)
                         (secrets db)))
       (secrets_id_seq db),
     inr (option_map (applyPatch p) (getSecret id db))).
Proof.
  intros H. unfold updateSecret, getSecret. rewrite H. cbv zeta.
  now rewrite updateWhere_returning.
Qed.

Lemma getSecret_updateSecret id p db secret :
  noValues p = false ->
  getSecret id db = Some secret ->
  snd (updateSecret id p db) = inr (Some (applyPatch p secret))
  /\ getSecret id (fst (updateSecret id p db)) = Some (applyPatch p secret).
Proof.
  intros Hp H. rewrite (updateSecret_runs _ _ _ Hp), H. split; [reflexivity|].
  unfold getSecret. cbn [fst secrets set_secrets].
  rewrite updateWhere_find by (intros r Hr; exact Hr).
  unfold getSecret in H. now rewrite updateWhere_returning, H.
Qed.

Lemma getSecret_deleteSecret id db :
  getSecret id (fst (deleteSecret id db)) = None.
Proof. unfold getSecret, deleteSecret. simpl. apply find_filter_out. Qed.

Lemma getSecret_logActivity id now a db :
  getSecret id (fst (logActivity now a db)) = getSecret id db.
Proof. reflexivity. Qed.

Lemma find_fresh_id (id : nat) (l : list Secret.t) :
  (forall s, In s l -> Secret.id s < id) ->
  find (fun s => Secret.id s =? id) l = None.
Proof.
  induction l as [|x xs IH]; simpl; intros H; [reflexivity|].
  destruct (Secret.id x =? id) eqn:Hx.
  - apply Nat.eqb_eq in Hx. specialize (H x (or_introl eq_refl)). lia.
  - apply IH. intros s Hs. apply H. now right.
Qed.

Lemma getSecret_createSecret s db :
  Routes.secretIdsDrawn db ->
  getSecret (Secret.id (snd (createSecret s db))) (fst (createSecret s db))
  = Some (snd (createSecret s db)).
Proof.
  intros Hdrawn. unfold getSecret, createSecret. simpl.
  rewrite find_app_none by (apply find_fresh_id; exact Hdrawn).
  simpl. rewrite Nat.eqb_refl. reflexivity.
Qed.

End Tables.

(** ** Strings *)

Section Strings.

Lemma mapChars_length (f : ascii -> ascii) (s : string) :
  String.length (Js.mapChars f s) = String.length s.
Proof.
  induction s as [|c s IH]; cbn [Js.mapChars String.length]; [reflexivity|].
  now rewrite IH.
Qed.

Lemma mapChars_get (f : ascii -> ascii) (s : string) (i : nat) :
  String.get i (Js.mapChars f s) = option_map f (String.get i s).
Proof.
  revert i. induction s as [|c s IH]; intros i; cbn [Js.mapChars String.get];
    [reflexivity|].
  destruct i as [|i]; [reflexivity|apply IH].
Qed.

Lemma append_cancel_prefix (p a b : string) :
  (p ++ a)%string = (p ++ b)%string -> a = b.
Proof.
  induction p as [|c p IH]; simpl; intros H; [exact H|].
  injection H as H. now apply IH.
Qed.

End Strings.

(** ** The two-store write discipline *)

Section WriteThrough.
Import Routes PgStorage.

Variable toLowerCase : string -> string.
Variable ssmClient : SsmCommand -> SsmOutcome.
Variable now : nat.

(** [POST /api/secrets], branch by branch. *)
Lemma postSecrets_runs (db : Db) (user : User.t) (body : InsertSecret.t) :
  let projectId := InsertSecret.projectId body in
  let checks := lookups user projectId in
  postSecrets toLowerCase ssmClient now (Some user) body db
  = if permitted user projectId ["admin"; "editor"] db then
      match getProject projectId db with
      | None => (checks, db, mkResponse 404 (JMessage "Project not found"))
      | Some project =>
          let cmd := createCommand toLowerCase body project in
          match ssmClient cmd with
          | SsmError message =>
              (checks ++ [Ssm cmd false], db,
               mkResponse 500
                 (JMessageError "Failed to store secret in AWS SSM" message))
          | SsmOk =>
              let payload :=
                withSsmPath body (ssmPathFor toLowerCase project (InsertSecret.name body)) in
              let created := createSecret payload db in
              let activity :=
                createdActivity (User.id user) (snd created) project in
              (checks ++ [Ssm cmd true; Write (W_createSecret payload);
                          Write (W_logActivity activity)],
               fst (logActivity now activity (fst created)),
               mkResponse 201 (JSecret (snd created)))
          end
      end
    else (checks, db, forbidden).
Proof.
  intros projectId checks. subst projectId checks.
  unfold postSecrets, route, isAuthenticated. unfold bind at 1. unfold ret at 1.
  unfold bind at 1.
  destruct (permitted user (InsertSecret.projectId body) ["admin"; "editor"] db)
    eqn:Hperm.
  - rewrite (authorize_permitted _ _ _ _ Hperm).
    unfold bind, storage_getProject, query.
    destruct (getProject (InsertSecret.projectId body) db) as [project|];
      [|unfold reply; simpl; rewrite app_nil_r; reflexivity].
    unfold ssmClient_send, createCommand.
    destruct (ssmClient _); reflexivity.
  - rewrite (authorize_not_permitted _ _ _ _ Hperm). reflexivity.
Qed.

(** A patch with a value that passes the handler's test has a key. *)
Lemma valueChanged_noValues body secret :
  valueChanged body secret = true -> noValues body = false.
Proof.
  unfold valueChanged, noValues.
  destruct (PartialSecret.name body); [reflexivity|].
  destruct (PartialSecret.value body); [reflexivity|discriminate].
Qed.

(** [PUT /api/secrets/:id] on an existing secret, branch by branch. The
    update of the row throws for a body without keys, and the handler's
    [catch] then answers 500 before anything is logged. *)
Lemma putSecret_runs (db : Db) (user : User.t) (secretId : nat)
  (body : PartialSecret.t) (secret : Secret.t) :
  getSecret secretId db = Some secret ->
  let checks := lookups user (Secret.projectId secret) in
  let cmd := updateCommand body secret in
  let activity := updatedActivity (User.id user) secretId secret in
  let updated := updateSecret secretId body db in
  let after (sent : list Event) :=
    match snd updated with
    | inr row =>
        (checks ++ sent ++ [Write (W_updateSecret secretId body);
                            Write (W_logActivity activity)],
         fst (logActivity now activity (fst updated)),
         mkResponse 200 (JSecretOpt row))
    | inl _ =>
        (checks ++ sent ++ [Write (W_updateSecret secretId body)],
         fst updated,
         mkResponse 500 (JMessage "Failed to update secret"))
    end in
  putSecret ssmClient now (Some user) secretId body db
  = if permitted user (Secret.projectId secret) ["admin"; "editor"] db then
      if valueChanged body secret then
        match ssmClient cmd with
        | SsmError message =>
            (checks ++ [Ssm cmd false], db,
             mkResponse 500
               (JMessageError "Failed to update secret in AWS SSM" message))
        | SsmOk => after [Ssm cmd true]
        end
      else after []
    else (checks, db, forbidden).
Proof.
  intros Hsecret checks cmd activity updated after.
  subst checks cmd activity updated after.
  unfold putSecret, route, isAuthenticated. unfold bind at 1. unfold ret at 1.
  unfold bind at 1. unfold storage_getSecret at 1. unfold query at 1.
  rewrite Hsecret. unfold bind at 1.
  destruct (permitted user (Secret.projectId secret) ["admin"; "editor"] db)
    eqn:Hperm.
  - rewrite (authorize_permitted _ _ _ _ Hperm).
    unfold bind at 1. unfold bind at 1.
    destruct (valueChanged body secret).
    + unfold bind at 1. unfold ssmClient_send, updateCommand.
      destruct (ssmClient _); [|reflexivity].
      unfold bind, storage_updateSecret, ret. cbn iota beta.
      destruct (updateSecret secretId body db) as [db' [e|row]]; reflexivity.
    + unfold bind, storage_updateSecret, ret. cbn iota beta.
      destruct (updateSecret secretId body db) as [db' [e|row]]; reflexivity.
  - rewrite (authorize_not_permitted _ _ _ _ Hperm). reflexivity.
Qed.

(** [DELETE /api/secrets/:id] on an existing secret, branch by branch. *)
Lemma deleteSecretRoute_runs (db : Db) (user : User.t) (secretId : nat)
  (secret : Secret.t) :
  getSecret secretId db = Some secret ->
  let checks := lookups user (Secret.projectId secret) in
  let cmd := deleteCommand secret in
  let activity := deletedActivity (User.id user) secretId secret in
  deleteSecretRoute ssmClient now (Some user) secretId db
  = if permitted user (Secret.projectId secret) ["admin"] db then
      match ssmClient cmd with
      | SsmError message =>
          (checks ++ [Ssm cmd false], db,
           mkResponse 500
             (JMessageError "Failed to delete secret from AWS SSM" message))
      | SsmOk =>
          (checks ++ [Ssm cmd true; Write (W_deleteSecret secretId);
                      Write (W_logActivity activity)],
           fst (logActivity now activity (fst (deleteSecret secretId db))),
           mkResponse 200 JSuccess)
      end
    else (checks, db, forbidden).
Proof.
  intros Hsecret checks cmd activity. subst checks cmd activity.
  unfold deleteSecretRoute, route, isAuthenticated.
  unfold bind at 1. unfold ret at 1.
  unfold bind at 1. unfold storage_getSecret at 1. unfold query at 1.
  rewrite Hsecret. unfold bind at 1.
  destruct (permitted user (Secret.projectId secret) ["admin"] db) eqn:Hperm.
  - rewrite (authorize_permitted _ _ _ _ Hperm).
    unfold bind at 1. unfold ssmClient_send, deleteCommand.
    destruct (ssmClient _); reflexivity.
  - rewrite (authorize_not_permitted _ _ _ _ Hperm). reflexivity.
Qed.

(** C3: whenever the put of [POST /api/secrets] fails, the handler stops
    there: the relational store is exactly what it was (no secret row, no
    activity entry), the handler asked no write of it, and the answer is
    500. *)
Theorem create_put_failure_leaves_store :
  forall (req_user : option User.t) (body : InsertSecret.t) (db : Db),
    let out := postSecrets toLowerCase ssmClient now req_user body db in
    ssmFailed (emitted out) = true ->
    store out = db
    /\ secrets (store out) = secrets db
    /\ activity_logs (store out) = activity_logs db
    /\ noWrite (emitted out) = true
    /\ status (answer out) = 500.
Proof.
  intros req_user body db out. subst out.
  destruct req_user as [user|]; [|discriminate].
  rewrite postSecrets_runs. cbv zeta.
  destruct (permitted _ _ _ db).
  - destruct (getProject _ db) as [project|].
    + destruct (ssmClient _); unfold emitted, store, answer; simpl;
        rewrite lookups_ssmFailed, lookups_noWrite; simpl; intros H.
      * discriminate.
      * repeat split.
    + unfold emitted; simpl. rewrite <- (app_nil_r (lookups _ _)).
      rewrite lookups_ssmFailed. discriminate.
  - unfold emitted; simpl. rewrite <- (app_nil_r (lookups _ _)).
    rewrite lookups_ssmFailed. discriminate.
Qed.

(** C5: [DELETE /api/secrets/:id] on an existing secret, by an actor the
    permission check lets through, first sends the delete of the secret's
    [ssmPath] to the parameter store. If that succeeds, the row is deleted
    next and the deletion is logged; if it fails, whatever the error, the
    handler answers 500 and the relational store is what it was, so the row
    is still there. *)
Theorem delete_parameter_first :
  forall (db : Db) (user : User.t) (secretId : nat) (secret : Secret.t),
    getSecret secretId db = Some secret ->
    permitted user (Secret.projectId secret) ["admin"] db = true ->
    let out := deleteSecretRoute ssmClient now (Some user) secretId db in
    let cmd := DeleteParameterCommand (Secret.ssmPath secret) in
    let checks := lookups user (Secret.projectId secret) in
    match ssmClient cmd with
    | SsmOk =>
        emitted out
        = checks ++ [Ssm cmd true; Write (W_deleteSecret secretId);
                     Write (W_logActivity
                              (deletedActivity (User.id user) secretId secret))]
        /\ getSecret secretId (store out) = None
        /\ answer out = mkResponse 200 JSuccess
    | SsmError message =>
        emitted out = checks ++ [Ssm cmd false]
        /\ store out = db
        /\ getSecret secretId (store out) = Some secret
        /\ answer out
           = mkResponse 500
               (JMessageError "Failed to delete secret from AWS SSM" message)
    end.
Proof.
  intros db user secretId secret Hsecret Hperm out cmd checks.
  subst out cmd checks.
  rewrite (deleteSecretRoute_runs _ _ _ _ Hsecret), Hperm. cbv zeta.
  unfold deleteCommand.
  destruct (ssmClient _); unfold emitted, store, answer; simpl.
  - repeat split. apply getSecret_deleteSecret.
  - repeat split. exact Hsecret.
Qed.

(** C8: when [POST /api/secrets] answers 201, the row it stored has
    [ssmPath] equal to "/secrets-manager/", then a segment, then "/", then
    the secret's name exactly as the request gave it; the segment is the
    project's name lower-cased (by [toLowerCase], whatever text the name
    is) with every space replaced by a hyphen and every other character
    kept, so it has the length of the lower-cased name and differs from it
    at the spaces only. The value put in the parameter store under that
    path is the value of the row. *)
Theorem created_secret_path_and_value :
  forall (req_user : option User.t) (body : InsertSecret.t) (db : Db),
    let out := postSecrets toLowerCase ssmClient now req_user body db in
    status (answer out) = 201 ->
    exists project secret segment,
      getProject (InsertSecret.projectId body) db = Some project
      /\ answer out = mkResponse 201 (JSecret secret)
      /\ In secret (secrets (store out))
      /\ (secretIdsDrawn db ->
          getSecret (Secret.id secret) (store out) = Some secret)
      /\ Secret.ssmPath secret
         = ("/secrets-manager/" ++ segment ++ "/" ++ InsertSecret.name body)%string
      /\ String.length segment
         = String.length (toLowerCase (Project.name project))
      /\ (forall i,
            String.get i segment
            = match String.get i (toLowerCase (Project.name project)) with
              | Some " "%char => Some "-"%char
              | other => other
              end)
      /\ Secret.name secret = InsertSecret.name body
      /\ Secret.value secret = InsertSecret.value body
      /\ In (Ssm (PutParameterCommand (Secret.ssmPath secret)
                    (Secret.value secret)
                    (parameterType (InsertSecret.isEncrypted body)) true) true)
            (emitted out).
Proof.
  intros req_user body db out. subst out.
  destruct req_user as [user|]; [|intros H; cbv in H; discriminate].
  rewrite postSecrets_runs. cbv zeta.
  destruct (permitted _ _ _ db); [|discriminate].
  destruct (getProject _ db) as [project|] eqn:Hproject; [|discriminate].
  unfold createCommand.
  destruct (ssmClient _); [|discriminate].
  intros _. unfold emitted, store, answer; simpl.
  eexists project, _, (Js.replaceSpaces (toLowerCase (Project.name project))).
  split; [reflexivity|]. split; [reflexivity|].
  split; [apply in_or_app; right; left; reflexivity|].
  split.
  { intros Hdrawn.
    exact (getSecret_createSecret
             (withSsmPath body
                (ssmPathFor toLowerCase project (InsertSecret.name body)))
             db Hdrawn). }
  split; [reflexivity|].
  split; [apply mapChars_length|].
  split.
  { intros i. unfold Js.replaceSpaces. rewrite mapChars_get.
    destruct (String.get i (toLowerCase (Project.name project))) as [c|];
      [|reflexivity].
    cbn [option_map]. unfold Js.hyphenate.
    destruct (Ascii.eqb_spec c " "%char) as [->|Hc]; [reflexivity|].
    destruct c as [[] [] [] [] [] [] [] []]; try reflexivity.
    now contradiction Hc. }
  repeat split.
  apply in_or_app. right. left. reflexivity.
Qed.


Lemma lookupsOf_lookups user projectId l :
  lookupsOf (lookups user projectId ++ l)
  = lookups user projectId ++ lookupsOf l.
Proof.
  unfold lookups. destruct (String.eqb (User.role user) "admin"); reflexivity.
Qed.

(** C10: [PUT /api/secrets/:id] checks the actor's membership of the project
    the secret is in before the update, and only that one; the row then
    takes every field the body carries. So an editor of the secret's current
    project who sends a body with another [projectId] gets 200 and the row
    now belongs to that project (and has the body's [ssmPath], if it gave
    one), with no lookup made for the target project. *)
Theorem update_moves_secret_unchecked :
  forall (db : Db) (user : User.t) (secretId : nat) (secret : Secret.t)
         (up : UserProject.t) (body : PartialSecret.t) (target : nat),
    getSecret secretId db = Some secret ->
    User.role user <> "admin" ->
    getUserProject (User.id user) (Secret.projectId secret) db = Some up ->
    UserProject.role up = "editor" ->
    PartialSecret.projectId body = Some target ->
    (valueChanged body secret = true ->
     ssmClient (updateCommand body secret) = SsmOk) ->
    let out := putSecret ssmClient now (Some user) secretId body db in
    status (answer out) = 200
    /\ lookupsOf (emitted out)
       = [Lookup (User.id user) (Secret.projectId secret)]
    /\ getSecret secretId (store out) = Some (applyPatch body secret)
    /\ Secret.projectId (applyPatch body secret) = target
    /\ (forall path, PartialSecret.ssmPath body = Some path ->
                     Secret.ssmPath (applyPatch body secret) = path).
Proof.
  intros db user secretId secret up body target
         Hsecret Hrole Hrow Heditor Htarget Hssm out. subst out.
  assert (Hperm : permitted user (Secret.projectId secret)
                            ["admin"; "editor"] db = true).
  { unfold permitted. rewrite Hrow, Heditor. apply orb_true_r. }
  assert (Hchecks : lookups user (Secret.projectId secret)
                    = [Lookup (User.id user) (Secret.projectId secret)]).
  { unfold lookups. apply String.eqb_neq in Hrole. now rewrite Hrole. }
  assert (Hkeys : noValues body = false).
  { unfold noValues. rewrite Htarget.
    destruct (PartialSecret.name body), (PartialSecret.value body),
      (PartialSecret.description body); reflexivity. }
  rewrite (putSecret_runs _ _ _ _ _ Hsecret), Hperm. cbv zeta.
  destruct (getSecret_updateSecret secretId body db secret Hkeys Hsecret)
    as [Hreturned Hstored].
  rewrite Hreturned.
  assert (Hfields :
            Secret.projectId (applyPatch body secret) = target
            /\ (forall path, PartialSecret.ssmPath body = Some path ->
                             Secret.ssmPath (applyPatch body secret) = path)).
  { split; [simpl; now rewrite Htarget|]. intros path Hpath. simpl.
    now rewrite Hpath. }
  destruct (valueChanged body secret).
  - rewrite (Hssm eq_refl). cbn [emitted store answer fst snd status].
    rewrite lookupsOf_lookups, Hchecks.
    split; [reflexivity|]. split; [reflexivity|].
    split; [exact Hstored|exact Hfields].
  - cbn [emitted store answer fst snd status].
    rewrite lookupsOf_lookups, Hchecks.
    split; [reflexivity|]. split; [reflexivity|].
    split; [exact Hstored|exact Hfields].
Qed.

(** What [PUT /api/secrets/:id] keeps of the write discipline, for an
    existing secret and an actor the permission check lets through. When
    the handler's test [req.body.value && req.body.value !== secret.value]
    holds, the put at the secret's stored [ssmPath] comes before the update
    of the row, and a failed put leaves the relational store as it was.
    When the test does not hold, no command is sent; the row is then
    updated and the update logged, unless the body has no key at all: for
    the body [{}] the update throws, the handler answers 500 with "Failed
    to update secret", the store is what it was and nothing is logged. *)
Lemma update_discipline (db : Db) (user : User.t) (secretId : nat)
  (body : PartialSecret.t) (secret : Secret.t) :
  getSecret secretId db = Some secret ->
  permitted user (Secret.projectId secret) ["admin"; "editor"] db = true ->
  let out := putSecret ssmClient now (Some user) secretId body db in
  let cmd := PutParameterCommand (Secret.ssmPath secret)
               (withDefault "" (PartialSecret.value body))
               (parameterType (PartialSecret.isEncrypted body)) true in
  let checks := lookups user (Secret.projectId secret) in
  let update := Write (W_updateSecret secretId body) in
  let logged :=
    Write (W_logActivity (updatedActivity (User.id user) secretId secret)) in
  if valueChanged body secret then
    match ssmClient cmd with
    | SsmOk =>
        emitted out = checks ++ [Ssm cmd true; update; logged]
        /\ getSecret secretId (store out) = Some (applyPatch body secret)
        /\ answer out
           = mkResponse 200 (JSecretOpt (Some (applyPatch body secret)))
    | SsmError message =>
        emitted out = checks ++ [Ssm cmd false]
        /\ store out = db
        /\ status (answer out) = 500
    end
  else if noValues body then
    emitted out = checks ++ [update]
    /\ store out = db
    /\ answer out = mkResponse 500 (JMessage "Failed to update secret")
  else
    emitted out = checks ++ [update; logged]
    /\ getSecret secretId (store out) = Some (applyPatch body secret)
    /\ answer out = mkResponse 200 (JSecretOpt (Some (applyPatch body secret))).
Proof.
  intros Hsecret Hperm out cmd checks update logged.
  subst out cmd checks update logged.
  rewrite (putSecret_runs _ _ _ _ _ Hsecret), Hperm. cbv zeta.
  unfold updateCommand.
  destruct (valueChanged body secret) eqn:Hchanged.
  - destruct (ssmClient _); [|repeat split].
    destruct (getSecret_updateSecret secretId body db secret
                (valueChanged_noValues _ _ Hchanged) Hsecret)
      as [Hreturned Hstored].
    rewrite Hreturned. cbn [emitted store answer fst snd app].
    split; [reflexivity|]. split; [exact Hstored|reflexivity].
  - destruct (noValues body) eqn:Hkeys.
    + rewrite (updateSecret_throws _ _ _ Hkeys).
      cbn [emitted store answer fst snd app]. repeat split.
    + destruct (getSecret_updateSecret secretId body db secret Hkeys Hsecret)
        as [Hreturned Hstored].
      rewrite Hreturned. cbn [emitted store answer fst snd app].
      split; [reflexivity|]. split; [exact Hstored|reflexivity].
Qed.

End WriteThrough.

(** ** Worked cases *)

Section WorkedCases.
Import Routes PgStorage Sample.

Example ssmPath_of_sample :
  ssmPathFor Js.asciiLower frontend "API Key" = "/secrets-manager/frontend-api/API Key".
Proof. reflexivity. Qed.

(** Whoever creates a project becomes its admin and may then create
    secrets in it. *)
Example creator_becomes_project_admin :
  let created := postProjects 300 (Some carol) (InsertProject.mk "Billing" None) db in
  getUserProject 4 3 (store created) = Some (UserProject.mk 5 4 3 "admin")
  /\ permitted carol 3 ["admin"; "editor"] (store created) = true.
Proof. split; reflexivity. Qed.

(** C4: [PUT /api/secrets/1] with body [{ value: "" }] by an editor of the
    secret's project. The new value differs from the stored one, yet the
    handler sends nothing to the parameter store and still updates the row:
    the row's value becomes the empty string. *)
Theorem update_to_empty_value_skips_parameter_store :
  let out := putSecret ssmUp 300 (Some alice) 1 emptyValue db in
  getSecret 1 db = Some apiKey
  /\ PartialSecret.value emptyValue <> Some (Secret.value apiKey)
  /\ emitted out
     = [Lookup 2 1; Write (W_updateSecret 1 emptyValue);
        Write (W_logActivity (updatedActivity 2 1 apiKey))]
  /\ noSsm (emitted out) = true
  /\ status (answer out) = 200
  /\ option_map Secret.value (getSecret 1 (store out)) = Some "".
Proof.
  cbv zeta. repeat split; try reflexivity. discriminate.
Qed.

(** The same route with body [{ value: "rotated" }] on the encrypted
    secret: the put is sent with type String, and the row still says
    [isEncrypted = true]. *)
Example update_without_flag_sends_plain_string :
  let out := putSecret ssmUp 300 (Some alice) 1 newValueOnly db in
  emitted out
  = [Lookup 2 1;
     Ssm (PutParameterCommand "/secrets-manager/frontend-api/API_KEY"
            "rotated" TypeString true) true;
     Write (W_updateSecret 1 newValueOnly);
     Write (W_logActivity (updatedActivity 2 1 apiKey))]
  /\ option_map Secret.isEncrypted (getSecret 1 (store out))
     = Some (Some true).
Proof. split; reflexivity. Qed.

(** C6: the same two calls, [assignUserToProject] of user 2 to project 1 as
    viewer and then as admin, on both storages. [PgStorage] ends with two
    rows for the pair, and its lookup still returns the viewer row;
    [MemStorage] ends with one object for the pair, whose role is admin. *)
Theorem pg_assign_twice_duplicates_row :
  let pg := fst (assignUserToProject asAdmin
                   (fst (assignUserToProject asViewer emptyDb))) in
  let mem := fst (MemStorage.assignUserToProject asAdmin
                    (fst (MemStorage.assignUserToProject asViewer
                            MemStorage.constructor))) in
  filter (samePair 2 1) (user_projects pg)
  = [UserProject.mk 1 2 1 "viewer"; UserProject.mk 2 2 1 "admin"]
  /\ getUserProject 2 1 pg = Some (UserProject.mk 1 2 1 "viewer")
  /\ filter (MemStorage.samePair 2 1) (JsMap.values (MemStorage.userProjects mem))
     = [MemStorage.mkUserProject 5 2 1 (Some "admin")]
  /\ MemStorage.getUserProject 2 1 mem
     = Some (MemStorage.mkUserProject 5 2 1 (Some "admin")).
Proof. cbv zeta. repeat split; reflexivity. Qed.

(** C7: a secret of project 1 exists and its creation was logged.
    [PgStorage.getProjectActivityLogs 1] returns the project entry only, the
    secret's entry is not in it; [MemStorage.getProjectActivityLogs 1]
    returns both, and after [deleteSecret 1] only the project entry. *)
Theorem pg_project_logs_omit_secret_entries :
  let secretEntry :=
    ActivityLog.mk 1 2 "created" "secret" 1
      (Some "Created secret: API_KEY in project: Frontend API") 100 in
  let projectEntry :=
    ActivityLog.mk 2 2 "viewed" "project" 1
      (Some "Viewed secrets in project with ID: 1") 200 in
  option_map Secret.projectId (getSecret 1 pgWithSecret) = Some 1
  /\ activity_logs pgWithSecret = [secretEntry; projectEntry]
  /\ getProjectActivityLogs 1 pgWithSecret = [projectEntry]
  /\ MemStorage.getProjectActivityLogs 1 memWithSecret
     = [projectEntry; secretEntry]
  /\ MemStorage.getProjectActivityLogs 1
       (fst (MemStorage.deleteSecret 1 memWithSecret))
     = [projectEntry].
Proof. cbv zeta. repeat split; reflexivity. Qed.


(** [PUT /api/secrets/1] with the body [{}] by an editor of the secret's
    project: the update throws, the answer is 500, nothing is logged and
    the row is what it was. *)
Example update_with_empty_body_fails :
  let out :=
    putSecret ssmUp 300 (Some alice) 1
              (PartialSecret.mk None None None None None None) db in
  out = ([Lookup 2 1;
          Write (W_updateSecret 1 (PartialSecret.mk None None None None None None))],
         db, mkResponse 500 (JMessage "Failed to update secret")).
Proof. reflexivity. Qed.

(** The login schema counts UTF-16 code units: the password "se", n with
    tilde, "or" has six bytes and five code units, and a login with it is
    turned down by the schema. *)
Example login_schema_counts_code_units :
  String.length accented = 6
  /\ Js.length accented = 5
  /\ Auth.postAuthLogin None (LoginUser.mk "alice" accented) db
     = (Auth.mkAuthResponse 400
          (Auth.AValidation ["Password must be at least 6 characters"]),
        None).
Proof. repeat split. Qed.

(** *** Instances of the general statements *)

Lemma admin_allowed_without_lookup_witness :
  User.role admin = "admin"
  /\ (let out := registerRoutes Js.asciiLower ssmUp 300 (Some admin) (DELETE_secret 1) db in
      status (answer out) <> 403 /\ noLookup (emitted out) = true).
Proof.
  split; [reflexivity|].
  exact (proj2 (admin_allowed_without_lookup Js.asciiLower ssmUp 300 db admin eq_refl)
               (DELETE_secret 1)).
Defined.

Lemma non_admin_needs_membership_witness :
  User.role bob <> "admin"
  /\ getUserProject (User.id carol) 1 db = None
  /\ registerRoutes Js.asciiLower ssmUp 300 (Some carol) (GET_project_secrets 1) db
     = ([Lookup 4 1], db, forbidden)
  /\ option_map UserProject.role (getUserProject (User.id bob) 1 db)
     = Some "viewer"
  /\ answer (registerRoutes Js.asciiLower ssmUp 300 (Some bob) (GET_project_secrets 1) db)
     = mkResponse 200 (JSecrets [apiKey])
  /\ registerRoutes Js.asciiLower ssmUp 300 (Some bob) (DELETE_secret 1) db
     = ([Lookup 3 1], db, forbidden).
Proof.
  assert (Hbob : User.role bob <> "admin") by discriminate.
  assert (Hcarol : User.role carol <> "admin") by discriminate.
  split; [exact Hbob|]. split; [reflexivity|].
  split.
  { exact (proj1 (non_admin_needs_membership Js.asciiLower ssmUp 300 db carol Hcarol)
                 (GET_project_secrets 1) 1 eq_refl eq_refl). }
  split; [reflexivity|].
  destruct (proj2 (non_admin_needs_membership Js.asciiLower ssmUp 300 db bob Hbob)
                  1 (UserProject.mk 4 3 1 "viewer") eq_refl eq_refl)
    as [Hview Hmutate].
  split; [exact Hview|].
  exact (Hmutate (DELETE_secret 1) eq_refl eq_refl).
Defined.

Lemma create_put_failure_leaves_store_witness :
  let out := postSecrets Js.asciiLower ssmDown 300 (Some alice) newSecret db in
  ssmFailed (emitted out) = true
  /\ store out = db
  /\ secrets (store out) = secrets db
  /\ activity_logs (store out) = activity_logs db
  /\ noWrite (emitted out) = true
  /\ status (answer out) = 500.
Proof.
  split; [reflexivity|].
  exact (create_put_failure_leaves_store Js.asciiLower ssmDown 300 (Some alice) newSecret db
           eq_refl).
Defined.

Lemma delete_parameter_first_witness :
  getSecret 1 db = Some apiKey
  /\ permitted admin (Secret.projectId apiKey) ["admin"] db = true
  /\ (let out := deleteSecretRoute ssmGone 300 (Some admin) 1 db in
      emitted out
      = [Ssm (DeleteParameterCommand "/secrets-manager/frontend-api/API_KEY")
             false]
      /\ store out = db
      /\ getSecret 1 (store out) = Some apiKey
      /\ answer out
         = mkResponse 500
             (JMessageError "Failed to delete secret from AWS SSM"
                            "ParameterNotFound")).
Proof.
  split; [reflexivity|]. split; [reflexivity|].
  exact (delete_parameter_first ssmGone 300 db admin 1 apiKey eq_refl eq_refl).
Defined.

Lemma created_secret_path_and_value_witness :
  let out := postSecrets Js.asciiLower ssmUp 300 (Some alice) newSecret db in
  let stored :=
    Secret.mk 2 "DB Password" "hunter2" None 1
              "/secrets-manager/frontend-api/DB Password" (Some true) in
  status (answer out) = 201
  /\ (exists project secret segment,
        getProject 1 db = Some project
        /\ answer out = mkResponse 201 (JSecret secret)
        /\ In secret (secrets (store out))
        /\ (secretIdsDrawn db ->
            getSecret (Secret.id secret) (store out) = Some secret)
        /\ Secret.ssmPath secret
           = ("/secrets-manager/" ++ segment ++ "/" ++ "DB Password")%string
        /\ String.length segment
           = String.length (Js.asciiLower (Project.name project))
        /\ (forall i,
              String.get i segment
              = match String.get i (Js.asciiLower (Project.name project)) with
                | Some " "%char => Some "-"%char
                | other => other
                end)
        /\ Secret.name secret = "DB Password"
        /\ Secret.value secret = "hunter2"
        /\ In (Ssm (PutParameterCommand (Secret.ssmPath secret)
                      (Secret.value secret) TypeSecureString true) true)
              (emitted out))
  /\ answer out = mkResponse 201 (JSecret stored)
  /\ secrets (store out) = [apiKey; stored]
  /\ ssmCommands (emitted out)
     = [PutParameterCommand "/secrets-manager/frontend-api/DB Password"
          "hunter2" TypeSecureString true].
Proof.
  split; [reflexivity|]. split.
  - exact (created_secret_path_and_value Js.asciiLower ssmUp 300 (Some alice)
             newSecret db eq_refl).
  - repeat split.
Defined.


Lemma update_moves_secret_unchecked_witness :
  getUserProject (User.id alice) 2 db = None
  /\ (let out := putSecret ssmUp 300 (Some alice) 1 moveToAuth db in
      status (answer out) = 200
      /\ lookupsOf (emitted out) = [Lookup 2 1]
      /\ option_map Secret.projectId (getSecret 1 (store out)) = Some 2
      /\ option_map Secret.ssmPath (getSecret 1 (store out))
         = Some "/elsewhere").
Proof.
  split; [reflexivity|].
  assert (Halice : User.role alice <> "admin") by discriminate.
  destruct (update_moves_secret_unchecked ssmUp 300 db alice 1 apiKey
              (UserProject.mk 3 2 1 "editor") moveToAuth 2
              eq_refl Halice eq_refl eq_refl eq_refl (fun _ => eq_refl))
    as (Hstatus & Hlookups & Hrow & _ & _).
  split; [exact Hstatus|]. split; [exact Hlookups|].
  split; rewrite Hrow; reflexivity.
Defined.

End WorkedCases.

(** ** The in-memory storage *)

Section ListFacts.
Context {A B : Type}.

Lemma NoDup_map_filter (f : A -> B) (g : A -> bool) (l : list A) :
  NoDup (map f l) -> NoDup (map f (filter g l)).
Proof.
  induction l as [|x xs IH]; simpl; intros Hnd; [constructor|].
  inversion Hnd as [|? ? Hnotin Hnd']; subst.
  destruct (g x); simpl; [|now apply IH].
  constructor; [|now apply IH].
  intros Hin. apply Hnotin. apply in_map_iff in Hin.
  destruct Hin as (y & Hy & Hin). apply filter_In in Hin.
  apply in_map_iff. exists y. tauto.
Qed.

Lemma NoDup_map_same (f : A -> B) (l : list A) (a b : A) :
  NoDup (map f l) -> In a l -> In b l -> f a = f b -> a = b.
Proof.
  induction l as [|x xs IH]; simpl; intros Hnd Ha Hb Hf; [contradiction|].
  inversion Hnd as [|? ? Hnotin Hnd']; subst.
  destruct Ha as [->|Ha], Hb as [->|Hb].
  - reflexivity.
  - exfalso. apply Hnotin. rewrite Hf. now apply in_map.
  - exfalso. apply Hnotin. rewrite <- Hf. now apply in_map.
  - now apply IH.
Qed.

Lemma NoDup_map_count (f : A -> B) (g : A -> bool) (b : B) (l : list A) :
  (forall x, g x = true -> f x = b) ->
  NoDup (map f l) -> List.length (filter g l) <= 1.
Proof.
  intros Hg. induction l as [|x xs IH]; simpl; intros Hnd; [lia|].
  inversion Hnd as [|? ? Hnotin Hnd']; subst.
  destruct (g x) eqn:Hx; simpl; [|now apply IH].
  assert (Hnone : filter g xs = []).
  { destruct (filter g xs) as [|y ys] eqn:Hf; [reflexivity|].
    exfalso. apply Hnotin.
    assert (Hy : In y (filter g xs)) by (rewrite Hf; now left).
    apply filter_In in Hy. destruct Hy as [Hin Hgy].
    rewrite (Hg x Hx), <- (Hg y Hgy). now apply in_map. }
  rewrite Hnone. simpl. lia.
Qed.

End ListFacts.

Section JsMapFacts.
Context {V : Type}.
Implicit Types (m : JsMap.t V) (k : nat) (v : V).

Lemma JsMap_set_fresh k v m :
  ~ In k (JsMap.keys m) -> JsMap.set k v m = m ++ [(k, v)].
Proof.
  induction m as [|[k' v'] rest IH]; simpl; intros Hfresh; [reflexivity|].
  destruct (k' =? k) eqn:Hk.
  - apply Nat.eqb_eq in Hk. exfalso. apply Hfresh. now left.
  - rewrite IH; [reflexivity|]. intros Hin. apply Hfresh. now right.
Qed.

Lemma JsMap_set_keys_present k v m :
  In k (JsMap.keys m) -> JsMap.keys (JsMap.set k v m) = JsMap.keys m.
Proof.
  induction m as [|[k' v'] rest IH]; simpl; intros Hin; [contradiction|].
  destruct (k' =? k) eqn:Hk; simpl.
  - apply Nat.eqb_eq in Hk. now rewrite Hk.
  - f_equal. apply IH. destruct Hin as [Heq|Hin]; [|exact Hin].
    apply Nat.eqb_neq in Hk. contradiction.
Qed.

Lemma JsMap_set_has k v m : In (k, v) (JsMap.set k v m).
Proof.
  induction m as [|[k' v'] rest IH]; simpl; [now left|].
  destruct (k' =? k); [now left|now right].
Qed.

Lemma JsMap_set_entries k v m e :
  In e (JsMap.set k v m) -> e = (k, v) \/ In e m.
Proof.
  induction m as [|[k' v'] rest IH]; simpl.
  - intros [<-|[]]. now left.
  - destruct (k' =? k); simpl.
    + intros [<-|Hin]; [now left|right; now right].
    + intros [<-|Hin]; [right; now left|].
      destruct (IH Hin) as [->|Hin']; [now left|right; now right].
Qed.

Lemma JsMap_set_replace {B : Type} (f : V -> B) k v old m :
  NoDup (JsMap.keys m) -> In (k, old) m -> f v = f old ->
  map f (JsMap.values (JsMap.set k v m)) = map f (JsMap.values m).
Proof.
  unfold JsMap.keys, JsMap.values.
  induction m as [|[k' v'] rest IH]; simpl; intros Hnd Hin Hf;
    [contradiction|].
  inversion Hnd as [|? ? Hnotin Hnd']; subst.
  destruct (k' =? k) eqn:Hk; simpl.
  - apply Nat.eqb_eq in Hk; subst k'. destruct Hin as [Heq|Hin].
    + injection Heq as ->. now rewrite Hf.
    + exfalso. apply Hnotin. apply (in_map fst) in Hin. exact Hin.
  - f_equal. apply IH; auto. destruct Hin as [Heq|Hin]; [|exact Hin].
    injection Heq as -> _. apply Nat.eqb_neq in Hk. contradiction.
Qed.

Lemma JsMap_get_In k v m : JsMap.get k m = Some v -> In (k, v) m.
Proof.
  unfold JsMap.get. destruct (find _ m) as [[k' v']|] eqn:Hfind;
    simpl; [|discriminate].
  intros [= ->]. apply find_some in Hfind. destruct Hfind as [Hin Hk].
  simpl in Hk. apply Nat.eqb_eq in Hk. now subst.
Qed.

Lemma JsMap_delete_entries k m e :
  In e (fst (JsMap.delete k m)) <-> In e m /\ fst e <> k.
Proof.
  unfold JsMap.delete. simpl. rewrite filter_In.
  rewrite negb_true_iff, Nat.eqb_neq. tauto.
Qed.

Lemma JsMap_find_values (f : V -> bool) m v :
  find f (JsMap.values m) = Some v -> exists k, In (k, v) m /\ f v = true.
Proof.
  intros Hfind. apply find_some in Hfind. destruct Hfind as [Hin Hf].
  unfold JsMap.values in Hin. apply in_map_iff in Hin.
  destruct Hin as ([k v'] & Hv & Hin). simpl in Hv. subst v'.
  exists k. now split.
Qed.

End JsMapFacts.

Section MemStorageFacts.
Import MemStorage.

Lemma NoDup_snoc {A : Type} (l : list A) (x : A) :
  NoDup l -> ~ In x l -> NoDup (l ++ [x]).
Proof.
  induction l as [|y ys IH]; simpl; intros Hnd Hx.
  - constructor; [intros []|constructor].
  - inversion Hnd as [|? ? Hy Hnd']; subst. constructor.
    + intros Hin. apply in_app_or in Hin. destruct Hin as [Hin|[->|[]]].
      * contradiction.
      * apply Hx. now left.
    + apply IH; [exact Hnd'|]. intros Hin. apply Hx. now right.
Qed.

Lemma samePair_pairOf u p up : samePair u p up = true <-> pairOf up = (u, p).
Proof.
  unfold samePair, pairOf. rewrite andb_true_iff, !Nat.eqb_eq. split.
  - intros [-> ->]. reflexivity.
  - intros [= -> ->]. split; reflexivity.
Qed.

Lemma find_pair_none u p (l : list UserProjectObj) :
  find (samePair u p) l = None -> ~ In (u, p) (map pairOf l).
Proof.
  intros Hnone Hin. apply in_map_iff in Hin. destruct Hin as (up & Hp & Hin).
  apply (find_none _ _ Hnone) in Hin. apply samePair_pairOf in Hp. congruence.
Qed.

Lemma membershipInvariant_constructor : membershipInvariant constructor.
Proof.
  unfold membershipInvariant, constructor, pairs. simpl. repeat split.
  - repeat constructor; simpl; intuition discriminate.
  - intros k up H.
    repeat (destruct H as [H|H]; [injection H as <- <-; reflexivity|]).
    contradiction.
  - repeat constructor; simpl; intuition discriminate.
  - intros k H. repeat (destruct H as [<-|H]; [lia|]). contradiction.
Qed.

Lemma membershipInvariant_updateUserProjectRole u p r st :
  membershipInvariant st ->
  membershipInvariant (fst (updateUserProjectRole u p r st)).
Proof.
  intros Hinv. unfold updateUserProjectRole.
  destruct (getUserProject u p st) as [up|] eqn:Hfind; [|exact Hinv].
  destruct Hinv as (Hkeys & Hids & Hpairs & Hcounter).
  unfold getUserProject in Hfind. apply JsMap_find_values in Hfind.
  destruct Hfind as (k & Hin & Hsame).
  pose proof (Hids k up Hin) as Hk.
  assert (Hkin : In k (JsMap.keys (userProjects st))).
  { apply (in_map fst) in Hin. exact Hin. }
  unfold membershipInvariant, pairs in *. simpl. rewrite Hk.
  rewrite (JsMap_set_keys_present _ _ _ Hkin).
  rewrite (JsMap_set_replace pairOf k
             (mkUserProject k (up_userId up) (up_projectId up) r) up _
             Hkeys Hin eq_refl).
  repeat split; try assumption.
  intros k' up' Hin'. apply JsMap_set_entries in Hin'.
  destruct Hin' as [Heq|Hin']; [|now apply Hids].
  injection Heq as -> ->. reflexivity.
Qed.

Lemma membershipInvariant_assignUserToProject up st :
  membershipInvariant st ->
  membershipInvariant (fst (assignUserToProject up st)).
Proof.
  intros Hinv. unfold assignUserToProject.
  destruct (getUserProject _ _ st) as [existing|] eqn:Hfind.
  - now apply membershipInvariant_updateUserProjectRole.
  - destruct Hinv as (Hkeys & Hids & Hpairs & Hcounter).
    assert (Hfresh : ~ In (currentUserProjectId st)
                          (JsMap.keys (userProjects st))).
    { intros Hin. apply Hcounter in Hin. lia. }
    unfold membershipInvariant, pairs in *. simpl.
    rewrite (JsMap_set_fresh _ _ _ Hfresh).
    unfold JsMap.keys, JsMap.values in *. rewrite !map_app. simpl.
    repeat split.
    + now apply NoDup_snoc.
    + intros k up' Hin. apply in_app_or in Hin.
      destruct Hin as [Hin|[Heq|[]]]; [now apply Hids|].
      injection Heq as <- <-. reflexivity.
    + apply NoDup_snoc; [exact Hpairs|].
      apply (find_pair_none _ _ _ Hfind).
    + intros k Hin. apply in_app_or in Hin.
      destruct Hin as [Hin|[<-|[]]]; [|lia].
      apply Hcounter in Hin. lia.
Qed.

Lemma membershipInvariant_removeUserFromProject u p st :
  membershipInvariant st ->
  membershipInvariant (fst (removeUserFromProject u p st)).
Proof.
  intros Hinv. unfold removeUserFromProject.
  destruct (getUserProject u p st) as [up|]; [|exact Hinv].
  destruct Hinv as (Hkeys & Hids & Hpairs & Hcounter).
  unfold JsMap.delete, membershipInvariant, pairs in *. simpl.
  unfold JsMap.keys, JsMap.values in *. rewrite map_map in *.
  repeat split.
  - now apply NoDup_map_filter.
  - intros k up' Hin. apply filter_In in Hin. now apply Hids.
  - now apply NoDup_map_filter.
  - intros k Hin. apply in_map_iff in Hin. destruct Hin as (e & <- & Hin).
    apply filter_In in Hin. apply Hcounter. apply in_map. tauto.
Qed.

Lemma membershipInvariant_step st st' :
  membershipInvariant st -> step st st' -> membershipInvariant st'.
Proof.
  intros Hinv Hstep. destruct Hstep.
  - exact Hinv.
  - unfold updateSecret. destruct (JsMap.get id (secrets st)); exact Hinv.
  - exact Hinv.
  - now apply membershipInvariant_assignUserToProject.
  - now apply membershipInvariant_updateUserProjectRole.
  - now apply membershipInvariant_removeUserFromProject.
  - exact Hinv.
Qed.

Lemma reachable_membershipInvariant st :
  reachable st -> membershipInvariant st.
Proof.
  induction 1 as [|st st' _ IH Hstep].
  - exact membershipInvariant_constructor.
  - exact (membershipInvariant_step st st' IH Hstep).
Qed.

(** [MemStorage] keeps at most one membership object per
    [(userId, projectId)] pair, in every state it can reach. *)
Lemma MemStorage_at_most_one_row st :
  reachable st -> forall u p, countPair u p st <= 1.
Proof.
  intros Hreach u p.
  destruct (reachable_membershipInvariant st Hreach) as (_ & _ & Hpairs & _).
  unfold countPair. apply (NoDup_map_count pairOf _ (u, p)); [|exact Hpairs].
  intros up. apply samePair_pairOf.
Qed.

(** [MemStorage.assignUserToProject] on a pair that already has an object
    overwrites that object's role: same id, same number of objects, and
    the lookup now returns the object with the new role. *)
Lemma MemStorage_assign_overwrites st u p role existing :
  reachable st ->
  getUserProject u p st = Some existing ->
  let out := assignUserToProject (InsertUserProject.mk u p role) st in
  let updated := mkUserProject (up_id existing) u p role in
  snd out = Some updated
  /\ getUserProject u p (fst out) = Some updated
  /\ List.length (userProjects (fst out)) = List.length (userProjects st)
  /\ countPair u p (fst out) = 1.
Proof.
  intros Hreach Hfind out updated.
  assert (Hreach' : reachable (fst out)).
  { apply (reachable_step st); [exact Hreach|]. apply step_assignUserToProject. }
  pose proof (reachable_membershipInvariant _ Hreach') as (_ & _ & Hpairs' & _).
  pose proof (reachable_membershipInvariant _ Hreach) as (Hkeys & Hids & _ & _).
  pose proof Hfind as Hfound. unfold getUserProject in Hfound.
  apply JsMap_find_values in Hfound. destruct Hfound as (k & Hin & Hsame).
  apply samePair_pairOf in Hsame. injection Hsame as Hu Hp.
  assert (Hout : out = updateUserProjectRole u p role st).
  { subst out. unfold assignUserToProject. simpl. now rewrite Hfind. }
  assert (Hrun : out
                 = (mk (secrets st) (activityLogs st)
                       (JsMap.set (up_id existing) updated (userProjects st))
                       (currentSecretId st) (currentActivityLogId st)
                       (currentUserProjectId st),
                    Some updated)).
  { rewrite Hout. unfold updateUserProjectRole. rewrite Hfind.
    subst updated. now rewrite Hu, Hp. }
  assert (Hstored : In updated (JsMap.values (userProjects (fst out)))).
  { rewrite Hrun. simpl. unfold JsMap.values.
    apply (in_map snd _ (up_id existing, updated)). apply JsMap_set_has. }
  assert (Hlookup : getUserProject u p (fst out) = Some updated).
  { unfold getUserProject.
    destruct (find (samePair u p) (JsMap.values (userProjects (fst out))))
      as [found|] eqn:Hf.
    - apply find_some in Hf. destruct Hf as [Hfin Hfsame].
      apply samePair_pairOf in Hfsame. f_equal.
      apply (NoDup_map_same pairOf _ _ _ Hpairs' Hfin Hstored).
      rewrite Hfsame. reflexivity.
    - exfalso. apply (find_none _ _ Hf) in Hstored.
      unfold samePair in Hstored. simpl in Hstored.
      rewrite !Nat.eqb_refl in Hstored. discriminate. }
  split; [now rewrite Hrun|]. split; [exact Hlookup|]. split.
  - rewrite Hrun. simpl.
    rewrite <- (length_map fst (JsMap.set _ _ _)), <- (length_map fst (userProjects st)).
    fold (JsMap.keys (JsMap.set (up_id existing) updated (userProjects st))).
    rewrite JsMap_set_keys_present; [reflexivity|].
    rewrite (Hids k existing Hin). apply (in_map fst) in Hin. exact Hin.
  - pose proof (MemStorage_at_most_one_row _ Hreach' u p) as Hle.
    assert (Hge : 1 <= countPair u p (fst out)); [|lia].
    unfold countPair.
    assert (Hf : In updated
                    (filter (samePair u p)
                            (JsMap.values (userProjects (fst out))))).
    { apply filter_In. split; [exact Hstored|].
      unfold samePair. simpl. now rewrite !Nat.eqb_refl. }
    destruct (filter _ _); [contradiction|simpl; lia].
Qed.

End MemStorageFacts.

(** ** Project-scoped activity logs *)

Section ActivityLogs.
Import MemStorage.

Lemma In_insertNewestFirst x y l :
  In y (insertNewestFirst x l) <-> y = x \/ In y l.
Proof.
  induction l as [|z zs IH]; simpl.
  - intuition congruence.
  - destruct (ActivityLog.timestamp z <=? ActivityLog.timestamp x); simpl.
    + intuition congruence.
    + rewrite IH. intuition congruence.
Qed.

Lemma In_sortNewestFirst y l : In y (sortNewestFirst l) <-> In y l.
Proof.
  induction l as [|x xs IH]; simpl; [tauto|].
  rewrite In_insertNewestFirst, IH. intuition congruence.
Qed.

(** [PgStorage.getProjectActivityLogs] returns project entries only. *)
Lemma PgStorage_project_logs_only_project_entries projectId db entry :
  In entry (PgStorage.getProjectActivityLogs projectId db) <->
  In entry (PgStorage.activity_logs db)
  /\ ActivityLog.resourceType entry = "project"
  /\ ActivityLog.resourceId entry = projectId.
Proof.
  unfold PgStorage.getProjectActivityLogs.
  rewrite In_sortNewestFirst, filter_In, andb_true_iff, String.eqb_eq,
    Nat.eqb_eq.
  tauto.
Qed.

(** [PgStorage.assignUserToProject] always adds a row, whatever the table
    holds. *)
Lemma PgStorage_assign_always_inserts up db :
  PgStorage.user_projects (fst (PgStorage.assignUserToProject up db))
  = PgStorage.user_projects db ++ [snd (PgStorage.assignUserToProject up db)].
Proof. reflexivity. Qed.

(** [MemStorage.getProjectActivityLogs] returns the stored entries that are
    project entries of the project, or secret entries whose [resourceId] is
    the id of a secret stored with that [projectId]. *)
Lemma MemStorage_project_logs_spec projectId st entry :
  In entry (getProjectActivityLogs projectId st) <->
  In entry (JsMap.values (activityLogs st))
  /\ ((ActivityLog.resourceType entry = "project"
       /\ ActivityLog.resourceId entry = projectId)
      \/ (ActivityLog.resourceType entry = "secret"
          /\ exists s, In s (JsMap.values (secrets st))
                       /\ Secret.projectId s = projectId
                       /\ Secret.id s = ActivityLog.resourceId entry)).
Proof.
  unfold getProjectActivityLogs, inProjectScope.
  rewrite In_sortNewestFirst, filter_In, orb_true_iff, !andb_true_iff,
    !String.eqb_eq, Nat.eqb_eq, existsb_exists.
  split; intros [Hin Hscope]; (split; [exact Hin|]).
  - destruct Hscope as [Hproject|[Hsecret (id & Hid & Heq)]]; [now left|].
    right. split; [exact Hsecret|].
    apply in_map_iff in Hid. destruct Hid as (s & <- & Hs).
    apply filter_In in Hs. destruct Hs as [Hs Hp].
    apply Nat.eqb_eq in Hp, Heq. exists s. auto.
  - destruct Hscope as [Hproject|[Hsecret (s & Hs & Hp & Hid)]]; [now left|].
    right. split; [exact Hsecret|].
    exists (Secret.id s). split; [|now apply Nat.eqb_eq].
    apply in_map. apply filter_In. split; [exact Hs|now apply Nat.eqb_eq].
Qed.

Lemma secretsKeyed_step st st' :
  secretsKeyed st -> step st st' -> secretsKeyed st'.
Proof.
  unfold secretsKeyed. intros Hkeyed Hstep. destruct Hstep; try exact Hkeyed.
  - simpl. intros k s' Hin. apply JsMap_set_entries in Hin.
    destruct Hin as [Heq|Hin]; [|now apply Hkeyed].
    injection Heq as Hk Hs. subst k s'. reflexivity.
  - unfold updateSecret.
    destruct (JsMap.get id (secrets st)) as [existing|] eqn:Hget;
      [|exact Hkeyed].
    simpl. intros k s' Hin. apply JsMap_set_entries in Hin.
    destruct Hin as [Heq|Hin]; [|now apply Hkeyed].
    injection Heq as Hk Hs. subst k s'.
    simpl. apply Hkeyed. now apply JsMap_get_In.
  - unfold deleteSecret, JsMap.delete. simpl. intros k s' Hin.
    apply filter_In in Hin. now apply Hkeyed.
  - unfold assignUserToProject, updateUserProjectRole.
    destruct (getUserProject _ _ st); exact Hkeyed.
  - unfold updateUserProjectRole.
    destruct (getUserProject _ _ st); exact Hkeyed.
  - unfold removeUserFromProject.
    destruct (getUserProject _ _ st); exact Hkeyed.
Qed.

Lemma reachable_secretsKeyed st : reachable st -> secretsKeyed st.
Proof.
  induction 1 as [|st st' _ IH Hstep].
  - intros k s [].
  - exact (secretsKeyed_step st st' IH Hstep).
Qed.

(** In [MemStorage], the entry that records the creation of a secret is in
    the project's log while the secret is stored, and no longer after
    [deleteSecret]. *)
Lemma MemStorage_secret_entry_lifecycle st body now userId details :
  reachable st ->
  let created := createSecret body st in
  let secret := snd created in
  let logged :=
    logActivity now
      (InsertActivityLog.mk userId "created" "secret" (Secret.id secret) details)
      (fst created) in
  let entry := snd logged in
  let projectId := InsertSecret.projectId body in
  In entry (getProjectActivityLogs projectId (fst logged))
  /\ ~ In entry (getProjectActivityLogs projectId
                   (fst (deleteSecret (Secret.id secret) (fst logged)))).
Proof.
  intros Hreach created secret logged entry projectId.
  assert (Hkeyed : secretsKeyed (fst created)).
  { apply reachable_secretsKeyed. apply (reachable_step st); [exact Hreach|].
    apply step_createSecret. }
  split.
  - apply MemStorage_project_logs_spec. split.
    + simpl. unfold JsMap.values.
      apply (in_map snd _ (currentActivityLogId st, entry)).
      apply JsMap_set_has.
    + right. split; [reflexivity|]. exists secret. split; [|now split].
      simpl. unfold JsMap.values.
      apply (in_map snd _ (currentSecretId st, secret)). apply JsMap_set_has.
  - intros Hin. apply MemStorage_project_logs_spec in Hin.
    destruct Hin as [_ [[Hproject _]|[_ (s & Hs & _ & Hid)]]];
      [discriminate|].
    unfold deleteSecret, JsMap.delete in Hs. simpl in Hs.
    unfold JsMap.values in Hs. apply in_map_iff in Hs.
    destruct Hs as ([k s'] & Heq & Hs). simpl in Heq. subst s'.
    apply filter_In in Hs. destruct Hs as [Hs Hk]. simpl in Hk.
    apply negb_true_iff, Nat.eqb_neq in Hk.
    apply Hkeyed in Hs. simpl in Hid. congruence.
Qed.

End ActivityLogs.

(** ** Sequences stay ahead of the rows *)

Section Sequences.
Import PgStorage Routes.

Lemma secretIdsDrawn_emptyDb : secretIdsDrawn emptyDb.
Proof. intros s []. Qed.

Lemma secretIdsDrawn_createSecret s db :
  secretIdsDrawn db -> secretIdsDrawn (fst (createSecret s db)).
Proof.
  unfold secretIdsDrawn, createSecret. simpl. intros Hdrawn row Hin.
  apply in_app_or in Hin. destruct Hin as [Hin|[<-|[]]].
  - specialize (Hdrawn row Hin). lia.
  - simpl. lia.
Qed.

Lemma secretIdsDrawn_updateSecret id p db :
  secretIdsDrawn db -> secretIdsDrawn (fst (updateSecret id p db)).
Proof.
  unfold secretIdsDrawn, updateSecret. intros Hdrawn row.
  destruct (noValues p); cbn [fst secrets set_secrets secrets_id_seq];
    [apply Hdrawn|].
  intros Hin. apply updateWhere_In in Hin.
  destruct Hin as [Hin|(old & Hin & ->)]; [now apply Hdrawn|].
  rewrite applyPatch_id. now apply Hdrawn.
Qed.

Lemma secretIdsDrawn_deleteSecret id db :
  secretIdsDrawn db -> secretIdsDrawn (fst (deleteSecret id db)).
Proof.
  unfold secretIdsDrawn, deleteSecret. simpl. intros Hdrawn row Hin.
  apply filter_In in Hin. now apply Hdrawn.
Qed.

Lemma secretIdsDrawn_sample : secretIdsDrawn Sample.db.
Proof.
  intros s [<-|[]]. simpl. lia.
Qed.

End Sequences.

(* ------------------------------------------------------------------ *)
(** * Further properties of the routes *)

Section EveryRoute.
Import Routes PgStorage.

Variable toLowerCase : string -> string.
Variable ssmClient : SsmCommand -> SsmOutcome.
Variable now : nat.

Lemma authorize_cases user projectId roles db :
  authorize user projectId roles db = (lookups user projectId, db, Ok tt)
  \/ authorize user projectId roles db
     = (lookups user projectId, db, Return forbidden).
Proof.
  unfold authorize, lookups, bind, storage_getUserProject.
  destruct (String.eqb (User.role user) "admin"); simpl; [now left|].
  destruct (getUserProject (User.id user) projectId db) as [up|];
    [|now right].
  destruct roles as [roles|]; [|now left].
  destruct (Js.includes roles (UserProject.role up)); [now left|now right].
Qed.

Lemma lookups_noSsm user projectId l :
  noSsm (lookups user projectId ++ l) = noSsm l.
Proof.
  unfold lookups. destruct (String.eqb (User.role user) "admin"); reflexivity.
Qed.

Lemma lookups_ssmCommands user projectId l :
  ssmCommands (lookups user projectId ++ l) = ssmCommands l.
Proof.
  unfold lookups. destruct (String.eqb (User.role user) "admin"); reflexivity.
Qed.

(** Unfolds a route and splits on the outcome of its permission check. *)
Ltac open_route :=
  unfold registerRoutes, postUsers, getUsersRoute, getProjectsRoute,
    postProjects, getProjectRoute, getSecretsRoute, getProjectSecretsRoute,
    postSecrets, putSecret, deleteSecretRoute, postUserProjects,
    getProjectUsersRoute, getActivityLogsRoute, getProjectActivityLogsRoute,
    route, bind, isAuthenticated, isAdmin, ssmClient_send, reply, ret,
    storage_getUser, storage_getUsers, storage_createUser, storage_getProject,
    storage_getProjects, storage_getUserProjects, storage_createProject,
    storage_getSecret, storage_getSecrets, storage_getProjectSecrets,
    storage_createSecret, storage_updateSecret, storage_deleteSecret,
    storage_assignUserToProject, storage_getProjectUsers,
    storage_getActivityLogs, storage_getUserActivityLogs,
    storage_getProjectActivityLogs, storage_logActivity, query, write,
    emitted, store, answer.

Ltac split_check :=
  match goal with
  | |- context [authorize ?u ?p ?r ?db] =>
      let H := fresh "Hcheck" in
      destruct (authorize_cases u p r db) as [H|H]; rewrite H
  end.

Ltac reads_done :=
  try rewrite (mapM_reads _ _ projectUser_reads);
  try rewrite (mapM_reads _ _ enrich_reads);
  try rewrite (mapM_reads _ _ projectSecrets_reads).


(** A request answered 401, 403 or 404 changed nothing in the relational
    store, asked no write of it, and sent nothing to the parameter store. *)
Theorem refusals_have_no_effect :
  forall (req_user : option User.t) (req : Request) (db : Db),
    let out := registerRoutes toLowerCase ssmClient now req_user req db in
    refused (answer out) = true ->
    store out = db /\ noWrite (emitted out) = true /\ noSsm (emitted out) = true.
Proof.
  intros req_user req db out. subst out.
  destruct req_user as [user|]; cycle 1.
  { destruct req as [body| | |body|id| |id|body|id body|id|body|id| |id];
      try (intros _; repeat split; fail).
    open_route. destruct (createUser body db) as [db' [e|row]];
      simpl; discriminate. }
  destruct req as [body| | |body|id| |id|body|id body|id|body|id| |id];
    open_route.
  - destruct (createUser body db) as [db' [e|row]]; simpl; discriminate.
  - destruct (String.eqb (User.role user) "admin"); simpl;
      [discriminate|intros _; repeat split].
  - destruct (String.eqb (User.role user) "admin"); simpl; discriminate.
  - simpl. discriminate.
  - destruct (getProject id db); [|intros _; repeat split].
    split_check; simpl; [discriminate|intros _].
    rewrite <- (app_nil_r (lookups _ _)), lookups_noWrite, lookups_noSsm.
    repeat split.
  - destruct (String.eqb (User.role user) "admin"); simpl; [discriminate|].
    reads_done. simpl. discriminate.
  - split_check; simpl; [discriminate|intros _].
    rewrite <- (app_nil_r (lookups _ _)), lookups_noWrite, lookups_noSsm.
    repeat split.
  - split_check; simpl.
    + destruct (getProject (InsertSecret.projectId body) db); simpl.
      * destruct (ssmClient _); simpl; discriminate.
      * intros _. rewrite lookups_noWrite, lookups_noSsm. repeat split.
    + intros _.
      rewrite <- (app_nil_r (lookups _ _)), lookups_noWrite, lookups_noSsm.
      repeat split.
  - destruct (getSecret id db) as [secret|]; [|intros _; repeat split].
    split_check; simpl.
    + destruct (valueChanged body secret); simpl;
        [destruct (ssmClient _); simpl|];
        try (destruct (updateSecret id body db) as [db' [e|row]]; simpl);
        discriminate.
    + intros _.
      rewrite <- (app_nil_r (lookups _ _)), lookups_noWrite, lookups_noSsm.
      repeat split.
  - destruct (getSecret id db) as [secret|]; [|intros _; repeat split].
    split_check; simpl.
    + destruct (ssmClient _); simpl; discriminate.
    + intros _.
      rewrite <- (app_nil_r (lookups _ _)), lookups_noWrite, lookups_noSsm.
      repeat split.
  - split_check; simpl; [discriminate|intros _].
    rewrite <- (app_nil_r (lookups _ _)), lookups_noWrite, lookups_noSsm.
    repeat split.
  - split_check; simpl.
    + reads_done. simpl. discriminate.
    + intros _.
      rewrite <- (app_nil_r (lookups _ _)), lookups_noWrite, lookups_noSsm.
      repeat split.
  - destruct (String.eqb (User.role user) "admin"); simpl;
      reads_done; simpl; discriminate.
  - split_check; simpl.
    + reads_done. simpl. discriminate.
    + intros _.
      rewrite <- (app_nil_r (lookups _ _)), lookups_noWrite, lookups_noSsm.
      repeat split.
Qed.

Lemma updateSecret_activity_logs id p db :
  activity_logs (fst (updateSecret id p db)) = activity_logs db
  /\ activity_logs_id_seq (fst (updateSecret id p db)) = activity_logs_id_seq db.
Proof. unfold updateSecret. destruct (noValues p); split; reflexivity. Qed.

Lemma createUser_activity_logs body db :
  activity_logs (fst (createUser body db)) = activity_logs db.
Proof. unfold createUser. destruct (userConflict body db); reflexivity. Qed.

(** The activity log only grows, by at most one entry per request, and the
    entry a request adds carries the id of the session's user, the server
    clock and the next id of the sequence. *)
Theorem activity_log_only_grows :
  forall (req_user : option User.t) (req : Request) (db : Db),
    let out := registerRoutes toLowerCase ssmClient now req_user req db in
    activity_logs (store out) = activity_logs db
    \/ exists user entry,
         req_user = Some user
         /\ activity_logs (store out) = activity_logs db ++ [entry]
         /\ ActivityLog.userId entry = User.id user
         /\ ActivityLog.timestamp entry = now
         /\ ActivityLog.id entry = activity_logs_id_seq db.
Proof.
  intros req_user req db out. subst out.
  destruct req_user as [user|]; cycle 1.
  { left.
    destruct req as [body| | |body|id| |id|body|id body|id|body|id| |id];
      try reflexivity.
    open_route. pose proof (createUser_activity_logs body db) as Hlogs.
    destruct (createUser body db) as [db' [e|row]]; exact Hlogs. }
  destruct req as [body| | |body|id| |id|body|id body|id|body|id| |id];
    open_route.
  - left. pose proof (createUser_activity_logs body db) as Hlogs.
    destruct (createUser body db) as [db' [e|row]]; exact Hlogs.
  - left. destruct (String.eqb (User.role user) "admin"); reflexivity.
  - left. destruct (String.eqb (User.role user) "admin"); reflexivity.
  - right. eexists user, _. simpl. repeat split.
  - left. destruct (getProject id db); [|reflexivity].
    split_check; reflexivity.
  - left. destruct (String.eqb (User.role user) "admin"); simpl;
      [reflexivity|]. reads_done. reflexivity.
  - split_check; simpl; [|now left].
    right. eexists user, _. repeat split.
  - split_check; simpl; [|now left].
    destruct (getProject (InsertSecret.projectId body) db); simpl;
      [|now left].
    destruct (ssmClient _); simpl; [|now left].
    right. eexists user, _. repeat split.
  - destruct (getSecret id db) as [secret|]; [|now left].
    split_check; simpl; [|now left].
    destruct (valueChanged body secret); simpl;
      [destruct (ssmClient _); simpl; [|now left]|];
      (destruct (updateSecret id body db) as [db' [e|row]] eqn:Hupdated;
       pose proof (updateSecret_activity_logs id body db) as Hlogs;
       rewrite Hupdated in Hlogs; simpl in Hlogs |- *;
       destruct Hlogs as [Hlogs Hseq];
       [left; exact Hlogs
       |right; rewrite Hlogs, Hseq; eexists user, _; repeat split]).
  - destruct (getSecret id db) as [secret|]; [|now left].
    split_check; simpl; [|now left].
    destruct (ssmClient _); simpl; [|now left].
    right. eexists user, _. repeat split.
  - split_check; simpl; [|now left].
    right. eexists user, _. repeat split.
  - left. split_check; simpl; [|reflexivity]. reads_done. reflexivity.
  - left. destruct (String.eqb (User.role user) "admin"); simpl;
      reads_done; reflexivity.
  - left. split_check; simpl; [|reflexivity]. reads_done. reflexivity.
Qed.

Lemma lookups_only_ssmCommands user projectId :
  ssmCommands (lookups user projectId) = [].
Proof.
  unfold lookups. destruct (String.eqb (User.role user) "admin"); reflexivity.
Qed.

Ltac ssm_done :=
  cbn [fst snd app logActivity createSecret updateSecret deleteSecret
       assignUserToProject createProject];
  reads_done; cbn [fst snd app];
  rewrite ?lookups_ssmCommands, ?lookups_only_ssmCommands; simpl;
  (split; [lia|first [reflexivity|discriminate]]).

(** A request sends at most one command to the parameter store, and only
    the three routes that create, update or delete a secret send any. *)
Theorem parameter_store_use :
  forall (req_user : option User.t) (req : Request) (db : Db),
    let out := registerRoutes toLowerCase ssmClient now req_user req db in
    List.length (ssmCommands (emitted out)) <= 1
    /\ (mutatesSecret req = false -> ssmCommands (emitted out) = []).
Proof.
  intros req_user req db out. subst out.
  destruct req_user as [user|]; cycle 1.
  { destruct req as [body| | |body|id| |id|body|id body|id|body|id| |id];
      try (split; [simpl; lia|reflexivity]).
    open_route. destruct (createUser body db) as [db' [e|row]]; ssm_done. }
  destruct req as [body| | |body|id| |id|body|id body|id|body|id| |id];
    open_route.
  - destruct (createUser body db) as [db' [e|row]]; ssm_done.
  - destruct (String.eqb (User.role user) "admin"); ssm_done.
  - destruct (String.eqb (User.role user) "admin"); ssm_done.
  - ssm_done.
  - destruct (getProject id db); [split_check|]; ssm_done.
  - destruct (String.eqb (User.role user) "admin"); ssm_done.
  - split_check; ssm_done.
  - split_check; [|ssm_done]. cbn [fst snd].
    destruct (getProject (InsertSecret.projectId body) db); [|ssm_done].
    destruct (ssmClient _); ssm_done.
  - destruct (getSecret id db) as [secret|]; [|ssm_done].
    split_check; [|ssm_done]. cbn [fst snd].
    destruct (valueChanged body secret);
      [destruct (ssmClient _)|];
      try (destruct (updateSecret id body db) as [db' [e|row]]);
      ssm_done.
  - destruct (getSecret id db) as [secret|]; [|ssm_done].
    split_check; [|ssm_done]. cbn [fst snd].
    destruct (ssmClient _); ssm_done.
  - split_check; ssm_done.
  - split_check; ssm_done.
  - destruct (String.eqb (User.role user) "admin"); ssm_done.
  - split_check; ssm_done.
Qed.

Lemma lookups_only_noWrite user projectId :
  noWrite (lookups user projectId) = true.
Proof.
  unfold lookups. destruct (String.eqb (User.role user) "admin"); reflexivity.
Qed.

Ltac read_done :=
  cbn [fst snd app]; reads_done; cbn [fst snd app];
  rewrite ?lookups_noWrite, ?lookups_only_noWrite; split; reflexivity.

(** The [GET] routes other than the listing of a project's secrets never
    write: whatever they answer, the relational store is what it was. *)
Theorem reads_leave_store :
  forall (req_user : option User.t) (req : Request) (db : Db),
    onlyReads req = true ->
    let out := registerRoutes toLowerCase ssmClient now req_user req db in
    store out = db /\ noWrite (emitted out) = true.
Proof.
  intros req_user req db Hread out. subst out.
  destruct req_user as [user|]; cycle 1.
  { destruct req; try discriminate; split; reflexivity. }
  destruct req as [body| | |body|id| |id|body|id body|id|body|id| |id];
    try discriminate; open_route.
  - destruct (String.eqb (User.role user) "admin"); read_done.
  - destruct (String.eqb (User.role user) "admin"); read_done.
  - destruct (getProject id db); [split_check|]; read_done.
  - destruct (String.eqb (User.role user) "admin"); read_done.
  - split_check; read_done.
  - destruct (String.eqb (User.role user) "admin"); read_done.
  - split_check; read_done.
Qed.

(** Passing the membership-only check means being a global admin or having
    a row for the project. *)
Lemma authorize_member user projectId db :
  authorize user projectId None db = (lookups user projectId, db, Ok tt) ->
  User.role user = "admin" \/ isMember (User.id user) projectId db = true.
Proof.
  unfold authorize, lookups, bind, storage_getUserProject, isMember.
  destruct (String.eqb (User.role user) "admin") eqn:Hrole; simpl.
  - intros _. left. now apply String.eqb_eq.
  - unfold getUserProject.
    destruct (find _ (user_projects db)) as [up|] eqn:Hfind; [|discriminate].
    intros _. right. apply existsb_exists. exists up.
    apply find_some in Hfind. exact Hfind.
Qed.

(** A listing of a project's secrets that answers 200 was asked by a global
    admin or a member of the project, returns the secrets of that project,
    and leaves one new activity entry: "viewed", on the project, by the
    viewer, at the server's clock. No secret row changes. *)
Theorem listing_secrets_is_logged :
  forall (req_user : option User.t) (projectId : nat) (db : Db),
    let out :=
      registerRoutes toLowerCase ssmClient now req_user (GET_project_secrets projectId) db in
    status (answer out) = 200 ->
    exists user,
      req_user = Some user
      /\ (User.role user = "admin"
          \/ isMember (User.id user) projectId db = true)
      /\ answer out = mkResponse 200 (JSecrets (getProjectSecrets projectId db))
      /\ activity_logs (store out)
         = activity_logs db
           ++ [ActivityLog.mk (activity_logs_id_seq db) (User.id user)
                 "viewed" "project" projectId
                 (Some ("Viewed secrets in project with ID: "
                        ++ Js.showNat projectId)%string) now]
      /\ secrets (store out) = secrets db.
Proof.
  intros req_user projectId db out. subst out.
  destruct req_user as [user|]; [|discriminate].
  open_route. split_check; [|discriminate].
  intros _. exists user. split; [reflexivity|].
  split; [exact (authorize_member _ _ _ Hcheck)|].
  repeat split.
Qed.

(** Once [DELETE /api/secrets/:id] has answered 200, the secret is gone for
    every later request of any signed-in user: deleting it again or updating
    it answers 404 without a lookup, a write or a command to the parameter
    store. *)
Theorem deleted_secret_is_gone :
  forall (req_user : option User.t) (secretId : nat) (db : Db),
    let first :=
      registerRoutes toLowerCase ssmClient now req_user (DELETE_secret secretId) db in
    status (answer first) = 200 ->
    let notFound := mkResponse 404 (JMessage "Secret not found") in
    forall (later : User.t) (body : PartialSecret.t),
      registerRoutes toLowerCase ssmClient now (Some later) (DELETE_secret secretId)
                     (store first)
      = ([], store first, notFound)
      /\ registerRoutes toLowerCase ssmClient now (Some later) (PUT_secret secretId body)
                        (store first)
         = ([], store first, notFound).
Proof.
  intros req_user secretId db first. subst first.
  destruct req_user as [user|]; [|discriminate].
  unfold registerRoutes.
  destruct (getSecret secretId db) as [secret|] eqn:Hsecret.
  - rewrite (deleteSecretRoute_runs ssmClient now _ _ _ _ Hsecret). cbv zeta.
    destruct (permitted _ _ _ db); [|discriminate].
    destruct (ssmClient _); [|discriminate].
    intros _ later body. cbn [store fst snd].
    set (db' := fst (logActivity _ _ _)).
    assert (Hgone : getSecret secretId db' = None)
      by exact (getSecret_deleteSecret secretId db).
    clearbody db'.
    split; open_route; rewrite Hgone; reflexivity.
  - open_route. rewrite Hsecret. discriminate.
Qed.

End EveryRoute.

(* ------------------------------------------------------------------ *)
(** * Further properties of the relational store *)

Section StorageFacts.
Import PgStorage Routes.

Lemma isMember_projectIds userId projectId db :
  isMember userId projectId db
  = existsb (Nat.eqb projectId)
      (map UserProject.projectId
           (filter (fun up => UserProject.userId up =? userId)
                   (user_projects db))).
Proof.
  unfold isMember. induction (user_projects db) as [|x xs IH]; simpl;
    [reflexivity|].
  unfold samePair at 1.
  destruct (UserProject.userId x =? userId); simpl.
  - rewrite IH, (Nat.eqb_sym projectId). reflexivity.
  - exact IH.
Qed.

Lemma filter_none {A : Type} (f : A -> bool) (l : list A) :
  (forall x, In x l -> f x = false) -> filter f l = [].
Proof.
  induction l as [|x xs IH]; simpl; intros H; [reflexivity|].
  rewrite (H x (or_introl eq_refl)). apply IH. intros y Hy. apply H. now right.
Qed.

Lemma getUserProjects_filter (userId : nat) (db : Db) :
  getUserProjects userId db
  = filter (fun p => isMember userId (Project.id p) db) (projects db).
Proof.
  unfold getUserProjects.
  rewrite (filter_ext _ _ (fun p => isMember_projectIds userId (Project.id p) db)).
  destruct (map UserProject.projectId _) as [|pid [|pid' rest]].
  - symmetry. apply filter_none. reflexivity.
  - apply filter_ext. intros p. simpl. now rewrite orb_false_r.
  - reflexivity.
Qed.

(** [getUserProjects] returns the rows of [projects], in table order and
    each once, whose id the user has at least one membership row for; its
    three branches (no id, one id, several ids) agree on that. A project
    is returned exactly when it is stored and the user has a row for it. *)
Theorem getUserProjects_is_membership_filter :
  forall (userId : nat) (db : Db),
    getUserProjects userId db
    = filter (fun p => isMember userId (Project.id p) db) (projects db)
    /\ (forall p, In p (getUserProjects userId db)
                  <-> In p (projects db)
                      /\ isMember userId (Project.id p) db = true).
Proof.
  intros userId db. split; [apply getUserProjects_filter|].
  intros p. rewrite getUserProjects_filter, filter_In. tauto.
Qed.

(** *** Ordering of the activity log *)

Lemma insertNewestFirst_perm x l : Permutation (x :: l) (insertNewestFirst x l).
Proof.
  induction l as [|y ys IH]; simpl; [apply Permutation_refl|].
  destruct (ActivityLog.timestamp y <=? ActivityLog.timestamp x).
  - apply Permutation_refl.
  - eapply perm_trans; [apply perm_swap|]. now apply perm_skip.
Qed.

Lemma sortNewestFirst_perm l : Permutation l (sortNewestFirst l).
Proof.
  induction l as [|x xs IH]; simpl; [constructor|].
  eapply perm_trans; [apply perm_skip; exact IH|].
  apply insertNewestFirst_perm.
Qed.

Lemma insertNewestFirst_sorted x l :
  StronglySorted newerOrSame l ->
  StronglySorted newerOrSame (insertNewestFirst x l).
Proof.
  induction 1 as [|y ys Hsorted IH Hall]; simpl.
  - constructor; constructor.
  - destruct (ActivityLog.timestamp y <=? ActivityLog.timestamp x) eqn:Hle.
    + apply Nat.leb_le in Hle. constructor.
      * now constructor.
      * constructor; [exact Hle|].
        eapply Forall_impl; [|exact Hall]. unfold newerOrSame. intros; lia.
    + apply Nat.leb_gt in Hle. constructor; [exact IH|].
      apply Forall_forall. intros z Hz.
      apply (Permutation_in _ (Permutation_sym (insertNewestFirst_perm x ys)))
        in Hz.
      destruct Hz as [<-|Hz].
      * unfold newerOrSame. lia.
      * rewrite Forall_forall in Hall. now apply Hall.
Qed.

Lemma sortNewestFirst_sorted l : StronglySorted newerOrSame (sortNewestFirst l).
Proof.
  induction l as [|x xs IH]; simpl; [constructor|].
  now apply insertNewestFirst_sorted.
Qed.

Lemma insertNewestFirst_stable t x l :
  filter (atTime t) (insertNewestFirst x l) = filter (atTime t) (x :: l).
Proof.
  induction l as [|y ys IH]; [reflexivity|].
  simpl insertNewestFirst.
  destruct (ActivityLog.timestamp y <=? ActivityLog.timestamp x) eqn:Hle;
    [reflexivity|].
  apply Nat.leb_gt in Hle. simpl in *. rewrite IH. unfold atTime.
  destruct (ActivityLog.timestamp x =? t) eqn:Hx;
    destruct (ActivityLog.timestamp y =? t) eqn:Hy; try reflexivity.
  apply Nat.eqb_eq in Hx, Hy. lia.
Qed.

Lemma sortNewestFirst_stable t l :
  filter (atTime t) (sortNewestFirst l) = filter (atTime t) l.
Proof.
  induction l as [|x xs IH]; [reflexivity|].
  simpl sortNewestFirst. rewrite insertNewestFirst_stable.
  simpl. now rewrite IH.
Qed.

(** [PgStorage.getActivityLogs] returns every row of [activity_logs] once,
    ordered by decreasing timestamp. *)
Theorem PgStorage_logs_newest_first :
  forall (db : Db),
    Permutation (activity_logs db) (getActivityLogs db)
    /\ StronglySorted newerOrSame (getActivityLogs db).
Proof.
  intros db. split; [apply sortNewestFirst_perm|apply sortNewestFirst_sorted].
Qed.

(** [MemStorage.getActivityLogs] returns every stored entry once, ordered by
    decreasing timestamp, and entries stamped with the same time stay in the
    order they were logged. *)
Theorem MemStorage_logs_newest_first_stable :
  forall (st : MemStorage.t),
    let stored := JsMap.values (MemStorage.activityLogs st) in
    Permutation stored (MemStorage.getActivityLogs st)
    /\ StronglySorted newerOrSame (MemStorage.getActivityLogs st)
    /\ (forall t, filter (atTime t) (MemStorage.getActivityLogs st)
                  = filter (atTime t) stored).
Proof.
  intros st stored. split; [apply sortNewestFirst_perm|].
  split; [apply sortNewestFirst_sorted|].
  intros t. apply sortNewestFirst_stable.
Qed.

(** [getUserActivityLogs] returns exactly the entries of that user. *)
Theorem getUserActivityLogs_scope :
  forall (userId : nat) (db : Db) (entry : ActivityLog.t),
    In entry (getUserActivityLogs userId db)
    <-> In entry (activity_logs db) /\ ActivityLog.userId entry = userId.
Proof.
  intros userId db entry. unfold getUserActivityLogs.
  rewrite In_sortNewestFirst, filter_In, Nat.eqb_eq. tauto.
Qed.

(** *** Membership rows *)

Lemma samePair_other u p u' p' up :
  (u', p') <> (u, p) -> samePair u' p' up = true -> samePair u p up = false.
Proof.
  unfold samePair. intros Hne H. apply andb_true_iff in H.
  destruct H as [Hu Hp]. apply Nat.eqb_eq in Hu, Hp.
  apply andb_false_iff.
  destruct (Nat.eq_dec u u') as [->|Hu']; [|left; apply Nat.eqb_neq; congruence].
  right. apply Nat.eqb_neq. congruence.
Qed.

(** [removeUserFromProject] removes every row of the pair, duplicates
    included: it reports whether there was one, afterwards the lookup of the
    pair finds nothing, and the lookup of any other pair is unchanged. *)
Theorem removeUserFromProject_removes_pair :
  forall (userId projectId : nat) (db : Db),
    let out := removeUserFromProject userId projectId db in
    snd out = isMember userId projectId db
    /\ getUserProject userId projectId (fst out) = None
    /\ isMember userId projectId (fst out) = false
    /\ (forall u p, (u, p) <> (userId, projectId) ->
                    getUserProject u p (fst out) = getUserProject u p db).
Proof.
  intros userId projectId db out. subst out.
  unfold removeUserFromProject, getUserProject, isMember. simpl.
  split; [reflexivity|]. split; [apply find_filter_not|]. split.
  - destruct (existsb _ _) eqn:Hex; [|reflexivity].
    apply existsb_exists in Hex. destruct Hex as (up & Hin & Hsame).
    apply filter_In in Hin. destruct Hin as [_ Hnot].
    rewrite Hsame in Hnot. discriminate.
  - intros u p Hne. apply find_filter_other. intros up Hup.
    now rewrite (samePair_other _ _ _ _ _ Hne Hup).
Qed.

(** [updateUserProjectRole] sets the role on the rows of the pair and adds
    none: the lookup of the pair returns the row it returned before with the
    new role (nothing, if there was no row), the table keeps its length, and
    the lookup of any other pair is unchanged. *)
Theorem updateUserProjectRole_sets_role :
  forall (userId projectId : nat) (role : string) (db : Db),
    let out := updateUserProjectRole userId projectId role db in
    let renamed up :=
      UserProject.mk (UserProject.id up) (UserProject.userId up)
                     (UserProject.projectId up) role in
    snd out = option_map renamed (getUserProject userId projectId db)
    /\ getUserProject userId projectId (fst out) = snd out
    /\ List.length (user_projects (fst out)) = List.length (user_projects db)
    /\ (forall u p, (u, p) <> (userId, projectId) ->
                    getUserProject u p (fst out) = getUserProject u p db).
Proof.
  intros userId projectId role db out renamed. subst out renamed.
  unfold updateUserProjectRole, getUserProject.
  cbn [fst snd user_projects set_user_projects].
  split; [apply updateWhere_returning|].
  split; [apply updateWhere_find; intros r Hr; exact Hr|].
  split; [apply updateWhere_length|].
  intros u p Hne. apply updateWhere_find_other; intros r Hr.
  - apply (samePair_other u p userId projectId); [congruence|exact Hr].
  - apply (samePair_other u p userId projectId r); [congruence|exact Hr].
Qed.

(** *** Users *)

Lemma userConflict_false body db :
  userConflict body db = false ->
  forall r, In r (users db) ->
            User.username r <> InsertUser.username body
            /\ User.email r <> InsertUser.email body.
Proof.
  unfold userConflict. intros Hfree r Hin.
  destruct (String.eqb_spec (User.username r) (InsertUser.username body))
    as [Hu|Hu];
    destruct (String.eqb_spec (User.email r) (InsertUser.email body))
      as [He|He]; try (split; assumption);
    exfalso;
    assert (Hex : existsb
                    (fun r => String.eqb (User.username r)
                                         (InsertUser.username body)
                              || String.eqb (User.email r)
                                            (InsertUser.email body))
                    (users db) = true)
      by (apply existsb_exists; exists r; split; [exact Hin|];
          apply orb_true_iff;
          first [left; now apply String.eqb_eq|right; now apply String.eqb_eq]);
    congruence.
Qed.

(** [createUser] keeps usernames and emails distinct. A body that repeats a
    username or an email is rejected with the unique violation and the rows
    stay as they were; any other body adds one row, which the lookup by
    username then returns. *)
Theorem createUser_keeps_users_unique :
  forall (body : InsertUser.t) (db : Db),
    usersUnique db ->
    let out := createUser body db in
    usersUnique (fst out)
    /\ (userConflict body db = true ->
        snd out = inl UniqueViolation /\ users (fst out) = users db)
    /\ (userConflict body db = false ->
        exists row,
          snd out = inr row
          /\ users (fst out) = users db ++ [row]
          /\ getUserByUsername (InsertUser.username body) (fst out) = Some row).
Proof.
  intros body db [Hnames Hemails] out. subst out. unfold createUser.
  destruct (userConflict body db) eqn:Hconflict; simpl.
  - split; [split; assumption|]. split; [now split|discriminate].
  - pose proof (userConflict_false _ _ Hconflict) as Hfree.
    split; [|split; [discriminate|]].
    + unfold usersUnique. simpl. rewrite !map_app. simpl. split.
      * apply NoDup_snoc; [exact Hnames|]. intros Hin.
        apply in_map_iff in Hin. destruct Hin as (r & Hr & Hin).
        exact (proj1 (Hfree r Hin) Hr).
      * apply NoDup_snoc; [exact Hemails|]. intros Hin.
        apply in_map_iff in Hin. destruct Hin as (r & Hr & Hin).
        exact (proj2 (Hfree r Hin) Hr).
    + intros _. eexists. split; [reflexivity|]. split; [reflexivity|].
      unfold getUserByUsername. simpl. rewrite find_app_none.
      * simpl. now rewrite String.eqb_refl.
      * destruct (find _ (users db)) as [r|] eqn:Hfind; [|reflexivity].
        apply find_some in Hfind. destruct Hfind as [Hin Heq].
        apply String.eqb_eq in Heq. exfalso. exact (proj1 (Hfree r Hin) Heq).
Qed.

(** *** Secret rows *)

Lemma set_secrets_same db : set_secrets db (secrets db) (secrets_id_seq db) = db.
Proof. destruct db. reflexivity. Qed.

Lemma filter_all {A : Type} (f : A -> bool) (l : list A) :
  (forall x, In x l -> f x = true) -> filter f l = l.
Proof.
  induction l as [|x xs IH]; simpl; intros H; [reflexivity|].
  rewrite (H x (or_introl eq_refl)). f_equal. apply IH.
  intros y Hy. apply H. now right.
Qed.

Lemma map_unchanged {A : Type} (f : A -> A) (l : list A) :
  (forall x, In x l -> f x = x) -> map f l = l.
Proof.
  induction l as [|x xs IH]; simpl; intros H; [reflexivity|].
  rewrite (H x (or_introl eq_refl)). f_equal. apply IH.
  intros y Hy. apply H. now right.
Qed.

Lemma find_id_none_all id (l : list Secret.t) :
  find (fun s => Secret.id s =? id) l = None ->
  forall s, In s l -> (Secret.id s =? id) = false.
Proof. intros Hnone s Hin. exact (find_none _ _ Hnone s Hin). Qed.

Lemma find_other_id_filter id id' (l : list Secret.t) :
  id' <> id ->
  find (fun s => Secret.id s =? id')
       (filter (fun s => negb (Secret.id s =? id)) l)
  = find (fun s => Secret.id s =? id') l.
Proof.
  intros Hne. apply find_filter_other. intros s Hs.
  apply Nat.eqb_eq in Hs. apply negb_true_iff, Nat.eqb_neq. congruence.
Qed.

(** With ids drawn from the sequence, [createSecret] followed by
    [getSecret] on the new id returns the row just stored, every other
    lookup is unchanged, and the ids are still drawn from the sequence. *)
Theorem createSecret_then_getSecret :
  forall (s : InsertSecret.t) (db : Db),
    secretIdsDrawn db ->
    let out := createSecret s db in
    Secret.id (snd out) = secrets_id_seq db
    /\ getSecret (Secret.id (snd out)) (fst out) = Some (snd out)
    /\ (forall id, id <> Secret.id (snd out) ->
                   getSecret id (fst out) = getSecret id db)
    /\ secretIdsDrawn (fst out).
Proof.
  intros s db Hdrawn out. subst out.
  split; [reflexivity|]. split; [now apply getSecret_createSecret|].
  split; [|now apply secretIdsDrawn_createSecret].
  intros id Hne. unfold getSecret, createSecret. simpl.
  destruct (find (fun r => Secret.id r =? id) (secrets db)) as [r|] eqn:Hfind.
  - clear Hne. revert Hfind. induction (secrets db) as [|x xs IH]; simpl;
      [discriminate|].
    destruct (Secret.id x =? id); [trivial|exact IH].
  - rewrite (find_app_none _ _ _ Hfind). simpl in *.
    apply Nat.eqb_neq in Hne. rewrite Nat.eqb_sym in Hne.
    now rewrite Hne.
Qed.

(** [updateSecret] and [deleteSecret] act on the row with the given id and
    on no other. A patch without any key makes [updateSecret] throw and
    leaves the store as it was. With a patch that has a key, the update
    returns the patched row and the lookup then finds it, lookups of other
    ids are unchanged, and on an id that is not in the table the store
    stays as it was and [undefined] is returned. After a delete the lookup
    returns nothing, lookups of other ids are unchanged, and on an id that
    is not in the table the store stays as it was and [false] is
    returned. *)
Theorem updateSecret_deleteSecret_laws :
  forall (id : nat) (p : PartialSecret.t) (db : Db),
    let updated := updateSecret id p db in
    let deleted := deleteSecret id db in
    (noValues p = true -> updated = (db, inl NoValuesToSet))
    /\ (noValues p = false ->
        snd updated = inr (option_map (applyPatch p) (getSecret id db))
        /\ getSecret id (fst updated)
           = option_map (applyPatch p) (getSecret id db)
        /\ (forall id', id' <> id ->
              getSecret id' (fst updated) = getSecret id' db)
        /\ (getSecret id db = None -> updated = (db, inr None)))
    /\ getSecret id (fst deleted) = None
    /\ (forall id', id' <> id ->
          getSecret id' (fst deleted) = getSecret id' db)
    /\ (getSecret id db = None -> deleted = (db, false)).
Proof.
  intros id p db updated deleted. subst updated deleted.
  split; [apply updateSecret_throws|]. split.
  - intros Hkeys. rewrite (updateSecret_runs _ _ _ Hkeys).
    unfold getSecret. cbn [fst snd secrets set_secrets].
    split; [reflexivity|]. split; [|split].
    + rewrite updateWhere_find by (intros r Hr; exact Hr).
      apply updateWhere_returning.
    + intros id' Hne. apply updateWhere_find_other; intros r Hr;
        rewrite ?applyPatch_id; apply Nat.eqb_eq in Hr; apply Nat.eqb_neq;
        congruence.
    + intros Hnone. rewrite (updateWhere_none _ _ _ Hnone), Hnone.
      cbn [fst option_map]. now rewrite set_secrets_same.
  - unfold deleteSecret, getSecret. simpl.
    split; [apply find_filter_out|]. split.
    + intros id' Hne. now apply find_other_id_filter.
    + intros Hnone. pose proof (find_id_none_all _ _ Hnone) as Hall.
      rewrite filter_all.
      * rewrite set_secrets_same. f_equal.
        destruct (existsb _ _) eqn:Hex; [|reflexivity].
        apply existsb_exists in Hex. destruct Hex as (s & Hs & Hid).
        rewrite (Hall s Hs) in Hid. discriminate.
      * intros s Hs. now rewrite (Hall s Hs).
Qed.

End StorageFacts.

(* ------------------------------------------------------------------ *)
(** * Accounts and sessions *)

Section Accounts.
Import PgStorage Routes Auth.

Lemma getUser_fresh (id : nat) (l : list User.t) :
  (forall u, In u l -> User.id u < id) ->
  find (fun u => User.id u =? id) l = None.
Proof.
  induction l as [|x xs IH]; simpl; intros H; [reflexivity|].
  destruct (User.id x =? id) eqn:Hx.
  - apply Nat.eqb_eq in Hx. specialize (H x (or_introl eq_refl)). lia.
  - apply IH. intros u Hu. apply H. now right.
Qed.

(** Registration followed by a login with the same credentials: when the
    username and email are free and the ids are drawn from the sequence,
    [POST /api/auth/register] answers 201, signs the new user in, and the
    next request of that session sees the new row as [req.user]. A later
    [POST /api/auth/login] with the body's username and password answers 200
    as that user, provided they pass the login schema: a username of at
    least 3 and a password of at least 6 UTF-16 code units, which is what
    [z.string().min] counts. *)
Theorem register_then_login :
  forall (session : Session) (body : InsertUser.t) (db : Db),
    userConflict body db = false ->
    userIdsDrawn db ->
    let row :=
      User.mk (users_id_seq db) (InsertUser.username body)
              (InsertUser.password body) (InsertUser.email body)
              (InsertUser.fullName body)
              (withDefault "user" (InsertUser.role body)) in
    exists db',
      postAuthRegister session body db
      = (db', mkAuthResponse 201 (AUser row), Some (User.id row))
      /\ deserializeUser (Some (User.id row)) db' = Some row
      /\ localStrategy (InsertUser.username body) (InsertUser.password body) db'
         = Verified row
      /\ (3 <= Js.length (InsertUser.username body) ->
          6 <= Js.length (InsertUser.password body) ->
          forall s,
            postAuthLogin s (LoginUser.mk (InsertUser.username body)
                                          (InsertUser.password body)) db'
            = (mkAuthResponse 200 (AUser row), Some (User.id row))).
Proof.
  intros session body db Hfree Hdrawn row.
  pose proof (userConflict_false _ _ Hfree) as Hnew.
  set (db' := set_users db (users db ++ [row]) (S (users_id_seq db))).
  exists db'.
  split; [unfold postAuthRegister, createUser; rewrite Hfree; reflexivity|].
  assert (Hverified :
            localStrategy (InsertUser.username body) (InsertUser.password body)
              db'
            = Verified row).
  { unfold localStrategy, getUserByUsername. simpl. rewrite find_app_none.
    - simpl. now rewrite !String.eqb_refl.
    - destruct (find _ (users db)) as [r|] eqn:Hfind; [|reflexivity].
      apply find_some in Hfind. destruct Hfind as [Hin Heq].
      apply String.eqb_eq in Heq. exfalso. exact (proj1 (Hnew r Hin) Heq). }
  split; [|split; [exact Hverified|]].
  - unfold deserializeUser, getUser. simpl.
    rewrite find_app_none by (apply getUser_fresh; exact Hdrawn).
    simpl. now rewrite Nat.eqb_refl.
  - intros Hu Hp s. unfold postAuthLogin, loginUserSchema.
    cbn [LoginUser.username LoginUser.password].
    apply Nat.ltb_ge in Hu, Hp. rewrite Hu, Hp. cbn [app].
    rewrite Hverified. reflexivity.
Qed.

(** The registration schema puts no bound on the password, the login schema
    asks for six code units: an account registered with a shorter password
    (or a username under three code units) is created, and every login with
    those credentials is turned down with 400 before the password is even
    compared, leaving the session as it was. *)
Theorem short_credentials_lock_out :
  forall (session : Session) (body : InsertUser.t) (db : Db),
    userConflict body db = false ->
    Js.length (InsertUser.username body) < 3
    \/ Js.length (InsertUser.password body) < 6 ->
    let registered := postAuthRegister session body db in
    auth_status (snd (fst registered)) = 201
    /\ forall s db'',
         let login :=
           postAuthLogin s (LoginUser.mk (InsertUser.username body)
                                         (InsertUser.password body)) db'' in
         auth_status (fst login) = 400 /\ snd login = s.
Proof.
  intros session body db Hfree Hshort registered. subst registered.
  unfold postAuthRegister, createUser. rewrite Hfree. split; [reflexivity|].
  intros s db''. unfold postAuthLogin, loginUserSchema.
  simpl.
  destruct (Js.length (InsertUser.username body) <? 3) eqn:Hu;
    destruct (Js.length (InsertUser.password body) <? 6) eqn:Hp;
    simpl; try (split; reflexivity).
  apply Nat.ltb_ge in Hu, Hp. lia.
Qed.

(** A body that repeats a username or an email creates no row on either
    creation route, and neither signs anyone in; [POST /api/auth/register]
    answers 400 with its message, [POST /api/users] answers 500. *)
Theorem duplicate_user_is_rejected :
  forall (session : Session) (req_user : option User.t)
         (body : InsertUser.t) (db : Db),
    userConflict body db = true ->
    let registered := postAuthRegister session body db in
    let posted := postUsers req_user body db in
    snd (fst registered)
    = mkAuthResponse 400 (AMessage "Username or email already exists")
    /\ snd registered = session
    /\ users (fst (fst registered)) = users db
    /\ answer posted = mkResponse 500 (JMessage "Failed to create user")
    /\ users (store posted) = users db.
Proof.
  intros session req_user body db Hconflict registered posted.
  subst registered posted.
  unfold postAuthRegister, postUsers, route, bind, storage_createUser,
    createUser, answer, store.
  rewrite Hconflict. repeat split.
Qed.

End Accounts.

(* ------------------------------------------------------------------ *)
(** * Routes and storage together *)

Section Scenarios.
Import Routes PgStorage.

Variable toLowerCase : string -> string.
Variable ssmClient : SsmCommand -> SsmOutcome.
Variable now : nat.

(** Unfolds a route down to the storage calls it makes. *)
Ltac open_route :=
  unfold registerRoutes, postUsers, getUsersRoute, getProjectsRoute,
    postProjects, getProjectRoute, getSecretsRoute, getProjectSecretsRoute,
    postSecrets, putSecret, deleteSecretRoute, postUserProjects,
    getProjectUsersRoute, getActivityLogsRoute, getProjectActivityLogsRoute,
    route, bind, isAuthenticated, isAdmin, ssmClient_send, reply, ret,
    storage_getUser, storage_getUsers, storage_createUser, storage_getProject,
    storage_getProjects, storage_getUserProjects, storage_createProject,
    storage_getSecret, storage_getSecrets, storage_getProjectSecrets,
    storage_createSecret, storage_updateSecret, storage_deleteSecret,
    storage_assignUserToProject, storage_getProjectUsers,
    storage_getActivityLogs, storage_getUserActivityLogs,
    storage_getProjectActivityLogs, storage_logActivity, query, write,
    emitted, store, answer.

Lemma getProject_fresh (id : nat) (l : list Project.t) :
  (forall p, In p l -> Project.id p < id) ->
  find (fun p => Project.id p =? id) l = None.
Proof.
  induction l as [|x xs IH]; simpl; intros H; [reflexivity|].
  destruct (Project.id x =? id) eqn:Hx.
  - apply Nat.eqb_eq in Hx. specialize (H x (or_introl eq_refl)). lia.
  - apply IH. intros p Hp. apply H. now right.
Qed.

(** [POST /api/projects] by any signed-in user answers 201 and stores the
    project together with a membership row that makes the creator its
    admin. With project ids drawn from the sequence the new project is then
    found under its id; the creator passes the admin check of the project
    unless an older row already named them on that id, in which case the
    older row is the one the permission check keeps seeing. *)
Theorem project_creator_gets_admin_row :
  forall (user : User.t) (body : InsertProject.t) (db : Db),
    projectIdsDrawn db ->
    let out := registerRoutes toLowerCase ssmClient now (Some user) (POST_projects body) db in
    let project :=
      Project.mk (projects_id_seq db) (InsertProject.name body)
                 (InsertProject.description body) in
    let row :=
      UserProject.mk (user_projects_id_seq db) (User.id user)
                     (Project.id project) "admin" in
    answer out = mkResponse 201 (JProject project)
    /\ getProject (Project.id project) (store out) = Some project
    /\ user_projects (store out) = user_projects db ++ [row]
    /\ getUserProject (User.id user) (Project.id project) (store out)
       = match getUserProject (User.id user) (Project.id project) db with
         | Some older => Some older
         | None => Some row
         end
    /\ (getUserProject (User.id user) (Project.id project) db = None ->
        permitted user (Project.id project) ["admin"] (store out) = true).
Proof.
  intros user body db Hdrawn out project row. subst out.
  assert (Hlookup :
            getUserProject (User.id user) (Project.id project)
              (store (registerRoutes toLowerCase ssmClient now (Some user)
                        (POST_projects body) db))
            = match getUserProject (User.id user) (Project.id project) db with
              | Some older => Some older
              | None => Some row
              end).
  { unfold getUserProject. cbn. rewrite find_app. cbn.
    unfold samePair at 2. cbn. now rewrite !Nat.eqb_refl. }
  split; [reflexivity|]. split.
  { unfold getProject. cbn.
    rewrite find_app_none by (apply getProject_fresh; exact Hdrawn).
    cbn. now rewrite Nat.eqb_refl. }
  split; [reflexivity|]. split; [exact Hlookup|].
  intros Hnone. unfold permitted. rewrite Hlookup, Hnone. cbn.
  apply orb_true_r.
Qed.

(** [POST /api/user-projects], branch by branch. *)
Lemma postUserProjects_runs (user : User.t) (body : InsertUserProject.t)
  (db : Db) :
  exists activity,
    registerRoutes toLowerCase ssmClient now (Some user) (POST_user_projects body) db
    = if permitted user (InsertUserProject.projectId body) ["admin"] db then
        (lookups user (InsertUserProject.projectId body)
           ++ [Write (W_assignUserToProject body);
               Write (W_logActivity activity)],
         fst (logActivity now activity (fst (assignUserToProject body db))),
         mkResponse 201 (JUserProject (snd (assignUserToProject body db))))
      else (lookups user (InsertUserProject.projectId body), db, forbidden).
Proof.
  eexists. unfold registerRoutes, postUserProjects, route, isAuthenticated.
  unfold bind at 1. unfold ret at 1. unfold bind at 1.
  destruct (permitted user (InsertUserProject.projectId body) ["admin"] db)
    eqn:Hperm.
  - rewrite (authorize_permitted _ _ _ _ Hperm). reflexivity.
  - rewrite (authorize_not_permitted _ _ _ _ Hperm). reflexivity.
Qed.

(** [POST /api/user-projects] answers 201 exactly when the caller passes the
    admin check of the body's project; whether the target user or the
    project exist is never looked at. A 201 appends one row. If the target
    already had a row for the project, the lookup that the permission checks
    use still returns that older row: the new role does not take effect. *)
Theorem assignment_route_effect :
  forall (user : User.t) (body : InsertUserProject.t) (db : Db),
    let out :=
      registerRoutes toLowerCase ssmClient now (Some user) (POST_user_projects body) db in
    let target := InsertUserProject.userId body in
    let projectId := InsertUserProject.projectId body in
    let row :=
      UserProject.mk (user_projects_id_seq db) target projectId
                     (withDefault "viewer" (InsertUserProject.role body)) in
    (status (answer out) = 201 <-> permitted user projectId ["admin"] db = true)
    /\ (status (answer out) = 201 ->
        answer out = mkResponse 201 (JUserProject row)
        /\ user_projects (store out) = user_projects db ++ [row]
        /\ getUserProject target projectId (store out)
           = match getUserProject target projectId db with
             | Some older => Some older
             | None => Some row
             end).
Proof.
  intros user body db. cbv zeta.
  destruct (postUserProjects_runs user body db) as [activity ->].
  destruct (permitted user (InsertUserProject.projectId body) ["admin"] db).
  - split; [split; reflexivity|]. intros _.
    split; [reflexivity|]. split; [reflexivity|].
    unfold getUserProject. cbn. rewrite find_app. cbn.
    unfold samePair at 2. cbn. now rewrite !Nat.eqb_refl.
  - split; [split; discriminate|discriminate].
Qed.

Lemma ssmPathFor_injective project a b :
  ssmPathFor toLowerCase project a = ssmPathFor toLowerCase project b -> a = b.
Proof.
  unfold ssmPathFor. intros H.
  apply append_cancel_prefix in H. apply append_cancel_prefix in H.
  now apply append_cancel_prefix in H.
Qed.

(** Renaming a secret through [PUT /api/secrets/:id] never touches the
    parameter store and keeps the stored [ssmPath]: a secret whose path was
    built from its name at creation is, once renamed, no longer stored under
    the path its project and new name would give. *)
Theorem rename_keeps_parameter_path :
  forall (user : User.t) (secretId : nat) (secret : Secret.t)
         (project : Project.t) (newName : string) (db : Db),
    getSecret secretId db = Some secret ->
    permitted user (Secret.projectId secret) ["admin"; "editor"] db = true ->
    Secret.ssmPath secret = ssmPathFor toLowerCase project (Secret.name secret) ->
    newName <> Secret.name secret ->
    let body := PartialSecret.mk (Some newName) None None None None None in
    let out :=
      registerRoutes toLowerCase ssmClient now (Some user) (PUT_secret secretId body) db in
    exists row,
      getSecret secretId (store out) = Some row
      /\ answer out = mkResponse 200 (JSecretOpt (Some row))
      /\ Secret.name row = newName
      /\ Secret.ssmPath row = Secret.ssmPath secret
      /\ Secret.ssmPath row <> ssmPathFor toLowerCase project (Secret.name row)
      /\ ssmCommands (emitted out) = [].
Proof.
  intros user secretId secret project newName db Hsecret Hperm Hpath Hnew.
  cbv zeta. unfold registerRoutes.
  rewrite (putSecret_runs ssmClient now _ _ _ _ _ Hsecret), Hperm. cbv zeta.
  destruct (getSecret_updateSecret secretId
              (PartialSecret.mk (Some newName) None None None None None)
              db secret eq_refl Hsecret) as [Hreturned Hstored].
  unfold valueChanged. cbn [PartialSecret.value Js.truthyStr andb].
  rewrite Hreturned. cbn [emitted store answer fst snd app].
  eexists. split; [exact Hstored|]. split; [reflexivity|].
  split; [reflexivity|]. split; [reflexivity|]. split.
  - cbn. rewrite Hpath. intros H. apply ssmPathFor_injective in H.
    now apply Hnew.
  - rewrite lookups_ssmCommands. reflexivity.
Qed.

Lemma authorize_admin_or_member user projectId db :
  User.role user = "admin" \/ isMember (User.id user) projectId db = true ->
  authorize user projectId None db = (lookups user projectId, db, Ok tt).
Proof.
  unfold authorize, lookups, bind, storage_getUserProject, isMember.
  intros [Hadmin|Hmember].
  - rewrite Hadmin. reflexivity.
  - destruct (String.eqb (User.role user) "admin"); [reflexivity|]. simpl.
    unfold getUserProject.
    destruct (find _ (user_projects db)) as [up|] eqn:Hfind; [reflexivity|].
    apply existsb_exists in Hmember. destruct Hmember as (up & Hin & Hsame).
    rewrite (find_none _ _ Hfind up Hin) in Hsame. discriminate.
Qed.

(** [deleteProject] deletes the project row and nothing else. Afterwards
    the project answers 404 and no secret can be created in it, but its
    secrets and membership rows are still stored, and a member or a global
    admin still gets the secrets listed. *)
Theorem deleteProject_orphans_secrets :
  forall (user : User.t) (projectId : nat) (db : Db),
    let db' := fst (deleteProject projectId db) in
    getProject projectId db' = None
    /\ getProjectSecrets projectId db' = getProjectSecrets projectId db
    /\ user_projects db' = user_projects db
    /\ registerRoutes toLowerCase ssmClient now (Some user) (GET_project projectId) db'
       = ([], db', mkResponse 404 (JMessage "Project not found"))
    /\ (forall body,
          InsertSecret.projectId body = projectId ->
          permitted user projectId ["admin"; "editor"] db = true ->
          registerRoutes toLowerCase ssmClient now (Some user) (POST_secrets body) db'
          = (lookups user projectId, db',
             mkResponse 404 (JMessage "Project not found")))
    /\ (User.role user = "admin"
        \/ isMember (User.id user) projectId db = true ->
        answer (registerRoutes toLowerCase ssmClient now (Some user)
                  (GET_project_secrets projectId) db')
        = mkResponse 200 (JSecrets (getProjectSecrets projectId db))).
Proof.
  intros user projectId db db'.
  assert (Hgone : getProject projectId db' = None).
  { unfold getProject, db', deleteProject. simpl.
    apply (find_filter_not (fun r => Project.id r =? projectId)). }
  split; [exact Hgone|]. split; [reflexivity|]. split; [reflexivity|].
  split.
  { unfold registerRoutes, getProjectRoute, route, bind, isAuthenticated, ret,
      storage_getProject, query. now rewrite Hgone. }
  split.
  - intros body Hbody Hperm. unfold registerRoutes.
    rewrite postSecrets_runs. cbv zeta. rewrite Hbody.
    change (permitted user projectId ["admin"; "editor"] db')
      with (permitted user projectId ["admin"; "editor"] db).
    now rewrite Hperm, Hgone.
  - intros Hallowed.
    unfold registerRoutes, getProjectSecretsRoute, route, isAuthenticated.
    unfold bind at 1. unfold ret at 1. unfold bind at 1.
    rewrite (authorize_admin_or_member user projectId db' Hallowed).
    reflexivity.
Qed.

(** After [removeUserFromProject], a user who is not a global admin is
    refused on every route that checks that project: 403, with the store
    untouched (Scenario: the last admin row of a project is removed). *)
Theorem removed_member_is_refused :
  forall (user : User.t) (projectId : nat) (req : Request) (db : Db),
    User.role user <> "admin" ->
    let db' := fst (removeUserFromProject (User.id user) projectId db) in
    checkedProject req db' = Some projectId ->
    registerRoutes toLowerCase ssmClient now (Some user) req db'
    = ([Lookup (User.id user) projectId], db', forbidden).
Proof.
  intros user projectId req db Hrole db' Hp.
  assert (Hrow : getUserProject (User.id user) projectId db' = None).
  { unfold getUserProject, db', removeUserFromProject. simpl.
    apply find_filter_not. }
  clearbody db'.
  destruct req as [body| | |body|id| |id|body|id body|id|body|id| |id];
    simpl in Hp; try discriminate;
    try (destruct (getProject id db') as [project|] eqn:Hproject;
         simpl in Hp; [|discriminate]);
    try (destruct (getSecret id db') as [secret|] eqn:Hsecret;
         simpl in Hp; [|discriminate]);
    injection Hp as <-; open_route;
    rewrite ?Hproject, ?Hsecret;
    rewrite (authorize_no_row _ _ _ _ Hrole Hrow); reflexivity.
Qed.

(** What a user who is not a global admin gets listed: the projects they
    have a membership row for; the secrets of those projects, and no secret
    of any other project; and the activity entries they made themselves. *)
Theorem listings_are_scoped :
  forall (user : User.t) (db : Db),
    User.role user <> "admin" ->
    let member p := isMember (User.id user) p db = true in
    answer (registerRoutes toLowerCase ssmClient now (Some user) GET_projects db)
    = mkResponse 200
        (JProjects (filter (fun p => isMember (User.id user) (Project.id p) db)
                           (projects db)))
    /\ (exists listed,
          answer (registerRoutes toLowerCase ssmClient now (Some user) GET_secrets db)
          = mkResponse 200 (JSecrets listed)
          /\ forall s, In s listed
                       <-> In s (secrets db)
                           /\ member (Secret.projectId s)
                           /\ exists p, In p (projects db)
                                        /\ Project.id p = Secret.projectId s)
    /\ (exists items,
          answer (registerRoutes toLowerCase ssmClient now (Some user) GET_activity_logs db)
          = mkResponse 200 (JLogs items)
          /\ map log items = getUserActivityLogs (User.id user) db
          /\ forall item, In item items ->
                          In (log item) (activity_logs db)
                          /\ ActivityLog.userId (log item) = User.id user).
Proof.
  intros user db Hrole member. apply String.eqb_neq in Hrole.
  split; [|split].
  - open_route. rewrite Hrole. cbn [fst snd]. now rewrite getUserProjects_filter.
  - eexists. split.
    + open_route. rewrite Hrole. cbn [fst snd].
      rewrite (mapM_reads _ _ projectSecrets_reads). reflexivity.
    + intros s. rewrite in_concat. split.
      * intros (l & Hl & Hs). apply in_map_iff in Hl.
        destruct Hl as (p & <- & Hp).
        rewrite getUserProjects_filter in Hp. apply filter_In in Hp.
        destruct Hp as [Hp Hmember].
        unfold getProjectSecrets in Hs. apply filter_In in Hs.
        destruct Hs as [Hs Hid]. apply Nat.eqb_eq in Hid.
        split; [exact Hs|]. split; [unfold member; now rewrite Hid|].
        exists p. now split.
      * intros (Hs & Hmember & p & Hp & Hid).
        exists (getProjectSecrets (Project.id p) db). split.
        -- apply in_map_iff. exists p. split; [reflexivity|].
           rewrite getUserProjects_filter. apply filter_In.
           split; [exact Hp|]. unfold member in Hmember. now rewrite Hid.
        -- unfold getProjectSecrets. apply filter_In.
           split; [exact Hs|]. apply Nat.eqb_eq. now symmetry.
  - eexists. split; [|split].
    + open_route. rewrite Hrole. cbn [fst snd].
      rewrite (mapM_reads _ _ enrich_reads). reflexivity.
    + rewrite map_map. cbn [enriched log]. apply map_id.
    + intros item Hitem. apply in_map_iff in Hitem.
      destruct Hitem as (entry & <- & Hentry). cbn [enriched log].
      unfold getUserActivityLogs in Hentry.
      apply In_sortNewestFirst, filter_In in Hentry.
      destruct Hentry as [Hin Huser]. apply Nat.eqb_eq in Huser. now split.
Qed.

(** Once a secret has been deleted through the API, the log listing still
    answers 200 with every entry, and each entry about that secret (its
    creation, its deletion) comes back without its resource. *)
Theorem deleted_secret_entries_lose_resource :
  forall (req_user : option User.t) (secretId : nat) (db : Db),
    let first :=
      registerRoutes toLowerCase ssmClient now req_user (DELETE_secret secretId) db in
    status (answer first) = 200 ->
    forall (reader : User.t),
    exists items,
      answer (registerRoutes toLowerCase ssmClient now (Some reader) GET_activity_logs
                             (store first))
      = mkResponse 200 (JLogs items)
      /\ (User.role reader = "admin" ->
          map log items = getActivityLogs (store first))
      /\ (forall item,
            In item items ->
            ActivityLog.resourceType (log item) = "secret" ->
            ActivityLog.resourceId (log item) = secretId ->
            log_resource item = None).
Proof.
  intros req_user secretId db first. subst first.
  destruct req_user as [user|]; [|discriminate].
  unfold registerRoutes.
  destruct (getSecret secretId db) as [secret|] eqn:Hsecret; cycle 1.
  { unfold deleteSecretRoute, route, bind, isAuthenticated, ret,
      storage_getSecret, query. rewrite Hsecret. discriminate. }
  rewrite (deleteSecretRoute_runs ssmClient now _ _ _ _ Hsecret). cbv zeta.
  destruct (permitted _ _ _ db); [|discriminate].
  destruct (ssmClient _); [|discriminate].
  intros _ reader. cbn [store fst snd].
  set (db' := fst (logActivity _ _ _)).
  assert (Hgone : getSecret secretId db' = None)
    by exact (getSecret_deleteSecret secretId db).
  clearbody db'.
  exists (map (fun entry => enriched entry db')
              (if String.eqb (User.role reader) "admin"
               then getActivityLogs db'
               else getUserActivityLogs (User.id reader) db')).
  split; [|split].
  - open_route. cbn [fst snd].
    destruct (String.eqb (User.role reader) "admin"); cbn [fst snd];
      rewrite (mapM_reads _ _ enrich_reads); reflexivity.
  - intros Hadmin. rewrite Hadmin. cbn [String.eqb Ascii.eqb Bool.eqb].
    rewrite map_map. cbn [enriched log]. apply map_id.
  - intros item Hitem Htype Hid. apply in_map_iff in Hitem.
    destruct Hitem as (entry & <- & _). cbn [enriched log log_resource] in *.
    rewrite Htype, Hid, Hgone. reflexivity.
Qed.

(** Two creations whose projects have names that format alike and whose
    secrets have the same name put their values under the same parameter
    name, with Overwrite set: the later put replaces the earlier value in
    the parameter store, whichever projects the two secrets belong to. *)
Theorem same_formatted_name_same_parameter :
  forall (user1 user2 : User.t) (body1 body2 : InsertSecret.t)
         (project1 project2 : Project.t) (db1 db2 : Db),
    getProject (InsertSecret.projectId body1) db1 = Some project1 ->
    getProject (InsertSecret.projectId body2) db2 = Some project2 ->
    permitted user1 (InsertSecret.projectId body1) ["admin"; "editor"] db1
    = true ->
    permitted user2 (InsertSecret.projectId body2) ["admin"; "editor"] db2
    = true ->
    Js.replaceSpaces (toLowerCase (Project.name project1))
    = Js.replaceSpaces (toLowerCase (Project.name project2)) ->
    InsertSecret.name body1 = InsertSecret.name body2 ->
    exists path,
      ssmCommands
        (emitted (registerRoutes toLowerCase ssmClient now (Some user1)
                    (POST_secrets body1) db1))
      = [PutParameterCommand path (InsertSecret.value body1)
           (parameterType (InsertSecret.isEncrypted body1)) true]
      /\ ssmCommands
           (emitted (registerRoutes toLowerCase ssmClient now (Some user2)
                       (POST_secrets body2) db2))
         = [PutParameterCommand path (InsertSecret.value body2)
              (parameterType (InsertSecret.isEncrypted body2)) true].
Proof.
  intros user1 user2 body1 body2 project1 project2 db1 db2
         Hp1 Hp2 Hperm1 Hperm2 Hformat Hname.
  exists (ssmPathFor toLowerCase project1 (InsertSecret.name body1)).
  unfold registerRoutes. rewrite !postSecrets_runs. cbv zeta.
  rewrite Hperm1, Hperm2, Hp1, Hp2. unfold createCommand.
  replace (ssmPathFor toLowerCase project2 (InsertSecret.name body2))
    with (ssmPathFor toLowerCase project1 (InsertSecret.name body1))
    by (unfold ssmPathFor; now rewrite Hformat, Hname).
  split.
  - destruct (ssmClient (PutParameterCommand _ (InsertSecret.value body1) _ _));
      cbn [emitted fst snd]; rewrite lookups_ssmCommands; reflexivity.
  - destruct (ssmClient (PutParameterCommand _ (InsertSecret.value body2) _ _));
      cbn [emitted fst snd]; rewrite lookups_ssmCommands; reflexivity.
Qed.
End Scenarios.

(* ------------------------------------------------------------------ *)
(** * The formatted project name *)

Section FormattedName.
Import Routes.

(** The built-in, of which only its action on ASCII text is used here. *)
Variable toLowerCase : string -> string.
Hypothesis toLowerCase_ascii : Js.lowersAscii toLowerCase.

Lemma formatAscii_facts (c : ascii) :
  Js.formatAscii (Js.formatAscii c) = Js.formatAscii c
  /\ Js.formatAscii c <> " "%char
  /\ ~ (65 <= nat_of_ascii (Js.formatAscii c) <= 90)
  /\ (nat_of_ascii c <? 128) = (nat_of_ascii (Js.formatAscii c) <? 128).
Proof.
  destruct c as [[] [] [] [] [] [] [] []]; cbv;
    (split; [reflexivity|split; [discriminate|split; [lia|reflexivity]]]).
Qed.

Lemma formatted_ascii (s : string) :
  Js.replaceSpaces (Js.asciiLower s) = Js.mapChars Js.formatAscii s.
Proof.
  unfold Js.replaceSpaces, Js.asciiLower.
  induction s as [|c s IH]; cbn [Js.mapChars]; [reflexivity|].
  rewrite IH. reflexivity.
Qed.

Lemma mapChars_formatAscii_again (s : string) :
  Js.mapChars Js.formatAscii (Js.mapChars Js.formatAscii s)
  = Js.mapChars Js.formatAscii s.
Proof.
  induction s as [|c s IH]; cbn [Js.mapChars]; [reflexivity|].
  rewrite IH. f_equal. exact (proj1 (formatAscii_facts c)).
Qed.

Lemma mapChars_formatAscii_isAscii (s : string) :
  Js.isAscii (Js.mapChars Js.formatAscii s) = Js.isAscii s.
Proof.
  induction s as [|c s IH]; cbn [Js.mapChars Js.isAscii]; [reflexivity|].
  rewrite IH. f_equal. symmetry. exact (proj2 (proj2 (proj2 (formatAscii_facts c)))).
Qed.

(** On an ASCII name the formatting is the character map. *)
Lemma formatted_as_map (s : string) :
  Js.isAscii s = true ->
  Js.replaceSpaces (toLowerCase s) = Js.mapChars Js.formatAscii s.
Proof.
  intros Hs. rewrite (toLowerCase_ascii s Hs). apply formatted_ascii.
Qed.

(** The project segment of an [ssmPath] for a project whose name is made
    of ASCII characters, given that [toLowerCase] maps such a text by
    turning [A]..[Z] into [a]..[z]: formatting keeps the length of the
    name, leaves no space and no ASCII capital in it, and changes nothing
    when applied again. So a project that is named by another project's
    formatted name gets the same paths as that project. *)
Theorem formatted_name_normal_form :
  forall (name : string),
    Js.isAscii name = true ->
    let formatted := Js.replaceSpaces (toLowerCase name) in
    Js.replaceSpaces (toLowerCase formatted) = formatted
    /\ Js.isAscii formatted = true
    /\ String.length formatted = String.length name
    /\ (forall c, In c (list_ascii_of_string formatted) ->
                  c <> " "%char /\ ~ (65 <= nat_of_ascii c <= 90))
    /\ (forall id id' d d' secretName,
          ssmPathFor toLowerCase (Project.mk id' formatted d') secretName
          = ssmPathFor toLowerCase (Project.mk id name d) secretName).
Proof.
  intros name Hname formatted. subst formatted.
  rewrite (formatted_as_map name Hname).
  assert (Hascii : Js.isAscii (Js.mapChars Js.formatAscii name) = true)
    by (now rewrite mapChars_formatAscii_isAscii).
  assert (Hidem : Js.replaceSpaces (toLowerCase (Js.mapChars Js.formatAscii name))
                  = Js.mapChars Js.formatAscii name).
  { rewrite (formatted_as_map _ Hascii). apply mapChars_formatAscii_again. }
  split; [exact Hidem|]. split; [exact Hascii|]. split; [|split].
  - apply mapChars_length.
  - clear Hidem Hascii Hname.
    induction name as [|c s IH];
      cbn [Js.mapChars list_ascii_of_string]; [contradiction|].
    intros c' [<-|Hin];
      [split; [exact (proj1 (proj2 (formatAscii_facts c)))
              |exact (proj1 (proj2 (proj2 (formatAscii_facts c))))]
      |now apply IH].
  - intros id id' d d' secretName. unfold ssmPathFor.
    cbn [Project.name]. now rewrite Hidem, (formatted_as_map name Hname).
Qed.

End FormattedName.

(* ------------------------------------------------------------------ *)
(** * More on the in-memory storage *)

Section MemStorageLaws.
Import MemStorage.

Lemma JsMap_get_set_same {V : Type} k (v : V) m :
  JsMap.get k (JsMap.set k v m) = Some v.
Proof.
  unfold JsMap.get. induction m as [|[k' v'] rest IH]; simpl.
  - now rewrite Nat.eqb_refl.
  - destruct (k' =? k) eqn:Hk; simpl.
    + now rewrite Nat.eqb_refl.
    + rewrite Hk. exact IH.
Qed.

Lemma JsMap_get_set_other {V : Type} k k' (v : V) m :
  k' <> k -> JsMap.get k' (JsMap.set k v m) = JsMap.get k' m.
Proof.
  intros Hne. unfold JsMap.get. induction m as [|[k0 v0] rest IH]; simpl.
  - apply Nat.eqb_neq in Hne. rewrite Nat.eqb_sym in Hne. now rewrite Hne.
  - destruct (k0 =? k) eqn:Hk; simpl.
    + apply Nat.eqb_eq in Hk. subst k0.
      apply Nat.eqb_neq in Hne. rewrite Nat.eqb_sym in Hne. now rewrite Hne.
    + destruct (k0 =? k'); [reflexivity|exact IH].
Qed.

Lemma JsMap_get_delete_same {V : Type} k (m : JsMap.t V) :
  JsMap.get k (fst (JsMap.delete k m)) = None.
Proof.
  unfold JsMap.get, JsMap.delete. simpl.
  rewrite (find_filter_not (fun e : nat * V => fst e =? k)). reflexivity.
Qed.

Lemma JsMap_get_delete_other {V : Type} k k' (m : JsMap.t V) :
  k' <> k -> JsMap.get k' (fst (JsMap.delete k m)) = JsMap.get k' m.
Proof.
  intros Hne. unfold JsMap.get, JsMap.delete. simpl. f_equal.
  apply find_filter_other. intros e He. apply Nat.eqb_eq in He.
  apply negb_true_iff, Nat.eqb_neq. congruence.
Qed.

(** The secret methods of [MemStorage] as a keyed store, in any state:
    a created secret is found under the id it was given and the counter
    moves on; an update returns and stores the merged object, or returns
    nothing and changes nothing when the id is unknown; after a delete the
    id is unknown; and none of the three disturbs another id. *)
Theorem MemStorage_secret_laws :
  forall (st : t) (s : InsertSecret.t) (id : nat) (p : PartialSecret.t),
    let created := createSecret s st in
    let updated := updateSecret id p st in
    let deleted := deleteSecret id st in
    (Secret.id (snd created) = currentSecretId st
     /\ currentSecretId (fst created) = S (currentSecretId st)
     /\ getSecret (Secret.id (snd created)) (fst created) = Some (snd created))
    /\ (snd updated = option_map (applyPatch p) (getSecret id st)
        /\ getSecret id (fst updated) = snd updated
        /\ (getSecret id st = None -> fst updated = st))
    /\ getSecret id (fst deleted) = None
    /\ (forall id',
          (id' <> currentSecretId st ->
           getSecret id' (fst created) = getSecret id' st)
          /\ (id' <> id ->
              getSecret id' (fst updated) = getSecret id' st
              /\ getSecret id' (fst deleted) = getSecret id' st)).
Proof.
  intros st s id p created updated deleted. subst created updated deleted.
  unfold getSecret, createSecret, updateSecret, deleteSecret.
  split; [|split; [|split]].
  - cbn [fst snd secrets Secret.id currentSecretId].
    split; [reflexivity|]. split; [reflexivity|]. apply JsMap_get_set_same.
  - destruct (JsMap.get id (secrets st)) as [existing|] eqn:Hget;
      cbn [fst snd secrets option_map].
    + split; [reflexivity|]. split; [apply JsMap_get_set_same|discriminate].
    + split; [reflexivity|]. split; [exact Hget|reflexivity].
  - unfold JsMap.delete. cbn [fst snd secrets].
    exact (JsMap_get_delete_same id (secrets st)).
  - intros id'. split.
    + intros Hne. cbn [fst secrets]. now apply JsMap_get_set_other.
    + intros Hne. split.
      * destruct (JsMap.get id (secrets st)); cbn [fst secrets];
          [now apply JsMap_get_set_other|reflexivity].
      * unfold JsMap.delete. cbn [fst secrets].
        exact (JsMap_get_delete_other id id' (secrets st) Hne).
Qed.

(** In every state [MemStorage] can reach, [removeUserFromProject] leaves
    no object for the pair: it reports whether there was one, and afterwards
    the lookup of the pair finds nothing. *)
Theorem MemStorage_remove_then_lookup :
  forall (st : t) (u p : nat),
    reachable st ->
    let out := removeUserFromProject u p st in
    snd out = match getUserProject u p st with Some _ => true | None => false end
    /\ getUserProject u p (fst out) = None
    /\ countPair u p (fst out) = 0.
Proof.
  intros st u p Hreach out. subst out.
  destruct (reachable_membershipInvariant st Hreach)
    as (Hkeys & Hids & Hpairs & _).
  unfold removeUserFromProject.
  destruct (getUserProject u p st) as [found|] eqn:Hfind.
  - pose proof Hfind as Hfound. unfold getUserProject in Hfound.
    apply JsMap_find_values in Hfound. destruct Hfound as (k & Hin & Hsame).
    pose proof (Hids k found Hin) as Hk.
    unfold JsMap.delete. cbn [fst snd].
    assert (Hnone : forall up,
               In up (JsMap.values
                        (filter (fun e => negb (fst e =? up_id found))
                                (userProjects st))) ->
               samePair u p up = false).
    { intros up Hup. unfold JsMap.values in Hup. apply in_map_iff in Hup.
      destruct Hup as ([k' up'] & Heq & Hup). simpl in Heq. subst up'.
      apply filter_In in Hup. destruct Hup as [Hup Hkey]. simpl in Hkey.
      apply negb_true_iff, Nat.eqb_neq in Hkey.
      destruct (samePair u p up) eqn:Hup_same; [|reflexivity].
      exfalso. apply Hkey.
      assert (Heq : up = found).
      { apply (NoDup_map_same pairOf (JsMap.values (userProjects st)));
          [exact Hpairs| | |].
        - apply (in_map snd _ (k', up)). exact Hup.
        - apply (in_map snd _ (k, found)). exact Hin.
        - apply samePair_pairOf in Hup_same, Hsame. congruence. }
      subst up. rewrite <- (Hids k' found Hup). reflexivity. }
    split.
    + apply existsb_exists. exists (k, found). split; [exact Hin|].
      simpl. apply Nat.eqb_eq. now symmetry.
    + unfold getUserProject, countPair. cbn [userProjects].
      split.
      * destruct (find _ _) as [up|] eqn:Hf; [|reflexivity].
        apply find_some in Hf. destruct Hf as [Hup Hs].
        rewrite (Hnone up Hup) in Hs. discriminate.
      * rewrite filter_none; [reflexivity|exact Hnone].
  - cbn [fst snd]. split; [reflexivity|]. split; [exact Hfind|].
    unfold countPair. rewrite filter_none; [reflexivity|].
    intros up Hup. exact (find_none _ _ Hfind up Hup).
Qed.

End MemStorageLaws.

(* ------------------------------------------------------------------ *)
(** * Instances on the sample deployment *)

Section Instances.
Import Routes PgStorage Auth Sample.


Lemma refusals_have_no_effect_witness :
  let out := registerRoutes Js.asciiLower ssmUp 300 (Some carol) (GET_project_secrets 1) db in
  refused (answer out) = true
  /\ store out = db /\ noWrite (emitted out) = true /\ noSsm (emitted out) = true.
Proof.
  split; [reflexivity|].
  exact (refusals_have_no_effect Js.asciiLower ssmUp 300 (Some carol) (GET_project_secrets 1)
           db eq_refl).
Defined.

Lemma reads_leave_store_witness :
  onlyReads GET_secrets = true
  /\ (let out := registerRoutes Js.asciiLower ssmUp 300 (Some alice) GET_secrets db in
      store out = db /\ noWrite (emitted out) = true).
Proof.
  split; [reflexivity|].
  exact (reads_leave_store Js.asciiLower ssmUp 300 (Some alice) GET_secrets db eq_refl).
Defined.

Lemma listing_secrets_is_logged_witness :
  let out := registerRoutes Js.asciiLower ssmUp 300 (Some bob) (GET_project_secrets 1) db in
  status (answer out) = 200
  /\ exists user,
       Some bob = Some user
       /\ (User.role user = "admin" \/ isMember (User.id user) 1 db = true)
       /\ answer out = mkResponse 200 (JSecrets (getProjectSecrets 1 db))
       /\ activity_logs (store out)
          = activity_logs db
            ++ [ActivityLog.mk (activity_logs_id_seq db) (User.id user)
                  "viewed" "project" 1
                  (Some ("Viewed secrets in project with ID: "
                         ++ Js.showNat 1)%string) 300]
       /\ secrets (store out) = secrets db.
Proof.
  split; [reflexivity|].
  exact (listing_secrets_is_logged Js.asciiLower ssmUp 300 (Some bob) 1 db eq_refl).
Defined.

Lemma deleted_secret_is_gone_witness :
  let first := registerRoutes Js.asciiLower ssmUp 300 (Some admin) (DELETE_secret 1) db in
  status (answer first) = 200
  /\ registerRoutes Js.asciiLower ssmUp 300 (Some alice) (DELETE_secret 1) (store first)
     = ([], store first, mkResponse 404 (JMessage "Secret not found"))
  /\ registerRoutes Js.asciiLower ssmUp 300 (Some alice) (PUT_secret 1 newValueOnly)
                    (store first)
     = ([], store first, mkResponse 404 (JMessage "Secret not found")).
Proof.
  split; [reflexivity|].
  exact (deleted_secret_is_gone Js.asciiLower ssmUp 300 (Some admin) 1 db eq_refl
           alice newValueOnly).
Defined.

Lemma usersUnique_sample : usersUnique db.
Proof.
  split; simpl; repeat constructor; simpl; intuition discriminate.
Qed.

Lemma userIdsDrawn_sample : userIdsDrawn db.
Proof.
  intros u H. simpl in H.
  repeat (destruct H as [<-|H]; [simpl; lia|]). contradiction.
Qed.

Lemma projectIdsDrawn_sample : projectIdsDrawn db.
Proof.
  intros p H. simpl in H.
  repeat (destruct H as [<-|H]; [simpl; lia|]). contradiction.
Qed.

Lemma createUser_keeps_users_unique_witness :
  usersUnique db
  /\ userConflict dave db = false
  /\ usersUnique (fst (createUser dave db))
  /\ exists row,
       snd (createUser dave db) = inr row
       /\ users (fst (createUser dave db)) = users db ++ [row]
       /\ getUserByUsername "dave" (fst (createUser dave db)) = Some row.
Proof.
  split; [exact usersUnique_sample|]. split; [reflexivity|].
  destruct (createUser_keeps_users_unique dave db usersUnique_sample)
    as (Hunique & _ & Hadded).
  split; [exact Hunique|exact (Hadded eq_refl)].
Defined.

Lemma createSecret_then_getSecret_witness :
  secretIdsDrawn db
  /\ (let out := createSecret secretBody db in
      Secret.id (snd out) = 2
      /\ getSecret 2 (fst out) = Some (snd out)
      /\ getSecret 1 (fst out) = Some apiKey).
Proof.
  split; [exact secretIdsDrawn_sample|].
  assert (Hne : 1 <> 2) by discriminate.
  destruct (createSecret_then_getSecret secretBody db secretIdsDrawn_sample)
    as (Hid & Hget & Hother & _).
  split; [exact Hid|]. split; [exact Hget|]. exact (Hother 1 Hne).
Defined.

Lemma register_then_login_witness :
  userConflict dave db = false
  /\ userIdsDrawn db
  /\ exists db',
       postAuthRegister None dave db
       = (db',
          mkAuthResponse 201
            (AUser (User.mk 5 "dave" "dave-password" "dave@example.com"
                            "Dave" "user")),
          Some 5)
       /\ postAuthLogin None (LoginUser.mk "dave" "dave-password") db'
          = (mkAuthResponse 200
               (AUser (User.mk 5 "dave" "dave-password" "dave@example.com"
                               "Dave" "user")),
             Some 5).
Proof.
  split; [reflexivity|]. split; [exact userIdsDrawn_sample|].
  destruct (register_then_login None dave db eq_refl userIdsDrawn_sample)
    as (db' & Hregistered & _ & _ & Hlogin).
  exists db'. split; [exact Hregistered|].
  apply Hlogin; simpl; lia.
Defined.

Lemma short_credentials_lock_out_witness :
  userConflict erin db = false
  /\ Js.length (InsertUser.password erin) < 6
  /\ auth_status (snd (fst (postAuthRegister None erin db))) = 201
  /\ auth_status
       (fst (postAuthLogin None (LoginUser.mk "erin" "12345")
               (fst (fst (postAuthRegister None erin db))))) = 400.
Proof.
  assert (Hshort : Js.length (InsertUser.password erin) < 6)
    by (simpl; lia).
  split; [reflexivity|]. split; [exact Hshort|].
  destruct (short_credentials_lock_out None erin db eq_refl (or_intror Hshort))
    as [Hregistered Hlogin].
  split; [exact Hregistered|].
  exact (proj1 (Hlogin None (fst (fst (postAuthRegister None erin db))))).
Defined.

Lemma duplicate_user_is_rejected_witness :
  userConflict aliceAgain db = true
  /\ snd (fst (postAuthRegister None aliceAgain db))
     = mkAuthResponse 400 (AMessage "Username or email already exists")
  /\ answer (postUsers None aliceAgain db)
     = mkResponse 500 (JMessage "Failed to create user")
  /\ users (store (postUsers None aliceAgain db)) = users db.
Proof.
  split; [reflexivity|].
  destruct (duplicate_user_is_rejected None None aliceAgain db eq_refl)
    as (Hregister & _ & _ & Hposted & Hrows).
  split; [exact Hregister|]. split; [exact Hposted|exact Hrows].
Defined.

Lemma project_creator_gets_admin_row_witness :
  projectIdsDrawn db
  /\ (let out := registerRoutes Js.asciiLower ssmUp 300 (Some carol) (POST_projects billing) db in
      answer out = mkResponse 201 (JProject (Project.mk 3 "Billing" None))
      /\ getProject 3 (store out) = Some (Project.mk 3 "Billing" None)
      /\ permitted carol 3 ["admin"] (store out) = true).
Proof.
  split; [exact projectIdsDrawn_sample|].
  destruct (project_creator_gets_admin_row Js.asciiLower ssmUp 300 carol billing db
              projectIdsDrawn_sample)
    as (Hanswer & Hproject & _ & _ & Hadmin).
  split; [exact Hanswer|]. split; [exact Hproject|exact (Hadmin eq_refl)].
Defined.

Lemma rename_keeps_parameter_path_witness :
  getSecret 1 db = Some apiKey
  /\ Secret.ssmPath apiKey = ssmPathFor Js.asciiLower frontend (Secret.name apiKey)
  /\ exists row,
       getSecret 1 (store (registerRoutes Js.asciiLower ssmUp 300 (Some alice)
                             (PUT_secret 1 renameOnly) db)) = Some row
       /\ Secret.name row = "API_TOKEN"
       /\ Secret.ssmPath row = "/secrets-manager/frontend-api/API_KEY"
       /\ Secret.ssmPath row <> ssmPathFor Js.asciiLower frontend (Secret.name row).
Proof.
  split; [reflexivity|]. split; [reflexivity|].
  assert (Hnew : "API_TOKEN" <> Secret.name apiKey) by discriminate.
  destruct (rename_keeps_parameter_path Js.asciiLower ssmUp 300 alice 1 apiKey frontend
              "API_TOKEN" db eq_refl eq_refl eq_refl Hnew)
    as (row & Hrow & _ & Hname & Hpath & Hdrift & _).
  exists row. split; [exact Hrow|]. split; [exact Hname|].
  split; [exact Hpath|exact Hdrift].
Defined.

Lemma removed_member_is_refused_witness :
  User.role alice <> "admin"
  /\ (let db' := fst (removeUserFromProject (User.id alice) 1 db) in
      checkedProject (PUT_secret 1 newValueOnly) db' = Some 1
      /\ registerRoutes Js.asciiLower ssmUp 300 (Some alice) (PUT_secret 1 newValueOnly) db'
         = ([Lookup 2 1], db', forbidden)).
Proof.
  assert (Halice : User.role alice <> "admin") by discriminate.
  split; [exact Halice|]. split; [reflexivity|].
  exact (removed_member_is_refused Js.asciiLower ssmUp 300 alice 1 (PUT_secret 1 newValueOnly)
           db Halice eq_refl).
Defined.

Lemma listings_are_scoped_witness :
  User.role bob <> "admin"
  /\ answer (registerRoutes Js.asciiLower ssmUp 300 (Some bob) GET_projects db)
     = mkResponse 200 (JProjects [frontend]).
Proof.
  assert (Hbob : User.role bob <> "admin") by discriminate.
  split; [exact Hbob|].
  exact (proj1 (listings_are_scoped Js.asciiLower ssmUp 300 bob db Hbob)).
Defined.

Lemma deleted_secret_entries_lose_resource_witness :
  let first := registerRoutes Js.asciiLower ssmUp 300 (Some admin) (DELETE_secret 1) db in
  status (answer first) = 200
  /\ exists items,
       answer (registerRoutes Js.asciiLower ssmUp 300 (Some admin) GET_activity_logs
                              (store first))
       = mkResponse 200 (JLogs items)
       /\ (User.role admin = "admin" ->
           map log items = getActivityLogs (store first))
       /\ (forall item,
             In item items ->
             ActivityLog.resourceType (log item) = "secret" ->
             ActivityLog.resourceId (log item) = 1 ->
             log_resource item = None).
Proof.
  split; [reflexivity|].
  exact (deleted_secret_entries_lose_resource Js.asciiLower ssmUp 300 (Some admin) 1 db
           eq_refl admin).
Defined.

Lemma same_formatted_name_same_parameter_witness :
  Project.name frontend <> Project.name twin
  /\ exists path,
       ssmCommands
         (emitted (registerRoutes Js.asciiLower ssmUp 300 (Some admin)
                     (POST_secrets newSecret) dbTwin))
       = [PutParameterCommand path "hunter2" TypeSecureString true]
       /\ ssmCommands
            (emitted (registerRoutes Js.asciiLower ssmUp 300 (Some admin)
                        (POST_secrets twinSecret) dbTwin))
          = [PutParameterCommand path "other" TypeString true].
Proof.
  split; [discriminate|].
  exact (same_formatted_name_same_parameter Js.asciiLower ssmUp 300 admin admin
           newSecret twinSecret frontend twin dbTwin dbTwin
           eq_refl eq_refl eq_refl eq_refl eq_refl eq_refl).
Defined.

Lemma MemStorage_remove_then_lookup_witness :
  MemStorage.reachable MemStorage.constructor
  /\ (let out := MemStorage.removeUserFromProject 1 2 MemStorage.constructor in
      snd out = true
      /\ MemStorage.getUserProject 1 2 (fst out) = None
      /\ MemStorage.countPair 1 2 (fst out) = 0).
Proof.
  split; [exact MemStorage.reachable_constructor|].
  exact (MemStorage_remove_then_lookup MemStorage.constructor 1 2
           MemStorage.reachable_constructor).
Defined.

Lemma update_discipline_witness :
  getSecret 1 db = Some apiKey
  /\ permitted alice (Secret.projectId apiKey) ["admin"; "editor"] db = true
  /\ (let out := putSecret ssmDown 300 (Some alice) 1 newValueOnly db in
      emitted out
      = [Lookup 2 1;
         Ssm (PutParameterCommand "/secrets-manager/frontend-api/API_KEY"
                "rotated" TypeString true) false]
      /\ store out = db
      /\ status (answer out) = 500).
Proof.
  split; [reflexivity|]. split; [reflexivity|].
  exact (update_discipline ssmDown 300 db alice 1 newValueOnly apiKey
           eq_refl eq_refl).
Defined.

Lemma MemStorage_assign_overwrites_witness :
  MemStorage.reachable MemStorage.constructor
  /\ MemStorage.getUserProject 1 2 MemStorage.constructor
     = Some (MemStorage.mkUserProject 2 1 2 (Some "admin"))
  /\ (let out :=
        MemStorage.assignUserToProject
          (InsertUserProject.mk 1 2 (Some "viewer")) MemStorage.constructor in
      snd out = Some (MemStorage.mkUserProject 2 1 2 (Some "viewer"))
      /\ MemStorage.getUserProject 1 2 (fst out)
         = Some (MemStorage.mkUserProject 2 1 2 (Some "viewer"))
      /\ List.length (MemStorage.userProjects (fst out)) = 4
      /\ MemStorage.countPair 1 2 (fst out) = 1).
Proof.
  split; [exact MemStorage.reachable_constructor|]. split; [reflexivity|].
  exact (MemStorage_assign_overwrites MemStorage.constructor 1 2
           (Some "viewer") (MemStorage.mkUserProject 2 1 2 (Some "admin"))
           MemStorage.reachable_constructor eq_refl).
Defined.

Lemma formatted_name_normal_form_witness :
  Js.lowersAscii Js.asciiLower
  /\ Js.isAscii "Frontend API" = true
  /\ (let formatted := Js.replaceSpaces (Js.asciiLower "Frontend API") in
      formatted = "frontend-api"
      /\ Js.replaceSpaces (Js.asciiLower formatted) = formatted
      /\ String.length formatted = 12
      /\ ssmPathFor Js.asciiLower twin "API_KEY"
         = ssmPathFor Js.asciiLower frontend "API_KEY").
Proof.
  assert (Hlower : Js.lowersAscii Js.asciiLower) by (intros s _; reflexivity).
  split; [exact Hlower|]. split; [reflexivity|].
  destruct (formatted_name_normal_form Js.asciiLower Hlower "Frontend API"
              eq_refl)
    as (Hidem & _ & Hlength & _ & Hpaths).
  split; [reflexivity|]. split; [exact Hidem|]. split; [exact Hlength|].
  exact (Hpaths 1 3 (Some "Frontend API keys and configuration") None
                "API_KEY").
Defined.

End Instances.
